(** * Athan Center: the prayer-time scheduling and triggering core

    A shallow embedding of [app/server.js]: the persistent store (the SQLite
    tables the scheduling core reads and writes), the trigger scheduler
    ([scheduleAthanCalls]), the firing path ([playAthan]), the polling
    endpoint ([/api/check-athan-time]), the next-prayer and skip-next
    endpoints, the calendar refresh ([fetchPrayerTimes]) and the clock-drift
    monitor, followed by the properties of the specification that concern
    them.

    Conventions.  A JavaScript number that may be [NaN] is an [option Z]
    ([None] is [NaN]); a value that may be [undefined] or [null] is an
    [option]; a table is the list of its rows in rowid order; the [settings]
    table, whose primary key is [key], is a finite map. *)

From Stdlib Require Import ZArith String Ascii List Lia Bool Permutation Sorted.
From stdpp Require Import base option list gmap strings pretty.

Open Scope string_scope.
Open Scope Z_scope.

(** ** JavaScript primitives used by the server *)

Module JS.

(** A number or [NaN]. *)
Definition num := option Z.

Definition mul (a b : num) : num :=
  match a, b with Some x, Some y => Some (x * y) | _, _ => None end.
Definition add (a b : num) : num :=
  match a, b with Some x, Some y => Some (x + y) | _, _ => None end.
Definition sub (a b : num) : num :=
  match a, b with Some x, Some y => Some (x - y) | _, _ => None end.

(** Comparisons with [NaN] are false. *)
Definition geb (a : num) (k : Z) : bool :=
  match a with Some x => k <=? x | None => false end.
Definition leb (a : num) (k : Z) : bool :=
  match a with Some x => x <=? k | None => false end.

(** [s.split(sep)] for a one-character separator. *)
Fixpoint split_go (sep : ascii) (s : string) (cur : string) : list string :=
  match s with
  | EmptyString => [cur]
  | String c s' =>
      if Ascii.eqb c sep then cur :: split_go sep s' ""
      else split_go sep s' (cur +:+ String c "")
  end.
Definition split (sep : ascii) (s : string) : list string := split_go sep s "".

(** White space skipped by [parseInt] (the ASCII part of it). *)
Definition is_ws (c : ascii) : bool :=
  let n := N_of_ascii c in
  ((n =? 32) || ((9 <=? n) && (n <=? 13)))%N.

Fixpoint skip_ws (s : string) : string :=
  match s with
  | String c s' => if is_ws c then skip_ws s' else s
  | EmptyString => s
  end.

Definition digit_val (radix : Z) (c : ascii) : option Z :=
  let n := Z.of_N (N_of_ascii c) in
  let v :=
    if (48 <=? n) && (n <=? 57) then Some (n - 48)
    else if (97 <=? n) && (n <=? 122) then Some (n - 97 + 10)
    else if (65 <=? n) && (n <=? 90) then Some (n - 65 + 10)
    else None in
  match v with
  | Some d => if d <? radix then Some d else None
  | None => None
  end.

(** The longest prefix of digits, as a number; [acc] is [None] until a
    digit has been read. *)
Fixpoint digits (radix : Z) (s : string) (acc : num) : num :=
  match s with
  | String c s' =>
      match digit_val radix c with
      | Some d => digits radix s' (Some (match acc with Some a => a * radix + d | None => d end))
      | None => acc
      end
  | EmptyString => acc
  end.

Definition strip_hex (s : string) : option string :=
  match s with
  | String "0" (String "x" s') => Some s'
  | String "0" (String "X" s') => Some s'
  | _ => None
  end.

Definition parse_signed (radix : Z) (s : string) : num :=
  match s with
  | String "-" s' => Z.opp <$> digits radix s' None
  | String "+" s' => digits radix s' None
  | _ => digits radix s None
  end.

(** [parseInt(s)], radix left out: decimal unless the text starts [0x].
    The value is the integer the digits denote, which is JavaScript's
    result up to magnitude 2^53; beyond, JavaScript rounds to a double and
    this definition does not, so a statement about the value parsed from
    an arbitrary text carries that bound. *)
Definition parseInt (s : string) : num :=
  let s := skip_ws s in
  let '(neg, body) :=
    match s with
    | String "-" s' => (true, s')
    | String "+" s' => (false, s')
    | _ => (false, s)
    end in
  let r :=
    match strip_hex body with
    | Some h => digits 16 h None
    | None => digits 10 body None
    end in
  if neg then Z.opp <$> r else r.

(** [parseInt(s, 10)]. *)
Definition parseInt10 (s : string) : num := parse_signed 10 (skip_ws s).

(** [parseInt(x)] of a value that may be [undefined]: the text
    ["undefined"] has no digit. *)
Definition parseInt_opt (o : option string) : num :=
  match o with Some s => parseInt s | None => None end.

(** [String(n).padStart(2, '0')]. *)
Definition padStart2 (n : Z) : string :=
  let s := pretty n in
  match String.length s with
  | 0%nat => "00"
  | 1%nat => "0" +:+ s
  | _ => s
  end.

(** [xs.includes(x)] on an array of strings. *)
Definition includes (xs : list string) (x : string) : bool :=
  existsb (String.eqb x) xs.

(** Text comparison, as JavaScript's [<], [>=] on strings and SQLite's
    BINARY collation do it (code unit by code unit, on ASCII text). *)
Definition str_lt (a b : string) : bool := String.ltb a b.
Definition str_le (a b : string) : bool := String.leb a b.

(** [a < k] and [a > k] on a number that may be [NaN]. *)
Definition ltb (a : num) (k : Z) : bool :=
  match a with Some x => x <? k | None => false end.
Definition gtb (a : num) (k : Z) : bool :=
  match a with Some x => k <? x | None => false end.

(** [xs.join(sep)]. *)
Fixpoint join (sep : string) (xs : list string) : string :=
  match xs with
  | [] => ""
  | [x] => x
  | x :: xs' => x +:+ sep +:+ join sep xs'
  end.

(** [s.trim()] (the ASCII part of the white space it strips). *)
Fixpoint rev_onto (s acc : string) : string :=
  match s with
  | EmptyString => acc
  | String c s' => rev_onto s' (String c acc)
  end.
Definition trim (s : string) : string :=
  rev_onto (skip_ws (rev_onto (skip_ws s) "")) "".

End JS.

(** ** Dates *)

(** The civil date a [Date] shows in the server's time zone:
    [getFullYear()], [getMonth()] (0 to 11) and [getDate()]. *)
Record LocalDate := mkLocalDate {
  getFullYear : Z;
  getMonth : Z;
  getDate : Z
}.

(** What the server reads from a [Date] object. *)
Record JsDate := mkJsDate {
  local : LocalDate;
  getHours : Z;
  getMinutes : Z;
  getDay : Z;              (* 0 = Sunday ... 6 = Saturday *)
  toISOString : string;    (* UTC, "YYYY-MM-DDTHH:MM:SS.sssZ" *)
  getTime : Z              (* milliseconds since the epoch *)
}.

Definition is_leap (y : Z) : bool :=
  ((y mod 4 =? 0) && negb (y mod 100 =? 0)) || (y mod 400 =? 0).

Definition days_in_month (y m : Z) : Z :=
  if m =? 1 then (if is_leap y then 29 else 28)
  else if (m =? 3) || (m =? 5) || (m =? 8) || (m =? 10) then 30
  else 31.

(** Carry of a day of month that ran past the end of its month (one month
    at most, which is all [+1] day and [+3] months can need). *)
Definition carry_day (d : LocalDate) : LocalDate :=
  let dim := days_in_month (getFullYear d) (getMonth d) in
  if getDate d <=? dim then d
  else if getMonth d =? 11
       then mkLocalDate (getFullYear d + 1) 0 (getDate d - dim)
       else mkLocalDate (getFullYear d) (getMonth d + 1) (getDate d - dim).

(** [d.setDate(d.getDate() + 1)]. *)
Definition setDate_next (d : LocalDate) : LocalDate :=
  carry_day (mkLocalDate (getFullYear d) (getMonth d) (getDate d + 1)).

(** [d.setMonth(d.getMonth() + 3)]. *)
Definition setMonth_plus3 (d : LocalDate) : LocalDate :=
  let m := getMonth d + 3 in
  carry_day (if m <=? 11 then mkLocalDate (getFullYear d) m (getDate d)
             else mkLocalDate (getFullYear d + 1) (m - 12) (getDate d)).

(** [formatDateLocal]: YYYY-MM-DD in local time. *)
Definition formatDateLocal (d : LocalDate) : string :=
  pretty (getFullYear d) +:+ "-" +:+ JS.padStart2 (getMonth d + 1) +:+ "-"
    +:+ JS.padStart2 (getDate d).

(** The text HH:MM of a time of day. *)
Definition hhmm (h m : Z) : string :=
  JS.padStart2 h +:+ ":" +:+ JS.padStart2 m.

(** [now.toTimeString().split(' ')[0].substring(0, 5)]: local HH:MM. *)
Definition timeHHMM (d : JsDate) : string := hhmm (getHours d) (getMinutes d).

(** [now.toISOString().split('T')[0]]: the UTC calendar date. *)
Definition isoDate (d : JsDate) : string :=
  match JS.split "T" (toISOString d) with
  | s :: _ => s
  | [] => ""
  end.

(** [parseInt(t.split(':')[0]) * 60 + parseInt(t.split(':')[1])]. *)
Definition minutesOf (t : string) : JS.num :=
  let parts := JS.split ":" t in
  JS.add (JS.mul (JS.parseInt_opt (parts !! 0%nat)) (Some 60))
         (JS.parseInt_opt (parts !! 1%nat)).

(** ** The persistent store *)

(** A row of [prayers] (the surrogate [id] column is left out; the order of
    the list is the rowid order).  [UNIQUE(date, prayer_name)]. *)
Record PrayerRow := mkPrayer {
  date : string;
  prayer_name : string;
  prayer_time : string
}.

(** The single row ([id = 1]) of [skip_next]. *)
Record SkipNext := mkSkipNext {
  skip : Z;
  last_skipped_prayer : option string;
  last_skipped_date : option string
}.

(** A row of [prayer_schedule]: [day_of_week] 0 = Monday ... 6 = Sunday.
    [UNIQUE(prayer_name, day_of_week)]. *)
Record ScheduleRow := mkCell {
  cell_prayer : string;
  day_of_week : Z;
  enabled : Z
}.

(** A row of [muted_weekdays]: [weekday] 0 = Sunday ... 6 = Saturday. *)
Record MutedWeekday := mkMuted {
  weekday : Z;
  muted : Z
}.

(** The single row of [update_info]. *)
Record UpdateInfo := mkUpdateInfo {
  last_update : option string;
  prayers_count : Z;
  city_name : option string;
  next_update : option string
}.

Record Db := mkDb {
  prayers : list PrayerRow;
  settings : gmap string string;
  skip_next : option SkipNext;
  prayer_schedule : list ScheduleRow;
  muted_weekdays : list MutedWeekday;
  update_info : option UpdateInfo
}.

Definition set_prayers (ps : list PrayerRow) (d : Db) : Db :=
  mkDb ps (settings d) (skip_next d) (prayer_schedule d) (muted_weekdays d) (update_info d).
Definition set_skip_next (s : option SkipNext) (d : Db) : Db :=
  mkDb (prayers d) (settings d) s (prayer_schedule d) (muted_weekdays d) (update_info d).
Definition set_prayer_schedule (s : list ScheduleRow) (d : Db) : Db :=
  mkDb (prayers d) (settings d) (skip_next d) s (muted_weekdays d) (update_info d).
Definition set_muted_weekdays (m : list MutedWeekday) (d : Db) : Db :=
  mkDb (prayers d) (settings d) (skip_next d) (prayer_schedule d) m (update_info d).
Definition set_update_info (u : option UpdateInfo) (d : Db) : Db :=
  mkDb (prayers d) (settings d) (skip_next d) (prayer_schedule d) (muted_weekdays d) u.
Definition set_settings (m : gmap string string) (d : Db) : Db :=
  mkDb (prayers d) m (skip_next d) (prayer_schedule d) (muted_weekdays d) (update_info d).

(** The tables the scheduling core does not read are kept beside [Db]. *)

(** A row of [prayer_checks]. [UNIQUE(date, prayer_name)]. *)
Record PrayerCheck := mkChecked {
  check_date : string;
  check_prayer : string;
  checked : Z;
  checked_at : option string
}.

(** The single row ([id = 1]) of [friday_quran_trigger]. *)
Record FridayTrigger := mkTrigger {
  should_play : Z;
  last_played_date : option string;
  last_played_time : option string
}.

(** [const prayerNames = ['Fajr', 'Dhuhr', 'Asr', 'Maghrib', 'Isha']], which
    every handler repeats as [mainPrayers]. *)
Definition prayerNames : list string := ["Fajr"; "Dhuhr"; "Asr"; "Maghrib"; "Isha"].
Definition mainPrayers : list string := prayerNames.

(** *** SQL building blocks *)

Module Sql.

(** [ORDER BY]: a stable insertion sort, so that rows with equal keys stay
    in rowid order.  SQLite may answer rows of equal key in the order of
    the index it scans instead; the properties below speak of a row that is
    least for the order, not of which of several equal ones is answered. *)
Fixpoint insert {A} (le : A → A → bool) (x : A) (l : list A) : list A :=
  match l with
  | [] => [x]
  | y :: l' => if le x y then x :: l else y :: insert le x l'
  end.

Fixpoint order_by {A} (le : A → A → bool) (l : list A) : list A :=
  match l with
  | [] => []
  | x :: l' => insert le x (order_by le l')
  end.

(** [ORDER BY prayer_time]. *)
Definition by_time (a b : PrayerRow) : bool :=
  JS.str_le (prayer_time a) (prayer_time b).

(** [ORDER BY date, prayer_time]. *)
Definition by_date_time (a b : PrayerRow) : bool :=
  JS.str_lt (date a) (date b)
  || (String.eqb (date a) (date b) && JS.str_le (prayer_time a) (prayer_time b)).

(** [prayer_name IN (?, ?, ?, ?, ?)] bound to the five main prayers. *)
Definition is_main (r : PrayerRow) : bool := JS.includes mainPrayers (prayer_name r).

(** [SELECT * FROM prayers WHERE date = ? AND prayer_name IN (...)
     ORDER BY prayer_time]. *)
Definition main_prayers_on (d : Db) (day : string) : list PrayerRow :=
  order_by by_time
    (List.filter (fun r => String.eqb (date r) day && is_main r) (prayers d)).

(** [SELECT * FROM prayers WHERE date = ? AND prayer_time > ? AND
     prayer_name IN (...) ORDER BY prayer_time LIMIT 1]. *)
Definition next_main_prayer (d : Db) (day time : string) : option PrayerRow :=
  head (order_by by_time
    (List.filter (fun r => String.eqb (date r) day
                           && JS.str_lt time (prayer_time r) && is_main r)
                 (prayers d))).

(** [SELECT * FROM prayers WHERE date = ? AND prayer_name IN (...)
     ORDER BY prayer_time LIMIT 1]. *)
Definition first_main_prayer (d : Db) (day : string) : option PrayerRow :=
  head (main_prayers_on d day).

(** [SELECT * FROM prayers WHERE date IN (?, ?) AND prayer_name IN (...)
     ORDER BY date, prayer_time]. *)
Definition main_prayers_on2 (d : Db) (day1 day2 : string) : list PrayerRow :=
  order_by by_date_time
    (List.filter (fun r => (String.eqb (date r) day1 || String.eqb (date r) day2)
                           && is_main r)
                 (prayers d)).

(** [SELECT enabled FROM prayer_schedule WHERE prayer_name = ? AND
     day_of_week = ?], first row or [undefined]. *)
Definition schedule_entry (d : Db) (name : string) (day : Z) : option ScheduleRow :=
  List.find (fun c => String.eqb (cell_prayer c) name && (day_of_week c =? day))
            (prayer_schedule d).

(** [SELECT COUNT( * ) FROM prayer_schedule WHERE prayer_name = ? AND
     enabled = 0]. *)
Definition disabled_count (d : Db) (name : string) : Z :=
  Z.of_nat (length (List.filter
    (fun c => String.eqb (cell_prayer c) name && (enabled c =? 0))
    (prayer_schedule d))).

(** [UPDATE prayer_schedule SET enabled = ? WHERE prayer_name = ? AND
     day_of_week = ?]. *)
Definition update_cell (v : Z) (name : string) (day : Z)
    (cs : list ScheduleRow) : list ScheduleRow :=
  List.map (fun c =>
    if String.eqb (cell_prayer c) name && (day_of_week c =? day)
    then mkCell (cell_prayer c) (day_of_week c) v
    else c) cs.

(** [SELECT value FROM settings WHERE key = ?]. *)
Definition setting (d : Db) (key : string) : option string := settings d !! key.

(** [DELETE FROM prayers WHERE date >= ?]. *)
Definition delete_prayers_from (day : string) (ps : list PrayerRow) : list PrayerRow :=
  List.filter (fun r => negb (JS.str_le day (date r))) ps.

(** [INSERT OR REPLACE INTO prayers (date, prayer_name, prayer_time)]: the
    row with the same [(date, prayer_name)] is dropped, the new row gets a
    fresh rowid. *)
Definition insert_or_replace_prayer (r : PrayerRow) (ps : list PrayerRow) : list PrayerRow :=
  List.filter (fun q => negb (String.eqb (date q) (date r)
                                && String.eqb (prayer_name q) (prayer_name r))) ps
  ++ [r].

End Sql.

(** The constraints of the schema that the properties below rely on. *)

(** [UNIQUE(date, prayer_name)] on [prayers]. *)
Definition prayer_key (r : PrayerRow) : string * string :=
  (date r, prayer_name r).

Definition prayers_unique (ps : list PrayerRow) : Prop :=
  NoDup (List.map prayer_key ps).

(** [UNIQUE(prayer_name, day_of_week)] and the CHECK on [day_of_week], with
    the 35 cells that start-up inserts (no statement ever deletes one). *)
Definition cell_key (c : ScheduleRow) : string * Z :=
  (cell_prayer c, day_of_week c).

Definition schedule_wf (cs : list ScheduleRow) : Prop :=
  NoDup (List.map cell_key cs)
  ∧ (∀ c, In c cs → 0 <= day_of_week c <= 6)
  ∧ (∀ p d, In p prayerNames → 0 <= d <= 6 →
       ∃ c, In c cs ∧ cell_prayer c = p ∧ day_of_week c = d).

(** ** The server process *)

(** A one-shot job of node-schedule, armed by [scheduleAthanCalls]: its
    callback holds the row [prayer] it was armed for and calls
    [playAthan(prayer.prayer_name)] once, at [fireAt]. *)
Record Job := mkJob {
  job_id : nat;
  fireAt : Z;
  job_prayer : PrayerRow
}.

(** The weekly cron job of [scheduleFridayQuran]: [`${minute} ${hour} * * 5`]. *)
Record CronJob := mkCron {
  cron_minute : JS.num;
  cron_hour : JS.num
}.

(** The console lines of the scheduler and of the drift monitor (message
    texts and time stamps left out; the other functions' lines are not
    kept). *)
Inductive LogLine :=
| LogFound (n : nat)
| LogScheduled (name : string) (at_ms : Z)
| LogSkipped (name time : string)
| LogSummary (scheduled skipped : Z)
| LogDriftDetected (timeDrift : Z)
| LogRescheduling
| LogRescheduled
| LogFetchError.

Record Server := mkServer {
  db : Db;
  scheduledJobs : list Job;
  timers : list Job;              (* the jobs node-schedule still holds armed *)
  next_job_id : nat;
  fridayQuranJob : option CronJob;
  lastSystemTime : Z;
  console : list LogLine
}.

Definition set_db (d : Db) (s : Server) : Server :=
  mkServer d (scheduledJobs s) (timers s) (next_job_id s) (fridayQuranJob s)
           (lastSystemTime s) (console s).
Definition set_lastSystemTime (t : Z) (s : Server) : Server :=
  mkServer (db s) (scheduledJobs s) (timers s) (next_job_id s) (fridayQuranJob s)
           t (console s).
Definition set_fridayQuranJob (j : option CronJob) (s : Server) : Server :=
  mkServer (db s) (scheduledJobs s) (timers s) (next_job_id s) j
           (lastSystemTime s) (console s).
Definition log (l : LogLine) (s : Server) : Server :=
  mkServer (db s) (scheduledJobs s) (timers s) (next_job_id s) (fridayQuranJob s)
           (lastSystemTime s) (console s ++ [l]).

(** [job.cancel()]: the job leaves node-schedule's armed set; cancelling a
    job that has fired or was cancelled changes nothing. *)
Definition cancel (j : Job) (ts : list Job) : list Job :=
  List.filter (fun t => negb (Nat.eqb (job_id t) (job_id j))) ts.

(** How a call ended: it returned, or an exception left it. *)
Inductive Completion :=
| Returned
| Threw.

(** What [playAthan] did. *)
Inductive Outcome :=
| DeniedSchedule                 (* disabled for this weekday in the matrix *)
| DeniedSkipNext                 (* skip_next flag set: consumed *)
| BrowserOnly                    (* checks passed, audio_output = browser *)
| Played (audioFile : string) (volumePercent : JS.num) (trim30 : bool)
| AudioFileNotFound (audioFile : string).

(** The checks of [playAthan] passed ("All checks passed ... proceeding
    with playback"), whatever the output target then does. *)
Definition allowed (o : Outcome) : bool :=
  match o with
  | DeniedSchedule | DeniedSkipNext => false
  | _ => true
  end.

(** The JSON answer of [/api/check-athan-time]. *)
Record CheckAnswer := mkCheck {
  shouldPlay : bool;
  answer_prayerName : option string;
  answer_audioFile : option string
}.

Definition dont_play : CheckAnswer := mkCheck false None None.

(** The JSON answer of the skip-next endpoints. *)
Record MuteAnswer := mkMuteAnswer {
  status : Z;
  success : bool;
  message : string
}.

(** One VEVENT (or other component) of the parsed ICS feed. *)
Record IcsEvent := mkEvent {
  ev_type : string;
  summary : string;
  start : JsDate
}.

(** What [await axios.get(icsUrl)] and [ical.parseICS] gave. *)
Inductive HttpResult :=
| SourceUnavailable                (* the request was rejected or timed out *)
| Fetched (events : list IcsEvent).

(** A string or a number of a JSON request body (the numbers the client
    sends are integers). *)
Inductive Json :=
| JString (s : string)
| JNumber (n : Z).

(** [String(v)] and [parseInt(v)] of such a value: every digit of the
    number, which is what JavaScript prints below 10^21. *)
Definition json_text (v : Json) : string :=
  match v with JString s => s | JNumber n => pretty n end.

(** The state beside [Server]: the two tables above and the kind of audio
    the server process is playing ([currentAudioType]: ['quran'], ['athan'],
    ['startup'], ['test'] or [null]). *)
Record Rest := mkRest {
  prayer_checks : list PrayerCheck;
  friday_quran_trigger : option FridayTrigger;
  currentAudioType : option string
}.

Definition set_prayer_checks (pc : list PrayerCheck) (r : Rest) : Rest :=
  mkRest pc (friday_quran_trigger r) (currentAudioType r).
Definition set_friday_quran_trigger (t : option FridayTrigger) (r : Rest) : Rest :=
  mkRest (prayer_checks r) t (currentAudioType r).
Definition set_currentAudioType (a : option string) (r : Rest) : Rest :=
  mkRest (prayer_checks r) (friday_quran_trigger r) a.

(** The answer of [POST /api/settings]. *)
Record SettingsAnswer := mkSettingsAnswer {
  settings_status : Z;
  refreshStarted : bool
}.

(** What [playQuran] did on the server. *)
Inductive QuranOutcome :=
| QuranBrowserOnly
| QuranPlayed (quranFile : string) (volumePercent : JS.num)
| QuranFileNotFound (quranFile : string).

(** The JSON answer of [/api/check-friday-quran]. *)
Record FridayAnswer := mkFridayAnswer {
  fq_shouldPlay : bool;
  fq_quranFile : option string;
  fq_type : option string;
  serverPlayingQuran : bool
}.

(** The answer of [/api/friday-quran-status] (the clock fields left out). *)
Record FridayStatus := mkFridayStatus {
  fs_enabled : bool;
  fs_time : string;
  fs_file : string;
  jobScheduled : bool
}.

Section Core.

Set Default Proof Using "Type".

(** [new Date(text).getTime()] in the server's time zone; [None] is an
    Invalid Date. *)
Variable parseDateTime : string → option Z.

(** [fs.existsSync] on a file of [audio/athan]. *)
Variable existsSync : string → bool.

(** [extractCityFromIcsUrl] and [getNextUpdateTime], which only feed the
    [update_info] row. *)
Variable extractCityFromIcsUrl : string → string.
Variable getNextUpdateTime : JsDate → string.

(** [fs.existsSync] on a file of [audio/coran]. *)
Variable existsSyncCoran : string → bool.

(** [cron.schedule] of node-cron validates the expression it is given and
    throws on one it does not accept: [cronAccepts minute hour] tells
    whether it accepts [`${minute} ${hour} * * 5`]. *)
Variable cronAccepts : JS.num → JS.num → bool.

(** Proofs that do not concern the environment drop it first. *)
Ltac drop_env :=
  try clear parseDateTime; try clear existsSync;
  try clear extractCityFromIcsUrl; try clear getNextUpdateTime;
  try clear existsSyncCoran; try clear cronAccepts.

(** *** Trigger scheduler *)

(** [new Date(`${prayer.date}T${prayer.prayer_time}:00`)]. *)
Definition fire_instant (prayer : PrayerRow) : option Z :=
  parseDateTime (date prayer +:+ "T" +:+ prayer_time prayer +:+ ":00").

(** [scheduledJobs.forEach(job => { if (job.cancel) job.cancel(); })]. *)
Definition cancel_all (jobs : list Job) (ts : list Job) : list Job :=
  fold_left (fun ts job => cancel job ts) jobs ts.

(** The body of [prayers.forEach] in [scheduleAthanCalls]; the counters
    [scheduled] and [skipped] ride along. *)
Definition arm (now : JsDate) (acc : Server * Z * Z) (prayer : PrayerRow)
  : Server * Z * Z :=
  let '(s, scheduled, skipped) := acc in
  let prayerDateTime := fire_instant prayer in
  match prayerDateTime with
  | Some t =>
      if getTime now <? t then
        let job := mkJob (next_job_id s) t prayer in
        (log (LogScheduled (prayer_name prayer) t)
           (mkServer (db s) (scheduledJobs s ++ [job]) (timers s ++ [job])
                     (S (next_job_id s)) (fridayQuranJob s) (lastSystemTime s)
                     (console s)),
         scheduled + 1, skipped)
      else
        (log (LogSkipped (prayer_name prayer) (prayer_time prayer)) s,
         scheduled, skipped + 1)
  | None =>
      (log (LogSkipped (prayer_name prayer) (prayer_time prayer)) s,
       scheduled, skipped + 1)
  end.

(** [scheduleAthanCalls]; the whole synchronous sweep reads the clock as
    [now]. *)
Definition scheduleAthanCalls (now : JsDate) (s : Server) : Server :=
  (* Cancel previously scheduled jobs *)
  let ts := cancel_all (scheduledJobs s) (timers s) in
  let s := mkServer (db s) [] ts (next_job_id s) (fridayQuranJob s)
                    (lastSystemTime s) (console s) in
  let todayStr := formatDateLocal (local now) in
  let tomorrowStr := formatDateLocal (setDate_next (local now)) in
  let prayers := Sql.main_prayers_on2 (db s) todayStr tomorrowStr in
  let s := log (LogFound (length prayers)) s in
  let '(s, scheduled, skipped) := fold_left (arm now) prayers (s, 0, 0) in
  log (LogSummary scheduled skipped) s.

(** The callback of an armed job: [playAthan(prayer.prayer_name)] is
    defined below; firing takes the job out of the armed set. *)
Definition fired (j : Job) (s : Server) : Server :=
  mkServer (db s) (scheduledJobs s) (cancel j (timers s)) (next_job_id s)
           (fridayQuranJob s) (lastSystemTime s) (console s).

(** [scheduleFridayQuran]: the state it leaves and how it ended.  The call
    of [cron.schedule] comes after the old job has been stopped and
    [fridayQuranJob] set to [null]; when it throws, the assignment of the
    new job does not happen and the exception leaves the function. *)
Definition scheduleFridayQuran (s : Server) : Server * Completion :=
  let s := set_fridayQuranJob None s in
  let enabledRow := Sql.setting (db s) "friday_quran_enabled" in
  let enabled := match enabledRow with Some v => String.eqb v "1" | None => false end in
  if negb enabled then (s, Returned)
  else
    let time := default "07:00" (Sql.setting (db s) "friday_quran_time") in
    let parts := JS.split ":" time in
    let hour := match parts !! 0%nat with Some h => JS.parseInt10 h | None => None end in
    let minute := match parts !! 1%nat with Some m => JS.parseInt10 m | None => None end in
    if cronAccepts minute hour
    then (set_fridayQuranJob (Some (mkCron minute hour)) s, Returned)
    else (s, Threw).

(** *** Clock-drift monitor: the body of the 10-second [setInterval].

    Nothing in the callback catches an exception: when
    [scheduleFridayQuran] throws, the tick ends there, before the last
    console line and before [lastSystemTime = now]. *)
Definition driftCheck (now : JsDate) (s : Server) : Server * Completion :=
  let now_ms := getTime now in
  let expectedElapsed := 10000 in
  let actualElapsed := now_ms - lastSystemTime s in
  let timeDrift := Z.abs (actualElapsed - expectedElapsed) in
  if 5000 <? timeDrift then
    let s := log (LogDriftDetected timeDrift) s in
    let s := log LogRescheduling s in
    let s := scheduleAthanCalls now s in
    match scheduleFridayQuran s with
    | (s, Returned) => (set_lastSystemTime now_ms (log LogRescheduled s), Returned)
    | (s, Threw) => (s, Threw)
    end
  else (set_lastSystemTime now_ms s, Returned).

(** *** Playback: [playAthan] *)

Definition playAthan (now : JsDate) (prayerName : string) (s : Server)
  : Server * Outcome :=
  let isSpecialEvent := JS.includes ["Startup"; "PageLoad"; "Test"] prayerName in
  let playback (s : Server) : Server * Outcome :=
    let audioOutput := default "both" (Sql.setting (db s) "audio_output") in
    if String.eqb audioOutput "browser" then (s, BrowserOnly)
    else
      let audioFile := default "Masjid Al-Haram.mp3" (Sql.setting (db s) "audio_file") in
      let mainVolume :=
        match Sql.setting (db s) "volume" with
        | Some v => JS.parseInt v | None => Some 50 end in
      let volumePercent :=
        if String.eqb prayerName "Fajr" then
          let useFajrVolume :=
            match Sql.setting (db s) "sync_fajr_volume" with
            | Some v => String.eqb v "1" | None => false end in
          if useFajrVolume then
            match Sql.setting (db s) "fajr_volume" with
            | Some v => JS.parseInt v | None => Some 50 end
          else mainVolume
        else mainVolume in
      if existsSync audioFile
      then (s, Played audioFile volumePercent (String.eqb prayerName "Test"))
      else (s, AudioFileNotFound audioFile) in
  if negb isSpecialEvent then
    let jsDay := getDay now in
    let dayIndex := Z.rem (jsDay + 6) 7 in
    let scheduleEntry := Sql.schedule_entry (db s) prayerName dayIndex in
    if match scheduleEntry with Some e => enabled e =? 0 | None => false end
    then (s, DeniedSchedule)
    else
      let skipNext := skip_next (db s) in
      let currentDate := isoDate now in
      match skipNext with
      | Some row =>
          if skip row =? 1 then
            (set_db (set_skip_next
                       (Some (mkSkipNext 0 (Some prayerName) (Some currentDate)))
                       (db s)) s,
             DeniedSkipNext)
          else playback s
      | None => playback s
      end
  else playback s.

(** *** Calendar refresh: [fetchPrayerTimes]

    [response] is what the awaited request gave; the function is taken at
    the state it resumes in (it writes nothing before the [await]). *)
Definition store_event (todayStr threeMonthsStr : string)
    (acc : list PrayerRow * Z) (ev : IcsEvent) : list PrayerRow * Z :=
  let '(ps, insertedCount) := acc in
  if String.eqb (ev_type ev) "VEVENT" then
    let prayerName := summary ev in
    let prayerTime := start ev in
    let date := formatDateLocal (local prayerTime) in
    let time := timeHHMM prayerTime in
    if JS.str_le todayStr date && JS.str_le date threeMonthsStr
    then (Sql.insert_or_replace_prayer (mkPrayer date prayerName time) ps,
          insertedCount + 1)
    else acc
  else acc.

Definition fetchPrayerTimes (now : JsDate) (response : HttpResult) (s : Server)
  : Server * bool :=
  match Sql.setting (db s) "ics_url" with
  | None => (log LogFetchError s, false)          (* urlRow.value throws *)
  | Some icsUrl =>
      let cityName := extractCityFromIcsUrl icsUrl in
      match response with
      | SourceUnavailable => (log LogFetchError s, false)
      | Fetched events =>
          let todayStr := formatDateLocal (local now) in
          (* Remove future prayers (from today onward) *)
          let ps := Sql.delete_prayers_from todayStr (prayers (db s)) in
          let threeMonthsStr := formatDateLocal (setMonth_plus3 (local now)) in
          let '(ps, insertedCount) :=
            fold_left (store_event todayStr threeMonthsStr) events (ps, 0) in
          (* Update metadata *)
          let info :=
            match update_info (db s) with
            | Some _ => Some (mkUpdateInfo (Some (toISOString now)) insertedCount
                                           (Some cityName)
                                           (Some (getNextUpdateTime now)))
            | None => None
            end in
          let s := set_db (set_update_info info (set_prayers ps (db s))) s in
          (scheduleAthanCalls now s, true)
      end
  end.

(** *** Live status: [GET /api/prayers/next/upcoming] *)
Definition nextUpcoming (now : JsDate) (s : Server) : option PrayerRow :=
  let currentDate := formatDateLocal (local now) in
  let currentTime := timeHHMM now in
  match Sql.next_main_prayer (db s) currentDate currentTime with
  | Some nextPrayer => Some nextPrayer
  | None =>
      let tomorrowDate := formatDateLocal (setDate_next (local now)) in
      Sql.first_main_prayer (db s) tomorrowDate
  end.

(** *** Schedule matrix *)

(** [GET /api/prayer-settings/:prayerName]: the [enabled] field. *)
Definition prayerSettingEnabled (prayerName : string) (s : Server) : Z :=
  let disabledCount := Sql.disabled_count (db s) prayerName in
  if disabledCount =? 0 then 1 else 0.

(** [GET /api/prayer-settings]: one entry per main prayer. *)
Definition prayerSettings (s : Server) : list (string * Z) :=
  List.map (fun prayerName => (prayerName, prayerSettingEnabled prayerName s))
           mainPrayers.

(** [POST /api/prayer-schedule]: one cell; the HTTP status is returned. *)
Definition postPrayerSchedule (prayer_name : string) (day : Z) (en : bool)
    (s : Server) : Server * Z :=
  if String.eqb prayer_name "" then (s, 400)
  else if (day <? 0) || (6 <? day) then (s, 400)
  else if negb (JS.includes mainPrayers prayer_name) then (s, 400)
  else
    let cells :=
      Sql.update_cell (if en then 1 else 0) prayer_name day
                      (prayer_schedule (db s)) in
    (set_db (set_prayer_schedule cells (db s)) s, 200).

(** [POST /api/muted-weekdays/:weekday]. *)
Definition postMutedWeekday (day : Z) (m : bool) (s : Server) : Server * Z :=
  if (day <? 0) || (6 <? day) then (s, 400)
  else
    let rows :=
      List.map (fun r => if weekday r =? day
                         then mkMuted (weekday r) (if m then 1 else 0) else r)
               (muted_weekdays (db s)) in
    (set_db (set_muted_weekdays rows (db s)) s, 200).

(** *** One-shot mute *)

(** [UPDATE skip_next SET skip = 1 WHERE id = 1]. *)
Definition set_skip_flag (s : Server) : Server :=
  match skip_next (db s) with
  | Some row =>
      set_db (set_skip_next
        (Some (mkSkipNext 1 (last_skipped_prayer row) (last_skipped_date row)))
        (db s)) s
  | None => s
  end.

(** The body shared by [POST /api/skip-next] and
    [GET /api/mute-next-athan]; they differ in the status of a refusal
    ([rejectStatus]: 400 and 200) and in the text of the success message. *)
Definition muteNext (rejectStatus : Z) (okMessage : string)
    (now : JsDate) (s : Server) : Server * MuteAnswer :=
  let currentDate := formatDateLocal (local now) in
  let currentTime := timeHHMM now in
  let refuse (name : string) :=
    (s, mkMuteAnswer rejectStatus false
          (name +:+ " is already muted in general settings")) in
  let accept := (set_skip_flag s, mkMuteAnswer 200 true okMessage) in
  match Sql.next_main_prayer (db s) currentDate currentTime with
  | None =>
      (* No prayer today, check tomorrow *)
      let tomorrowDate := formatDateLocal (setDate_next (local now)) in
      match Sql.first_main_prayer (db s) tomorrowDate with
      | Some firstPrayerTomorrow =>
          let disabledCount := Sql.disabled_count (db s) (prayer_name firstPrayerTomorrow) in
          if disabledCount =? 7 then refuse (prayer_name firstPrayerTomorrow)
          else accept
      | None => accept
      end
  | Some nextPrayer =>
      let disabledCount := Sql.disabled_count (db s) (prayer_name nextPrayer) in
      if disabledCount =? 7 then refuse (prayer_name nextPrayer)
      else accept
  end.

Definition postSkipNext : JsDate → Server → Server * MuteAnswer :=
  muteNext 400 "Next athan will be skipped".

Definition getMuteNextAthan : JsDate → Server → Server * MuteAnswer :=
  muteNext 200 "Next athan has been muted successfully".

(** *** Live status: [GET /api/check-athan-time] *)

(** The body of the [if (diff >= 0 && diff <= 1)] branch: the decision for
    the prayer found in its trigger window. *)
Definition checkInWindow (d : Db) (dayIndex : Z) (currentDate : string)
    (prayer : PrayerRow) : CheckAnswer :=
  let skipNext := skip_next d in
  (* Case 1: Flag is still active (playAthan hasn't run yet) *)
  if match skipNext with Some row => skip row =? 1 | None => false end
  then dont_play
  (* Case 2: consumed by playAthan() within this prayer's window *)
  else if match skipNext with
          | Some row =>
              bool_decide (last_skipped_prayer row = Some (prayer_name prayer))
              && bool_decide (last_skipped_date row = Some currentDate)
          | None => false
          end
  then dont_play
  else
    let scheduleEntry := Sql.schedule_entry d (prayer_name prayer) dayIndex in
    if match scheduleEntry with Some e => enabled e =? 0 | None => false end
    then dont_play
    else
      let audioFile := default "Masjid Al-Haram.mp3" (Sql.setting d "audio_file") in
      mkCheck true (Some (prayer_name prayer)) (Some audioFile).

(** [diff >= 0 && diff <= 1], [diff = currentMinutes - prayerMinutes]. *)
Definition inTriggerWindow (currentMinutes : JS.num) (prayer : PrayerRow) : bool :=
  let prayerMinutes := minutesOf (prayer_time prayer) in
  let diff := JS.sub currentMinutes prayerMinutes in
  JS.geb diff 0 && JS.leb diff 1.

(** The [for (const prayer of prayers)] loop: the first prayer in its
    window decides. *)
Fixpoint checkLoop (d : Db) (dayIndex : Z) (currentDate : string)
    (currentMinutes : JS.num) (prayers : list PrayerRow) : CheckAnswer :=
  match prayers with
  | [] => dont_play
  | prayer :: rest =>
      if inTriggerWindow currentMinutes prayer
      then checkInWindow d dayIndex currentDate prayer
      else checkLoop d dayIndex currentDate currentMinutes rest
  end.

Definition checkAthanTime (now : JsDate) (s : Server) : CheckAnswer :=
  let audioOutput := default "both" (Sql.setting (db s) "audio_output") in
  if String.eqb audioOutput "server" then dont_play
  else
    let jsDay := getDay now in
    let dayIndex := Z.rem (jsDay + 6) 7 in
    let currentDate := formatDateLocal (local now) in
    let currentTime := timeHHMM now in
    let prayers := Sql.main_prayers_on (db s) currentDate in
    let currentMinutes := minutesOf currentTime in
    checkLoop (db s) dayIndex currentDate currentMinutes prayers.


(** *** Schedule matrix: whole rows and columns *)

(** [UPDATE prayer_schedule SET enabled = ? WHERE prayer_name = ?]. *)
Definition update_prayer (v : Z) (name : string)
    (cs : list ScheduleRow) : list ScheduleRow :=
  List.map (fun c =>
    if String.eqb (cell_prayer c) name
    then mkCell (cell_prayer c) (day_of_week c) v
    else c) cs.

(** [UPDATE prayer_schedule SET enabled = ? WHERE day_of_week = ?]. *)
Definition update_day (v : Z) (day : Z)
    (cs : list ScheduleRow) : list ScheduleRow :=
  List.map (fun c =>
    if day_of_week c =? day
    then mkCell (cell_prayer c) (day_of_week c) v
    else c) cs.

(** [POST /api/prayer-settings/:prayerName]: the name is not validated. *)
Definition postPrayerSettings (prayerName : string) (en : bool)
    (s : Server) : Server :=
  set_db (set_prayer_schedule
            (update_prayer (if en then 1 else 0) prayerName (prayer_schedule (db s)))
            (db s)) s.

(** [POST /api/prayer-schedule/bulk]; a field of the body that is
    [undefined] is [None], [en] is the truthiness of [enabled]; the HTTP
    status is returned.  A [dayNum] that is [NaN] passes the range test and
    is bound as NULL, which [day_of_week = ?] matches on no row. *)
Definition postPrayerScheduleBulk (type : option string) (target : option Json)
    (en : option bool) (s : Server) : Server * Z :=
  match type, target, en with
  | Some type, Some target, Some en =>
      if String.eqb type "" then (s, 400)
      else if String.eqb type "prayer" then
        if negb (match target with
                 | JString name => JS.includes mainPrayers name
                 | JNumber _ => false
                 end)
        then (s, 400)
        else
          (set_db (set_prayer_schedule
                     (update_prayer (if en then 1 else 0) (json_text target)
                                    (prayer_schedule (db s)))
                     (db s)) s, 200)
      else if String.eqb type "day" then
        let dayNum := JS.parseInt (json_text target) in
        if JS.ltb dayNum 0 || JS.gtb dayNum 6 then (s, 400)
        else
          match dayNum with
          | Some day =>
              (set_db (set_prayer_schedule
                         (update_day (if en then 1 else 0) day
                                     (prayer_schedule (db s)))
                         (db s)) s, 200)
          | None => (s, 200)
          end
      else (s, 400)
  | _, _, _ => (s, 400)
  end.

(** *** One-shot mute: reset and status *)

(** [POST] and [GET /api/skip-next/reset]:
    [UPDATE skip_next SET skip = 0, last_skipped_prayer = NULL,
     last_skipped_date = NULL WHERE id = 1]. *)
Definition resetSkipNext (s : Server) : Server :=
  match skip_next (db s) with
  | Some _ => set_db (set_skip_next (Some (mkSkipNext 0 None None)) (db s)) s
  | None => s
  end.

(** [GET /api/skip-next]: the [skip] field of the answer. *)
Definition getSkipNext (s : Server) : bool :=
  match skip_next (db s) with
  | Some skipNext => skip skipNext =? 1
  | None => false
  end.

(** *** Settings *)

(** [POST /api/settings]: the state it leaves and its answer, the HTTP
    status (500 from the [catch] when [scheduleFridayQuran] threw, after the
    setting was written) and whether a calendar refresh was started
    ([fetchPrayerTimes()], not awaited: it resumes as [fetchPrayerTimes]
    above once its request has settled). *)
Definition postSettings (key value : string) (s : Server)
  : Server * SettingsAnswer :=
  let s := set_db (set_settings (<[key := value]> (settings (db s))) (db s)) s in
  let refresh := String.eqb key "ics_url" in
  if String.eqb key "friday_quran_enabled" || String.eqb key "friday_quran_time"
  then
    match scheduleFridayQuran s with
    | (s, Returned) => (s, mkSettingsAnswer 200 refresh)
    | (s, Threw) => (s, mkSettingsAnswer 500 refresh)
    end
  else (s, mkSettingsAnswer 200 refresh).

(** [POST /api/test-athan]. *)
Definition testAthan (now : JsDate) (s : Server) : Server * Outcome :=
  playAthan now "Test" s.

(** *** Friday Quran *)

(** [playQuran]: called by the weekly cron job and by
    [GET /api/trigger-friday-quran]. *)
Definition playQuran (now : JsDate) (s : Server) (r : Rest) : Rest * QuranOutcome :=
  let audioOutput := default "both" (Sql.setting (db s) "audio_output") in
  (* Set trigger for browser playback if needed *)
  let r :=
    if String.eqb audioOutput "browser" || String.eqb audioOutput "both" then
      let currentDate := isoDate now in
      let currentTime := timeHHMM now in
      match friday_quran_trigger r with
      | Some _ =>
          set_friday_quran_trigger
            (Some (mkTrigger 1 (Some currentDate) (Some currentTime))) r
      | None => r
      end
    else r in
  if String.eqb audioOutput "browser" then (r, QuranBrowserOnly)
  else
    let quranFile :=
      default "Sourat Al Kahf - Hani Arrifai.mp3"
              (Sql.setting (db s) "friday_quran_file") in
    let volumePercent :=
      match Sql.setting (db s) "volume" with
      | Some v => JS.parseInt v | None => Some 50 end in
    if existsSyncCoran quranFile
    then (set_currentAudioType (Some "quran") r, QuranPlayed quranFile volumePercent)
    else (r, QuranFileNotFound quranFile).

(** [GET /api/check-friday-quran]. *)
Definition checkFridayQuran (now : JsDate) (s : Server) (r : Rest)
  : Rest * FridayAnswer :=
  let audioOutput := default "both" (Sql.setting (db s) "audio_output") in
  let serverPlayingQuran := bool_decide (currentAudioType r = Some "quran") in
  let no := mkFridayAnswer false None None serverPlayingQuran in
  let enabledRow := Sql.setting (db s) "friday_quran_enabled" in
  if negb (match enabledRow with Some v => String.eqb v "1" | None => false end)
  then (r, no)
  else if String.eqb audioOutput "server" then (r, no)
  else
    let dayOfWeek := getDay now in
    if negb (dayOfWeek =? 5) then (r, no)
    else
      match friday_quran_trigger r with
      | Some trigger =>
          if should_play trigger =? 1 then
            let quranFile :=
              default "Sourat Al Kahf - Hani Arrifai.mp3"
                      (Sql.setting (db s) "friday_quran_file") in
            (* Reset the trigger *)
            (set_friday_quran_trigger
               (Some (mkTrigger 0 (last_played_date trigger) (last_played_time trigger))) r,
             mkFridayAnswer true (Some quranFile) (Some "friday_quran")
                            serverPlayingQuran)
          else (r, no)
      | None => (r, no)
      end.

(** [GET /api/friday-quran-status]. *)
Definition fridayQuranStatus (s : Server) : FridayStatus :=
  let enabledRow := Sql.setting (db s) "friday_quran_enabled" in
  let timeRow := Sql.setting (db s) "friday_quran_time" in
  let fileRow := Sql.setting (db s) "friday_quran_file" in
  mkFridayStatus
    (match enabledRow with Some v => String.eqb v "1" | None => false end)
    (default "07:00" timeRow)
    (default "Sourat Al Kahf - Hani Arrifai.mp3" fileRow)
    (bool_decide (fridayQuranJob s ≠ None)).

(** *** Prayer checks *)

(** [SELECT checked FROM prayer_checks WHERE date = ? AND prayer_name = ?]. *)
Definition find_check (day name : string) (pc : list PrayerCheck)
  : option PrayerCheck :=
  List.find (fun c => String.eqb (check_date c) day
                      && String.eqb (check_prayer c) name) pc.

(** [INSERT INTO prayer_checks ... ON CONFLICT(date, prayer_name) DO UPDATE
     SET checked = excluded.checked, checked_at = excluded.checked_at]: the
    row in conflict is updated where it is. *)
Definition upsert_check (r : PrayerCheck) (pc : list PrayerCheck)
  : list PrayerCheck :=
  match find_check (check_date r) (check_prayer r) pc with
  | Some _ =>
      List.map (fun c =>
        if String.eqb (check_date c) (check_date r)
           && String.eqb (check_prayer c) (check_prayer r)
        then mkChecked (check_date c) (check_prayer c) (checked r) (checked_at r)
        else c) pc
  | None => (pc ++ [r])%list
  end.

(** [GET /api/prayer-checks/:date]. *)
Definition getPrayerChecks (day : string) (r : Rest) : list PrayerCheck :=
  List.filter (fun c => String.eqb (check_date c) day) (prayer_checks r).

(** [POST /api/prayer-checks/toggle]: the [checked] field of the answer is
    returned. *)
Definition togglePrayerCheck (now : JsDate) (day name : string) (r : Rest)
  : Rest * Z :=
  let currentCheck := find_check day name (prayer_checks r) in
  let newChecked :=
    match currentCheck with
    | Some c => if checked c =? 1 then 0 else 1
    | None => 1
    end in
  let checkedAt := if newChecked =? 1 then Some (toISOString now) else None in
  (set_prayer_checks
     (upsert_check (mkChecked day name newChecked checkedAt) (prayer_checks r)) r,
   newChecked).

(** [POST /api/prayer-checks/reset]. *)
Definition resetPrayerChecks (r : Rest) : Rest := set_prayer_checks [] r.

(** *** All prayers of a day: [GET /api/prayers/:date] *)
Definition prayersOn (day : string) (s : Server) : list PrayerRow :=
  Sql.order_by Sql.by_time
    (List.filter (fun r => String.eqb (date r) day) (prayers (db s))).


(** ** Vocabulary of the properties *)

(** The cell of [(p, day)], as both authorization paths look it up, is
    enabled (its [enabled] column is not 0); resp. disabled. *)
Definition cell_enabled (d : Db) (p : string) (day : Z) : Prop :=
  ∃ c, Sql.schedule_entry d p day = Some c ∧ enabled c ≠ 0.


(** A list in the order [ORDER BY] leaves it in. *)
Definition sorted_by {A} (le : A → A → bool) (l : list A) : Prop :=
  Sorted.StronglySorted (fun a b => le a b = true) l.

(** "Today" and "tomorrow" as the handlers compute them. *)
Definition today (now : JsDate) : string := formatDateLocal (local now).
Definition tomorrow (now : JsDate) : string :=
  formatDateLocal (setDate_next (local now)).

(** [r] is a row of the calendar for one of the five main prayers on [day]. *)
Definition main_on (d : Db) (day : string) (r : PrayerRow) : Prop :=
  In r (prayers d) ∧ date r = day ∧ In (prayer_name r) mainPrayers.

(** [r] is a main prayer of today whose time is strictly after the current
    HH:MM (text comparison, which on zero-padded HH:MM is clock order: see
    [hhmm_lt]). *)
Definition upcoming_today (now : JsDate) (d : Db) (r : PrayerRow) : Prop :=
  main_on d (today now) r ∧ JS.str_lt (timeHHMM now) (prayer_time r) = true.

(** [r] is an earliest row among those satisfying [P]. *)
Definition earliest (P : PrayerRow → Prop) (r : PrayerRow) : Prop :=
  P r ∧ ∀ q, P q → JS.str_le (prayer_time r) (prayer_time q) = true.


(** The prayer [/api/check-athan-time] finds in its trigger window at
    [now]: the first row of today's main prayers, in time order, that passes
    the window test. *)
Definition windowPrayer (now : JsDate) (s : Server) : option PrayerRow :=
  List.find (inTriggerWindow (minutesOf (timeHHMM now)))
            (Sql.main_prayers_on (db s) (today now)).

(** The instant of [r] is strictly after [now] ([prayerDateTime > now];
    an Invalid Date is not). *)
Definition is_future (now : JsDate) (r : PrayerRow) : bool :=
  match fire_instant r with
  | Some t => getTime now <? t
  | None => false
  end.

(** The jobs one sweep creates for [rows], numbered from [n]. *)
Fixpoint number_jobs (n : nat) (rows : list PrayerRow) : list Job :=
  match rows with
  | [] => []
  | r :: rows' => mkJob n (default 0 (fire_instant r)) r :: number_jobs (S n) rows'
  end.

(** The firing schedule: which row fires when, whatever the jobs' ids. *)
Definition firing_schedule (s : Server) : list (Z * PrayerRow) :=
  List.map (fun j => (fireAt j, job_prayer j)) (timers s).

(** Every armed athan job is one [scheduledJobs] still holds: only
    [scheduleAthanCalls] arms them, and it records each. *)
Definition tracked (s : Server) : Prop :=
  ∀ j, In j (timers s) → In j (scheduledJobs s).

(** Job ids are handed out in sequence: every recorded job has an id below
    the next one to be given. *)
Definition fresh_ids (s : Server) : Prop :=
  ∀ j, In j (scheduledJobs s) → (job_id j < next_job_id s)%nat.

(** The number of sweeps of [scheduleAthanCalls] the console shows (each
    writes one "Found ... main prayers" line). *)
Definition is_found (l : LogLine) : bool :=
  match l with LogFound _ => true | _ => false end.
Definition rearm_count (s : Server) : nat :=
  length (List.filter is_found (console s)).

(** [s'] is [s] with the jobs [jobs] armed on top: recorded in
    [scheduledJobs], added to the armed set, ids taken in sequence; no sweep
    line added to the console. *)
Definition extends (s : Server) (jobs : list Job) (s' : Server) : Prop :=
  db s' = db s
  ∧ scheduledJobs s' = (scheduledJobs s ++ jobs)%list
  ∧ timers s' = (timers s ++ jobs)%list
  ∧ next_job_id s' = (next_job_id s + length jobs)%nat
  ∧ fridayQuranJob s' = fridayQuranJob s
  ∧ lastSystemTime s' = lastSystemTime s
  ∧ List.filter is_found (console s') = List.filter is_found (console s).

(** The server with its [muted_weekdays] table replaced by [mw]. *)
Definition with_muted (mw : list MutedWeekday) (s : Server) : Server :=
  set_db (set_muted_weekdays mw (db s)) s.

(** The one-shot flag is set ([skipNext && skipNext.skip === 1]). *)
Definition flag_set (s : Server) : bool :=
  match skip_next (db s) with Some row => skip row =? 1 | None => false end.

(** The last-consumed record names [name] on [day]. *)
Definition last_consumed (s : Server) (name day : string) : Prop :=
  ∃ row, skip_next (db s) = Some row
         ∧ last_skipped_prayer row = Some name
         ∧ last_skipped_date row = Some day.

(** An authorization check within a firing window: a poll of
    [/api/check-athan-time], or the armed trigger firing [playAthan]. *)
Inductive Check :=
| Poll (now : JsDate)
| Fire (now : JsDate).

(** What a check concluded, and whether it consumed the one-shot flag. *)
Record CheckResult := mkResult {
  allow : bool;
  consumed : bool
}.

Definition check (prayerName : string) (c : Check) (s : Server)
  : Server * CheckResult :=
  let '(s', a) :=
    match c with
    | Poll now => (s, shouldPlay (checkAthanTime now s))
    | Fire now =>
        let '(s', o) := playAthan now prayerName s in (s', allowed o)
    end in
  (s', mkResult a (flag_set s && negb (flag_set s'))).

Fixpoint run (prayerName : string) (cs : list Check) (s : Server)
  : Server * list CheckResult :=
  match cs with
  | [] => (s, [])
  | c :: cs' =>
      let '(s1, r) := check prayerName c s in
      let '(s2, rs) := run prayerName cs' s1 in
      (s2, r :: rs)
  end.

(** The integers from 0 up to [n], excluded, and equality of comparison
    results: for properties checked over all times of day. *)
Definition upto (n : nat) : list Z := List.map Z.of_nat (seq 0 n).

Definition comparison_eqb (a b : comparison) : bool :=
  match a, b with Eq, Eq | Lt, Lt | Gt, Gt => true | _, _ => false end.

(** [schedule_wf], as a check that computes. *)
Definition schedule_wf_b (cs : list ScheduleRow) : bool :=
  bool_decide (NoDup (List.map cell_key cs))
  && forallb (fun c => (0 <=? day_of_week c) && (day_of_week c <=? 6)) cs
  && forallb (fun p => forallb (fun d =>
       existsb (fun c => String.eqb (cell_prayer c) p && (day_of_week c =? d)) cs)
       (upto 7)) prayerNames.

(** The constraints the store keeps: the two UNIQUE keys, the 35 cells, and
    the single row of [skip_next] that start-up inserts. *)
Definition store_ok (d : Db) : Prop :=
  prayers_unique (prayers d)
  ∧ schedule_wf (prayer_schedule d)
  ∧ is_Some (skip_next d).

(** The states the server goes through: started on a store that meets its
    constraints, with nothing armed, then any sequence of the operations
    above. *)
Inductive reachable : Server → Prop :=
| reach_start d fq t :
    store_ok d → reachable (mkServer d [] [] 0 fq t [])
| reach_schedule now s :
    reachable s → reachable (scheduleAthanCalls now s)
| reach_fire j now s :
    reachable s → In j (timers s) →
    reachable (playAthan now (prayer_name (job_prayer j)) (fired j s)).1
| reach_play now name s :
    reachable s → reachable (playAthan now name s).1
| reach_drift now s :
    reachable s → reachable (driftCheck now s).1
| reach_fetch now response s :
    reachable s → reachable (fetchPrayerTimes now response s).1
| reach_friday s :
    reachable s → reachable (scheduleFridayQuran s).1
| reach_cell name day en s :
    reachable s → reachable (postPrayerSchedule name day en s).1
| reach_muted day m s :
    reachable s → reachable (postMutedWeekday day m s).1
| reach_skip now s :
    reachable s → reachable (postSkipNext now s).1
| reach_mute now s :
    reachable s → reachable (getMuteNextAthan now s).1.

(** The statements that write the [enabled] column: the rows selected by
    [sel] get [v].  [Sql.update_cell], [update_prayer] and [update_day] are
    instances. *)
Definition set_enabled_where (sel : ScheduleRow → bool) (v : Z)
    (cs : list ScheduleRow) : list ScheduleRow :=
  List.map (fun c => if sel c then mkCell (cell_prayer c) (day_of_week c) v else c) cs.

(** The server with its [prayer_schedule] table replaced by [cs]. *)
Definition with_cells (cs : list ScheduleRow) (s : Server) : Server :=
  set_db (set_prayer_schedule cs (db s)) s.

(** The test both authorization paths make on the cell they looked up. *)
Definition cell_off (d : Db) (p : string) (day : Z) : bool :=
  match Sql.schedule_entry d p day with
  | Some e => enabled e =? 0
  | None => false
  end.

(** The weekday of the schedule matrix (0 = Monday) that [now] falls on. *)
Definition dayIndexOf (now : JsDate) : Z := Z.rem (getDay now + 6) 7.

(** [isSpecialEvent] of [playAthan]. *)
Definition isSpecialEvent (name : string) : bool :=
  JS.includes ["Startup"; "PageLoad"; "Test"] name.

(** A firing of [name] at [now] gets as far as the one-shot flag: it is no
    special event and its cell is not disabled. *)
Definition gated (now : JsDate) (name : string) (s : Server) : bool :=
  negb (isSpecialEvent name) && negb (cell_off (db s) name (dayIndexOf now)).

(** A sequence of calls of [playAthan], each with its instant and its
    name, and what they did. *)
Fixpoint fire_all (fs : list (JsDate * string)) (s : Server)
  : Server * list Outcome :=
  match fs with
  | [] => (s, [])
  | f :: fs' =>
      let '(s1, o) := playAthan f.1 f.2 s in
      let '(s2, os) := fire_all fs' s1 in
      (s2, o :: os)
  end.

Definition is_skip (o : Outcome) : bool :=
  match o with DeniedSkipNext => true | _ => false end.

(** The state [playAthan] leaves when it consumes the one-shot flag. *)
Definition consumed_by (now : JsDate) (name : string) (s : Server) : Server :=
  set_db (set_skip_next
            (Some (mkSkipNext 0 (Some name) (Some (isoDate now)))) (db s)) s.

(** A sequence of polls of [/api/check-friday-quran]. *)
Fixpoint friday_polls (nows : list JsDate) (s : Server) (r : Rest)
  : Rest * list FridayAnswer :=
  match nows with
  | [] => (r, [])
  | now :: nows' =>
      let '(r1, a) := checkFridayQuran now s r in
      let '(r2, answers) := friday_polls nows' s r1 in
      (r2, a :: answers)
  end.

(** The row [fetchPrayerTimes] stores for an event of the feed, and the
    test it makes before storing it: a VEVENT whose local date lies from
    today to three months ahead (as texts). *)
Definition event_row (ev : IcsEvent) : PrayerRow :=
  mkPrayer (formatDateLocal (local (start ev))) (summary ev) (timeHHMM (start ev)).

Definition stored_event (now : JsDate) (ev : IcsEvent) : bool :=
  String.eqb (ev_type ev) "VEVENT"
  && (JS.str_le (today now) (date (event_row ev))
      && JS.str_le (date (event_row ev)) (formatDateLocal (setMonth_plus3 (local now)))).

(** The rows a sequence of [INSERT OR REPLACE INTO prayers] leaves. *)
Definition replay (evs : list IcsEvent) (ps : list PrayerRow) : list PrayerRow :=
  fold_left (fun ps ev => Sql.insert_or_replace_prayer (event_row ev) ps) evs ps.

(** A time of day written HH:MM, zero-padded. *)
Definition well_timed (r : PrayerRow) : Prop :=
  ∃ h m, 0 <= h < 24 ∧ 0 <= m < 60 ∧ prayer_time r = hhmm h m.

(** Civil dates with a four-digit year, and their order. *)
Definition valid_date (d : LocalDate) : Prop :=
  1000 <= getFullYear d <= 9999 ∧ 0 <= getMonth d <= 11 ∧ 1 <= getDate d <= 31.

(** A date of the calendar: its day exists in its month. *)
Definition real_date (d : LocalDate) : Prop :=
  1000 <= getFullYear d <= 9999 ∧ 0 <= getMonth d <= 11
  ∧ 1 <= getDate d <= days_in_month (getFullYear d) (getMonth d).

Definition date_compare (a b : LocalDate) : comparison :=
  match getFullYear a ?= getFullYear b with
  | Eq => match getMonth a ?= getMonth b with
          | Eq => getDate a ?= getDate b
          | c => c
          end
  | c => c
  end.

(** The four digits of a year from 1000 to 9999. *)
Definition digits4 (y : Z) : string :=
  String (pretty_N_char (Z.to_N (y / 1000)))
    (String (pretty_N_char (Z.to_N (y / 100 mod 10)))
       (String (pretty_N_char (Z.to_N (y / 10 mod 10)))
          (String (pretty_N_char (Z.to_N (y mod 10))) ""))).

(** [UNIQUE(date, prayer_name)] on [prayer_checks]. *)
Definition check_key (c : PrayerCheck) : string * string :=
  (check_date c, check_prayer c).

(** ** A sample deployment

    A server whose time zone is UTC, on Monday 2025-01-06, with the calendar
    of the specification's scenario (Fajr 06:30, Dhuhr 12:45) completed to
    five prayers a day, and the store as start-up initialises it. *)

(** Days since the epoch of a civil date (month 1 to 12). *)
Definition days_from_civil (y m d : Z) : Z :=
  let y' := if m <=? 2 then y - 1 else y in
  let era := y' / 400 in
  let yoe := y' - era * 400 in
  let doy := (153 * (m + (if 2 <? m then -3 else 9)) + 2) / 5 + d - 1 in
  let doe := yoe * 365 + yoe / 4 - yoe / 100 + doy in
  era * 146097 + doe - 719468.

(** [new Date("YYYY-MM-DDTHH:MM:00").getTime()] when local time is UTC. *)
Definition utc_parseDateTime (text : string) : option Z :=
  match JS.split "T" text with
  | [d; t] =>
      match JS.parseInt <$> JS.split "-" d, JS.parseInt <$> JS.split ":" t with
      | [Some y; Some m; Some dd], [Some hh; Some mm; Some ss] =>
          Some ((((days_from_civil y m dd * 24 + hh) * 60 + mm) * 60 + ss) * 1000)
      | _, _ => None
      end
  | _ => None
  end.

(** Every audio file is present. *)
Definition all_files_exist (_ : string) : bool := true.

Definition sample_city (_ : string) : string := "La Mecque".
Definition sample_next_update (_ : JsDate) : string := "2025-01-06T19:00:00.000Z".

(** The clock at HH:MM on Monday 2025-01-06 (UTC). *)
Definition clock (h m : Z) : JsDate :=
  mkJsDate (mkLocalDate 2025 0 6) h m 1
           ("2025-01-06T" +:+ hhmm h m +:+ ":00.000Z")
           (1736121600000 + (h * 60 + m) * 60000).

(** The same wall clock read in a zone five hours behind UTC, late enough
    in the evening for UTC to be a day ahead. *)
Definition clock_west (h m : Z) : JsDate :=
  mkJsDate (mkLocalDate 2025 0 6) h m 1
           ("2025-01-07T" +:+ hhmm (h - 19) m +:+ ":00.000Z")
           (1736121600000 + ((h + 5) * 60 + m) * 60000).

Definition fajr : PrayerRow := mkPrayer "2025-01-06" "Fajr" "06:30".
Definition dhuhr : PrayerRow := mkPrayer "2025-01-06" "Dhuhr" "12:45".
Definition isha : PrayerRow := mkPrayer "2025-01-06" "Isha" "19:15".
Definition fajr_tomorrow : PrayerRow := mkPrayer "2025-01-07" "Fajr" "06:31".

Definition sample_calendar : list PrayerRow :=
  [ fajr; mkPrayer "2025-01-06" "Sunrise" "08:02"; dhuhr;
    mkPrayer "2025-01-06" "Asr" "15:20"; mkPrayer "2025-01-06" "Maghrib" "17:40";
    isha;
    fajr_tomorrow; mkPrayer "2025-01-07" "Sunrise" "08:02";
    mkPrayer "2025-01-07" "Dhuhr" "12:45"; mkPrayer "2025-01-07" "Asr" "15:21";
    mkPrayer "2025-01-07" "Maghrib" "17:41"; mkPrayer "2025-01-07" "Isha" "19:16" ].

(** The 35 cells start-up inserts: for each day, each prayer, enabled. *)
Definition initPrayerSchedule : list ScheduleRow :=
  flat_map (fun day => List.map (fun prayerName => mkCell prayerName day 1) prayerNames)
           [0; 1; 2; 3; 4; 5; 6].

Definition initMutedWeekdays : list MutedWeekday :=
  List.map (fun day => mkMuted day 0) [0; 1; 2; 3; 4; 5; 6].

Definition initSettings : gmap string string :=
  list_to_map
    [ ("ics_url", "https://prayerwebcal.dsultan.com/ics/La_Mecque/x=21.421:y=39.827");
      ("audio_file", "Masjid Al-Haram.mp3"); ("audio_output", "both");
      ("volume", "50"); ("fajr_volume", "50"); ("sync_fajr_volume", "0");
      ("friday_quran_enabled", "0"); ("friday_quran_time", "07:00") ].

Definition sample_store (sk : SkipNext) (cells : list ScheduleRow) : Db :=
  mkDb sample_calendar initSettings (Some sk) cells initMutedWeekdays
       (Some (mkUpdateInfo None 0 None None)).

(** The server with the one-shot row [sk] and nothing armed yet. *)
Definition sample_server (sk : SkipNext) : Server :=
  mkServer (sample_store sk initPrayerSchedule) [] [] 0 None 1736121600000 [].

(** The one-shot row at rest, set, and consumed by today's Fajr. *)
Definition idle : SkipNext := mkSkipNext 0 None None.
Definition muted_next : SkipNext := mkSkipNext 1 None None.
Definition consumed_fajr : SkipNext := mkSkipNext 0 (Some "Fajr") (Some "2025-01-06").

(** Dhuhr disabled on every weekday. *)
Definition dhuhr_off : list ScheduleRow :=
  List.map (fun c => if String.eqb (cell_prayer c) "Dhuhr"
                     then mkCell (cell_prayer c) (day_of_week c) 0 else c)
           initPrayerSchedule.

Definition dhuhr_off_server : Server :=
  set_db (sample_store idle dhuhr_off) (sample_server idle).


(** Friday 2025-01-10 at HH:MM (UTC). *)
Definition clock_friday (h m : Z) : JsDate :=
  mkJsDate (mkLocalDate 2025 0 10) h m 5
           ("2025-01-10T" +:+ hhmm h m +:+ ":00.000Z")
           (1736467200000 + (h * 60 + m) * 60000).

(** The tables beside the store: Fajr checked today, Isha of yesterday
    unchecked again, the trigger row of the Friday recitation at rest. *)
Definition sample_rest : Rest :=
  mkRest [ mkChecked "2025-01-06" "Fajr" 1 (Some "2025-01-06T06:40:00.000Z");
           mkChecked "2025-01-05" "Isha" 0 None ]
         (Some (mkTrigger 0 None None)) None.

(** [cron.schedule] with node-cron's validation of the two fields: a
    minute from 0 to 59 and an hour from 0 to 23; [NaN] is refused. *)
Definition node_cron (minute hour : JS.num) : bool :=
  match minute, hour with
  | Some m, Some h => (0 <=? m) && (m <=? 59) && (0 <=? h) && (h <=? 23)
  | _, _ => false
  end.

(** The sample server once the Friday recitation has been enabled, at the
    default time. *)
Definition friday_server : Server :=
  mkServer (set_settings (<["friday_quran_enabled" := "1"]> initSettings)
                         (sample_store idle initPrayerSchedule))
           [] [] 0 (Some (mkCron (Some 0) (Some 7))) 1736121600000 [].

(** The sample server with the recitation enabled at a time that is no
    time of day, as [POST /api/settings] leaves it. *)
Definition bad_time_server : Server :=
  mkServer (set_settings (<["friday_quran_time" := "ab:cd"]>
                            (<["friday_quran_enabled" := "1"]> initSettings))
                         (sample_store idle initPrayerSchedule))
           [] [] 0 None 1736121600000 [].

(** The clock at HH:MM:SS on Monday 2025-01-06 (UTC). *)
Definition clock_sec (h m sec : Z) : JsDate :=
  mkJsDate (mkLocalDate 2025 0 6) h m 1
           ("2025-01-06T" +:+ hhmm h m +:+ ":" +:+ JS.padStart2 sec +:+ ".000Z")
           (1736121600000 + ((h * 60 + m) * 60 + sec) * 1000).

(** The store of a first start: every table just created. *)
Definition empty_store : Db := mkDb [] ∅ None [] [] None.


(** ** Start-up, defaults, export and import *)

Definition defaultIcsUrl : string :=
  "https://prayerwebcal.dsultan.com/ics/La_Mecque/cq=0:csr=0:ct=0:ee=0:qs=0:srs=0:ss=0:sus=0:ts=0:tz=Asia%2FRiyadh:x=21.421:y=39.827".

(** The thirteen settings start-up inserts when missing and
    [restore-defaults] writes. *)
Definition defaultSettings : list (string * string) :=
  [ ("ics_url", defaultIcsUrl);
    ("audio_file", "Masjid Al-Haram.mp3");
    ("play_on_startup", "1");
    ("play_on_page_load", "0");
    ("audio_output", "both");
    ("volume", "50");
    ("audio_card", "auto");
    ("friday_quran_enabled", "0");
    ("friday_quran_time", "07:00");
    ("friday_quran_file", "Sourat Al Kahf - Hani Arrifai.mp3");
    ("dark_mode", "0");
    ("fajr_volume", "50");
    ("sync_fajr_volume", "0") ].

(** [INSERT OR IGNORE INTO settings] and [INSERT OR REPLACE INTO settings]. *)
Definition insert_or_ignore_setting (m : gmap string string)
    (kv : string * string) : gmap string string :=
  match m !! kv.1 with
  | Some _ => m
  | None => <[kv.1 := kv.2]> m
  end.

Definition insert_or_replace_setting (m : gmap string string)
    (kv : string * string) : gmap string string :=
  <[kv.1 := kv.2]> m.

(** The row of [prayer_schedule] in conflict with [c] on
    [UNIQUE(prayer_name, day_of_week)]. *)
Definition same_cell (c c' : ScheduleRow) : bool :=
  String.eqb (cell_prayer c') (cell_prayer c) && (day_of_week c' =? day_of_week c).

(** [INSERT OR IGNORE INTO prayer_schedule]. *)
Definition insert_or_ignore_cell (cs : list ScheduleRow) (c : ScheduleRow)
  : list ScheduleRow :=
  if existsb (same_cell c) cs then cs else (cs ++ [c])%list.

(** [INSERT OR REPLACE INTO prayer_schedule]: the row in conflict is
    dropped, the new row gets a fresh id. *)
Definition insert_or_replace_cell (cs : list ScheduleRow) (c : ScheduleRow)
  : list ScheduleRow :=
  (List.filter (fun c' => negb (same_cell c c')) cs ++ [c])%list.

(** [muted_weekdays] has [weekday] as its rowid: a new row takes its place
    in the order of the weekdays. *)
Fixpoint insert_weekday (r : MutedWeekday) (rows : list MutedWeekday)
  : list MutedWeekday :=
  match rows with
  | [] => [r]
  | x :: rows' =>
      if weekday r <? weekday x then r :: rows else x :: insert_weekday r rows'
  end.

(** [INSERT OR IGNORE INTO muted_weekdays] and
    [INSERT OR REPLACE INTO muted_weekdays]. *)
Definition insert_or_ignore_weekday (rows : list MutedWeekday) (r : MutedWeekday)
  : list MutedWeekday :=
  if existsb (fun x => weekday x =? weekday r) rows then rows
  else insert_weekday r rows.

Definition insert_or_replace_weekday (rows : list MutedWeekday) (r : MutedWeekday)
  : list MutedWeekday :=
  insert_weekday r (List.filter (fun x => negb (weekday x =? weekday r)) rows).

(** [INSERT OR REPLACE INTO prayer_checks]. *)
Definition insert_or_replace_check (pc : list PrayerCheck) (r : PrayerCheck)
  : list PrayerCheck :=
  (List.filter (fun c => negb (String.eqb (check_date c) (check_date r)
                               && String.eqb (check_prayer c) (check_prayer r))) pc
   ++ [r])%list.

(** The initialisation of the tables when the server starts on the store
    [d] (the tables are created with their constraints if they do not
    exist): rows that are missing are inserted, rows that exist are kept,
    every weekday mute found at 1 is put back to 0, an [ics_url] that is
    empty or blank is replaced by the default. *)
Definition initTables (d : Db) : Db :=
  (* Initialize default settings *)
  let st := fold_left insert_or_ignore_setting defaultSettings (settings d) in
  (* Initialize prayer schedule (5 prayers x 7 days, all enabled by default) *)
  let cells := fold_left insert_or_ignore_cell initPrayerSchedule (prayer_schedule d) in
  (* Initialize skip_next row *)
  let sk := match skip_next d with
            | Some row => Some row
            | None => Some (mkSkipNext 0 None None)
            end in
  (* Initialize update_info *)
  let info := match update_info d with
              | Some row => Some row
              | None => Some (mkUpdateInfo None 0 None None)
              end in
  (* Initialize muted_weekdays *)
  let mw := fold_left insert_or_ignore_weekday initMutedWeekdays (muted_weekdays d) in
  (* Automatically correct any weekday mute status *)
  let mw := List.map (fun day => if muted day =? 1 then mkMuted (weekday day) 0 else day)
                     mw in
  (* Set default ICS URL if empty or not properly configured *)
  let st :=
    match st !! "ics_url" with
    | Some value =>
        if String.eqb value "" || String.eqb (JS.trim value) ""
        then <["ics_url" := defaultIcsUrl]> st
        else st
    | None => <["ics_url" := defaultIcsUrl]> st
    end in
  mkDb (prayers d) st sk cells mw info.

(** The process once the top level of [server.js] has run, at time [t]:
    nothing armed, no audio playing, the Friday job set up from the
    settings ([scheduleFridayQuran()]).  That call is the one of the top
    level modelled here that can throw, and nothing catches it:
    [startCompletion] tells how the top level ended, and when it threw the
    state is the one at the throw. *)
Definition startCompletion (d : Db) (t : Z) : Completion :=
  (scheduleFridayQuran (mkServer (initTables d) [] [] 0 None t [])).2.

Definition startServer (d : Db) (r : Rest) (t : Z) : Server * Rest :=
  ((scheduleFridayQuran (mkServer (initTables d) [] [] 0 None t [])).1,
   mkRest (prayer_checks r)
          (match friday_quran_trigger r with
           | Some row => Some row
           | None => Some (mkTrigger 0 None None)
           end)
          None).

(** [POST /api/settings/restore-defaults]; the refresh it starts
    ([fetchPrayerTimes()], not awaited) resumes as [fetchPrayerTimes].
    [friday_quran_enabled] has just been written ['0'] when
    [scheduleFridayQuran] runs, so that call returns before it reaches
    [cron.schedule] (see [restoreDefaults_returns]). *)
Definition restoreDefaults (s : Server) (r : Rest) : Server * Rest :=
  (* Restore default general settings *)
  let st := fold_left insert_or_replace_setting defaultSettings (settings (db s)) in
  (* Restore default weekday settings (all unmuted) *)
  let mw := fold_left insert_or_replace_weekday initMutedWeekdays
                      (muted_weekdays (db s)) in
  (* Restore default prayer schedule (all enabled) *)
  let cells := List.map (fun c => mkCell (cell_prayer c) (day_of_week c) 1)
                        (prayer_schedule (db s)) in
  (* Reset skip_next *)
  let sk := match skip_next (db s) with
            | Some _ => Some (mkSkipNext 0 None None)
            | None => None
            end in
  (* Reset all prayer checks *)
  let r := set_prayer_checks [] r in
  let d := mkDb (prayers (db s)) st sk cells mw (update_info (db s)) in
  ((scheduleFridayQuran (set_db d s)).1, r).

Definition newline : ascii := "010"%char.

(** [GET /api/settings/export]: the CSV text.  [SELECT key, value FROM
    settings] is taken in the order of [map_to_list]. *)
Definition exportSettings (s : Server) (r : Rest) : string :=
  let csvContent := "type,key,value" +:+ String newline "" in
  let csvContent :=
    fold_left (fun csv setting =>
        csv +:+ "setting," +:+ setting.1 +:+ "," +:+ setting.2 +:+ String newline "")
      (map_to_list (settings (db s))) csvContent in
  let csvContent :=
    fold_left (fun csv ws =>
        csv +:+ "weekday_mute," +:+ pretty (weekday ws) +:+ "," +:+ pretty (muted ws)
            +:+ String newline "")
      (muted_weekdays (db s)) csvContent in
  let csvContent :=
    fold_left (fun csv ps =>
        csv +:+ "prayer_schedule," +:+ cell_prayer ps +:+ "-" +:+ pretty (day_of_week ps)
            +:+ "," +:+ pretty (enabled ps) +:+ String newline "")
      (prayer_schedule (db s)) csvContent in
  let csvContent :=
    match skip_next (db s) with
    | Some skipNext =>
        csvContent +:+ "skip_next,skip," +:+ pretty (skip skipNext) +:+ String newline ""
    | None => csvContent
    end in
  fold_left (fun csv pc =>
      csv +:+ "prayer_check," +:+ check_date pc +:+ "-" +:+ check_prayer pc +:+ ","
          +:+ default "" (checked_at pc) +:+ String newline "")
    (List.filter (fun pc => checked pc =? 1) (prayer_checks r)) csvContent.

(** The outcome of an import: the answer of success with the two counts;
    [ImportFailed], the answer 500 from the [catch] when
    [scheduleFridayQuran] threw at the end, with the state at the throw
    (the lines are written, nothing rolls them back); a rejection with its
    status, nothing written.  The numeric columns of this development are
    integers: a line that would put NULL into one (a [parseInt] that is
    [NaN], where the column accepts NULL) is not followed,
    [ImportNotFollowed]. *)
Inductive ImportResult :=
| Imported (s : Server) (r : Rest) (importedCount prayerScheduleCount : Z)
| ImportFailed (s : Server) (r : Rest)
| ImportRejected (status : Z)
| ImportNotFollowed.

(** [acc ? `${acc}-${part}` : part] of the key of a [prayer_check] line;
    the first three parts make the date, the others the prayer name. *)
Definition join_part (acc part : string) : string :=
  if String.eqb acc "" then part else acc +:+ "-" +:+ part.

Definition split_check_key (key : string) : string * string :=
  let parts := JS.split "-" key in
  (fold_left join_part (take 3 parts) "", fold_left join_part (drop 3 parts) "").

(** The body of the loop over the lines: the store, the prayer checks and
    the two counters after the line.  A statement that fails on a
    constraint throws, and the line is skipped. *)
Definition import_line (now : JsDate) (acc : Db * list PrayerCheck * Z * Z)
    (line : string) : option (Db * list PrayerCheck * Z * Z) :=
  let '(d, pc, importedCount, prayerScheduleCount) := acc in
  let parts := JS.split "," line in
  if (length parts <? 3)%nat then Some acc
  else
    let type := default "" (parts !! 0%nat) in
    let key := default "" (parts !! 1%nat) in
    let value := JS.join "," (drop 2 parts) in
    if String.eqb type "setting" then
      Some (set_settings (<[key := value]> (settings d)) d, pc,
            importedCount + 1, prayerScheduleCount)
    else if String.eqb type "prayer_setting" then
      match JS.parseInt value with
      | Some v =>
          Some (set_prayer_schedule (update_prayer v key (prayer_schedule d)) d, pc,
                importedCount + 1, prayerScheduleCount)
      | None => None
      end
    else if String.eqb type "weekday_mute" then
      match JS.parseInt key, JS.parseInt value with
      | Some w, Some m =>
          if (w <? 0) || (6 <? w) then Some acc         (* CHECK(weekday) *)
          else
            Some (set_muted_weekdays
                    (insert_or_replace_weekday (muted_weekdays d) (mkMuted w m)) d,
                  pc, importedCount + 1, prayerScheduleCount)
      | _, _ => None
      end
    else if String.eqb type "prayer_schedule" then
      let ks := JS.split "-" key in
      let prayerName := default "" (ks !! 0%nat) in
      match JS.parseInt_opt (ks !! 1%nat) with
      | None => Some acc                               (* day_of_week NOT NULL *)
      | Some day =>
          if (day <? 0) || (6 <? day) then Some acc     (* CHECK(day_of_week) *)
          else
            match JS.parseInt value with
            | Some en =>
                Some (set_prayer_schedule
                        (insert_or_replace_cell (prayer_schedule d)
                                                (mkCell prayerName day en)) d,
                      pc, importedCount + 1, prayerScheduleCount + 1)
            | None => None
            end
      end
    else if String.eqb type "skip_next" && String.eqb key "skip" then
      match JS.parseInt value with
      | Some v =>
          Some (set_skip_next
                  (match skip_next d with
                   | Some row =>
                       Some (mkSkipNext v (last_skipped_prayer row)
                                        (last_skipped_date row))
                   | None => None
                   end) d,
                pc, importedCount + 1, prayerScheduleCount)
      | None => None
      end
    else if String.eqb type "prayer_check" then
      let '(day, prayerName) := split_check_key key in
      let checkedAt := if String.eqb value "" then toISOString now else value in
      Some (d, insert_or_replace_check pc (mkChecked day prayerName 1 (Some checkedAt)),
            importedCount + 1, prayerScheduleCount)
    else Some acc.

(** [POST /api/settings/import]; [csvData] is [None] when the body has no
    such field.  The refresh started at the end resumes as
    [fetchPrayerTimes]. *)
Definition importSettings (now : JsDate) (csvData : option string)
    (s : Server) (r : Rest) : ImportResult :=
  match csvData with
  | None => ImportRejected 400
  | Some csvData =>
      if String.eqb csvData "" then ImportRejected 400
      else
        let lines :=
          List.filter (fun line => negb (String.eqb (JS.trim line) ""))
                      (JS.split newline csvData) in
        match lines with
        | [] => ImportRejected 500                       (* lines[0] is undefined *)
        | header :: rest =>
            let headers := JS.split "," header in
            if negb (bool_decide (headers !! 0%nat = Some "type"))
               || negb (bool_decide (headers !! 1%nat = Some "key"))
               || negb (bool_decide (headers !! 2%nat = Some "value"))
            then ImportRejected 400
            else
              match fold_left (fun acc line => acc ≫= fun acc => import_line now acc line)
                              rest (Some (db s, prayer_checks r, 0, 0)) with
              | Some (d, pc, importedCount, prayerScheduleCount) =>
                  match scheduleFridayQuran (set_db d s) with
                  | (s, Returned) =>
                      Imported s (set_prayer_checks pc r)
                               importedCount prayerScheduleCount
                  | (s, Threw) => ImportFailed s (set_prayer_checks pc r)
                  end
              | None => ImportNotFollowed
              end
        end
  end.












(** * Properties *)

(** ** The primitives on sample inputs *)

Example split_time : JS.split ":" "06:30" = ["06"; "30"].
Proof. reflexivity. Qed.

Example parseInt_leading_zero : JS.parseInt "06" = Some 6.
Proof. reflexivity. Qed.

Example parseInt_hex : JS.parseInt "0x1F" = Some 31.
Proof. reflexivity. Qed.

Example parseInt_suffix : JS.parseInt " 42px" = Some 42.
Proof. reflexivity. Qed.

Example parseInt_nan : JS.parseInt "px" = None.
Proof. reflexivity. Qed.

Example minutesOf_0630 : minutesOf "06:30" = Some 390.
Proof. reflexivity. Qed.

Example minutesOf_invalid : minutesOf "Invalid Date" = None.
Proof. reflexivity. Qed.

Example formatDateLocal_ex :
  formatDateLocal (mkLocalDate 2025 0 5) = "2025-01-05".
Proof. vm_compute. reflexivity. Qed.

Example setDate_next_year_end :
  setDate_next (mkLocalDate 2024 11 31) = mkLocalDate 2025 0 1.
Proof. reflexivity. Qed.

Example setDate_next_leap :
  setDate_next (mkLocalDate 2024 1 28) = mkLocalDate 2024 1 29.
Proof. reflexivity. Qed.

Example setMonth_plus3_overflow :
  setMonth_plus3 (mkLocalDate 2025 10 30) = mkLocalDate 2026 2 2.
Proof. reflexivity. Qed.

(** ** Text order *)

Lemma ascii_compare_eq a b : Ascii.compare a b = Eq → a = b.
Proof.
  unfold Ascii.compare. intros H. apply N.compare_eq in H.
  rewrite <- (ascii_N_embedding a), <- (ascii_N_embedding b). by rewrite H.
Qed.

Lemma ascii_compare_refl a : Ascii.compare a a = Eq.
Proof. unfold Ascii.compare. apply N.compare_refl. Qed.

Lemma ascii_compare_lt_trans a b c :
  Ascii.compare a b = Lt → Ascii.compare b c = Lt → Ascii.compare a c = Lt.
Proof. unfold Ascii.compare. rewrite !N.compare_lt_iff. lia. Qed.

Lemma string_compare_refl s : String.compare s s = Eq.
Proof. induction s as [|c s IH]; simpl; [done|]. by rewrite ascii_compare_refl. Qed.

Lemma string_compare_lt_trans s1 : ∀ s2 s3,
  String.compare s1 s2 = Lt → String.compare s2 s3 = Lt → String.compare s1 s3 = Lt.
Proof.
  induction s1 as [|a s1 IH]; intros [|b s2] [|c s3]; simpl; try done.
  destruct (Ascii.compare a b) eqn:Hab; try done;
  destruct (Ascii.compare b c) eqn:Hbc; try done; intros H1 H2.
  - apply ascii_compare_eq in Hab, Hbc. subst. rewrite ascii_compare_refl. eauto.
  - apply ascii_compare_eq in Hab. subst. by rewrite Hbc.
  - apply ascii_compare_eq in Hbc. subst. by rewrite Hab.
  - by rewrite (ascii_compare_lt_trans _ _ _ Hab Hbc).
Qed.

Lemma str_le_iff s1 s2 :
  JS.str_le s1 s2 = true ↔ String.compare s1 s2 = Lt ∨ s1 = s2.
Proof.
  unfold JS.str_le, String.leb. split.
  - destruct (String.compare s1 s2) eqn:H; try done; [right|left]; auto.
    by apply String.compare_eq_iff.
  - intros [-> | ->]; [done|]. by rewrite string_compare_refl.
Qed.

Lemma str_le_refl s : JS.str_le s s = true.
Proof. apply str_le_iff. by right. Qed.

Lemma str_le_trans s1 s2 s3 :
  JS.str_le s1 s2 = true → JS.str_le s2 s3 = true → JS.str_le s1 s3 = true.
Proof.
  rewrite !str_le_iff.
  intros [H1 | ->] [H2 | ->]; eauto using string_compare_lt_trans.
Qed.

Lemma str_le_total s1 s2 : JS.str_le s1 s2 = true ∨ JS.str_le s2 s1 = true.
Proof. apply String.leb_total. Qed.

Lemma str_lt_le s1 s2 : JS.str_lt s1 s2 = negb (JS.str_le s2 s1).
Proof.
  unfold JS.str_lt, JS.str_le, String.ltb, String.leb.
  rewrite (String.compare_antisym s1 s2).
  by destruct (String.compare s2 s1).
Qed.

Lemma str_lt_iff s1 s2 : JS.str_lt s1 s2 = true ↔ String.compare s1 s2 = Lt.
Proof. unfold JS.str_lt, String.ltb. by destruct (String.compare s1 s2). Qed.

Lemma includes_In xs x : JS.includes xs x = true ↔ In x xs.
Proof.
  unfold JS.includes. rewrite existsb_exists. split.
  - intros (y & Hy & Heq). apply String.eqb_eq in Heq. by subst.
  - intros H. exists x. split; [done|]. apply String.eqb_refl.
Qed.

(** ** [ORDER BY] *)

Section OrderBy.

Context {A : Type} (le : A → A → bool).
Hypothesis le_total : ∀ a b, le a b = true ∨ le b a = true.
Hypothesis le_trans : ∀ a b c, le a b = true → le b c = true → le a c = true.

Lemma insert_perm x l : Permutation (Sql.insert le x l) (x :: l).
Proof.
  induction l as [|y l IH]; simpl; [done|].
  destruct (le x y); [done|].
  rewrite IH. apply perm_swap.
Qed.

Lemma order_by_perm l : Permutation (Sql.order_by le l) l.
Proof.
  induction l as [|x l IH]; simpl; [done|].
  rewrite insert_perm. by constructor.
Qed.

Lemma order_by_In x l : In x (Sql.order_by le l) ↔ In x l.
Proof.
  split; apply Permutation_in; [|symmetry]; apply order_by_perm.
Qed.

Lemma order_by_length l : length (Sql.order_by le l) = length l.
Proof. apply Permutation_length, order_by_perm. Qed.

Lemma insert_sorted x l : sorted_by le l → sorted_by le (Sql.insert le x l).
Proof using le_total le_trans.
  unfold sorted_by. induction 1 as [|y l Hs IH Hall]; simpl.
  - repeat constructor.
  - destruct (le x y) eqn:Hxy.
    + constructor; [by constructor|].
      constructor; [done|].
      rewrite List.Forall_forall in Hall |- *. intros z Hz. eauto.
    + constructor; [done|].
      rewrite List.Forall_forall. intros z Hz.
      apply (Permutation_in _ (insert_perm x l)) in Hz.
      destruct Hz as [<- | Hz].
      * destruct (le_total x y) as [H|H]; [congruence|done].
      * rewrite List.Forall_forall in Hall. auto.
Qed.

Lemma order_by_sorted l : sorted_by le (Sql.order_by le l).
Proof using le_total le_trans.
  induction l as [|x l IH]; simpl; [constructor|]. by apply insert_sorted.
Qed.

(** [LIMIT 1] after [ORDER BY] returns a least row of the selection. *)
Lemma order_by_head_least l r :
  head (Sql.order_by le l) = Some r →
  In r l ∧ ∀ q, In q l → le r q = true.
Proof using le_total le_trans.
  intros Hh. pose proof (order_by_sorted l) as Hs.
  destruct (Sql.order_by le l) as [|x rest] eqn:Ho; [done|].
  simpl in Hh. injection Hh as ->.
  assert (Hin : ∀ q, In q l ↔ In q (r :: rest)).
  { intros q. rewrite <- Ho. symmetry. apply order_by_In. }
  split; [apply Hin; by left|].
  intros q Hq. apply Hin in Hq. destruct Hq as [<- | Hq].
  - destruct (le_total r r); done.
  - inversion Hs as [|? ? _ Hall]; subst.
    rewrite List.Forall_forall in Hall. auto.
Qed.

Lemma order_by_head_none l : head (Sql.order_by le l) = None ↔ l = [].
Proof.
  split.
  - intros H. destruct (Sql.order_by le l) eqn:Ho; [|done].
    apply (f_equal length) in Ho. rewrite order_by_length in Ho.
    by destruct l.
  - by intros ->.
Qed.

End OrderBy.

(** ** Lists: keys, filters, finds *)

Lemma NoDup_key_inj {A K} (f : A → K) (l : list A) a b :
  NoDup (List.map f l) → In a l → In b l → f a = f b → a = b.
Proof.
  induction l as [|x l IH]; simpl; [done|].
  rewrite NoDup_cons. intros [Hx Hnd] [-> | Ha] [-> | Hb] Hab; auto.
  - exfalso. apply Hx. rewrite Hab. apply list_elem_of_In, List.in_map, Hb.
  - exfalso. apply Hx. rewrite <- Hab. apply list_elem_of_In, List.in_map, Ha.
Qed.

Lemma NoDup_map_filter {A K} (f : A → K) (g : A → bool) (l : list A) :
  NoDup (List.map f l) → NoDup (List.map f (List.filter g l)).
Proof.
  induction l as [|x l IH]; simpl; [done|].
  rewrite NoDup_cons. intros [Hx Hnd].
  destruct (g x); simpl; [|auto].
  apply NoDup_cons. split; [|auto].
  intros Hin. apply Hx.
  apply list_elem_of_In, List.in_map_iff in Hin. destruct Hin as (y & Hy & Hin).
  apply List.filter_In in Hin. destruct Hin as [Hin _].
  rewrite <- Hy. apply list_elem_of_In, List.in_map, Hin.
Qed.

Lemma filter_length_all {A} (g : A → bool) (l : list A) :
  length (List.filter g l) = length l ↔ ∀ x, In x l → g x = true.
Proof.
  induction l as [|x l IH]; simpl; [by split|].
  pose proof (List.filter_length_le g l) as Hle.
  destruct (g x) eqn:Hg; simpl.
  - split.
    + intros H y [<- | Hy]; [done|]. apply IH; [lia|done].
    + intros H. f_equal. apply IH. auto.
  - split; [lia|]. intros H. specialize (H x (or_introl eq_refl)). congruence.
Qed.

Lemma filter_length_none {A} (g : A → bool) (l : list A) :
  length (List.filter g l) = 0%nat ↔ ∀ x, In x l → g x = false.
Proof.
  induction l as [|x l IH]; simpl; [by split|].
  destruct (g x) eqn:Hg; simpl.
  - split; [lia|]. intros H. specialize (H x (or_introl eq_refl)). congruence.
  - rewrite IH. split.
    + intros H y [<- | Hy]; auto.
    + intros H y Hy. apply H. by right.
Qed.

Lemma filter_andb {A} (f g : A → bool) (l : list A) :
  List.filter (fun x => f x && g x) l = List.filter g (List.filter f l).
Proof.
  induction l as [|x l IH]; simpl; [done|].
  destruct (f x); simpl; [destruct (g x)|]; by rewrite IH.
Qed.

Lemma find_map_same {A} (f : A → bool) (g : A → A) (l : list A) :
  (∀ x, f (g x) = f x) →
  List.find f (List.map g l) = g <$> List.find f l.
Proof.
  intros Hfg. induction l as [|x l IH]; simpl; [done|].
  rewrite Hfg. by destruct (f x).
Qed.

(** ** Schedule matrix *)

Lemma schedule_entry_Some d p day c :
  Sql.schedule_entry d p day = Some c →
  In c (prayer_schedule d) ∧ cell_prayer c = p ∧ day_of_week c = day.
Proof.
  unfold Sql.schedule_entry. intros H. apply List.find_some in H.
  destruct H as [Hin H]. apply andb_prop in H as [H1 H2].
  apply String.eqb_eq in H1. apply Z.eqb_eq in H2. done.
Qed.

Lemma schedule_entry_of_cell d c :
  NoDup (List.map cell_key (prayer_schedule d)) →
  In c (prayer_schedule d) →
  Sql.schedule_entry d (cell_prayer c) (day_of_week c) = Some c.
Proof.
  intros Hnd Hin.
  destruct (Sql.schedule_entry d (cell_prayer c) (day_of_week c)) as [c'|] eqn:He.
  - apply schedule_entry_Some in He as (Hin' & Hp & Hd).
    f_equal. apply (NoDup_key_inj cell_key (prayer_schedule d)); try done.
    unfold cell_key. by rewrite Hp, Hd.
  - unfold Sql.schedule_entry in He.
    apply (List.find_none _ _ He) in Hin. simpl in Hin.
    by rewrite String.eqb_refl, Z.eqb_refl in Hin.
Qed.

Lemma disabled_count_0 d p :
  Sql.disabled_count d p = 0 ↔
  ∀ c, In c (prayer_schedule d) → cell_prayer c = p → enabled c ≠ 0.
Proof.
  unfold Sql.disabled_count.
  rewrite <- Nat2Z.inj_0, Nat2Z.inj_iff, filter_length_none.
  split; intros H c Hin.
  - intros Hp He. specialize (H c Hin).
    rewrite Hp, String.eqb_refl, He in H. done.
  - destruct (String.eqb_spec (cell_prayer c) p) as [Hp|]; [|done].
    simpl. apply Z.eqb_neq. auto.
Qed.

(** The seven rows of a main prayer. *)
Lemma prayer_row_count cells p :
  schedule_wf cells → In p prayerNames →
  length (List.filter (fun c => String.eqb (cell_prayer c) p) cells) = 7%nat.
Proof. drop_env.
  intros (Hnd & Hday & Hall) Hp.
  set (rows := List.filter (fun c => String.eqb (cell_prayer c) p) cells).
  assert (Hrows : ∀ c, In c rows ↔ In c cells ∧ cell_prayer c = p).
  { intros c. unfold rows. rewrite List.filter_In, String.eqb_eq. done. }
  assert (Hperm : Permutation (List.map day_of_week rows) [0; 1; 2; 3; 4; 5; 6]).
  { apply NoDup_Permutation.
    - assert (Hk : NoDup (List.map cell_key rows)) by by apply NoDup_map_filter.
      clear -Hk Hrows.
      assert (Hp : ∀ c, In c rows → cell_prayer c = p) by (intros c Hc; by apply Hrows).
      clear Hrows. induction rows as [|c rows IH]; simpl in *; [constructor|].
      apply NoDup_cons in Hk as [Hc Hk]. apply NoDup_cons. split; [|auto].
      intros Hin. apply Hc.
      apply list_elem_of_In, List.in_map_iff in Hin. destruct Hin as (c' & Hd & Hin).
      apply list_elem_of_In, List.in_map_iff. exists c'. split; [|done].
      unfold cell_key. rewrite Hd. f_equal.
      rewrite (Hp c'), (Hp c); auto.
    - by apply (bool_decide_unpack _).
    - intros day. rewrite list_elem_of_In, List.in_map_iff. split.
      + intros (c & <- & Hc). apply Hrows in Hc as [Hc _].
        specialize (Hday c Hc).
        assert (day_of_week c = 0 ∨ day_of_week c = 1 ∨ day_of_week c = 2
                ∨ day_of_week c = 3 ∨ day_of_week c = 4 ∨ day_of_week c = 5
                ∨ day_of_week c = 6) as Hcases by lia.
        apply list_elem_of_In. simpl. intuition congruence.
      + intros Hin. apply list_elem_of_In in Hin. simpl in Hin.
        assert (0 <= day <= 6) as Hr by (intuition lia).
        destruct (Hall p day Hp Hr) as (c & Hc & Hcp & Hcd).
        exists c. split; [done|]. apply Hrows. done. }
  apply Permutation_length in Hperm. by rewrite length_map in Hperm.
Qed.

Lemma disabled_count_7 d p :
  schedule_wf (prayer_schedule d) → In p prayerNames →
  (Sql.disabled_count d p = 7 ↔
   ∀ c, In c (prayer_schedule d) → cell_prayer c = p → enabled c = 0).
Proof.
  intros Hwf Hp. unfold Sql.disabled_count.
  rewrite filter_andb.
  pose proof (prayer_row_count _ p Hwf Hp) as Hlen.
  change 7 with (Z.of_nat 7). rewrite Nat2Z.inj_iff, <- Hlen at 1.
  rewrite filter_length_all. split.
  - intros H c Hin Hcp. apply Z.eqb_eq, H.
    apply List.filter_In. split; [done|]. by apply String.eqb_eq.
  - intros H c Hin. apply List.filter_In in Hin as [Hin Hcp].
    apply Z.eqb_eq, H; [done|]. by apply String.eqb_eq.
Qed.

(** In terms of the seven weekday cells. *)
Lemma all_cells_iff (P : Z → Prop) d p :
  schedule_wf (prayer_schedule d) → In p prayerNames →
  ((∀ c, In c (prayer_schedule d) → cell_prayer c = p → P (enabled c)) ↔
   (∀ day, 0 <= day <= 6 →
      ∃ c, Sql.schedule_entry d p day = Some c ∧ P (enabled c))).
Proof.
  intros (Hnd & Hday & Hall) Hp. split.
  - intros H day Hr. destruct (Hall p day Hp Hr) as (c & Hc & Hcp & Hcd).
    exists c. split; [|auto]. subst. by apply schedule_entry_of_cell.
  - intros H c Hc Hcp.
    destruct (H (day_of_week c) (Hday c Hc)) as (c' & He & HP).
    rewrite <- Hcp, (schedule_entry_of_cell d c Hnd Hc) in He. congruence.
Qed.

Lemma update_cell_keys v p day cs :
  List.map cell_key (Sql.update_cell v p day cs) = List.map cell_key cs.
Proof.
  unfold Sql.update_cell. rewrite List.map_map. apply List.map_ext.
  intros c. by destruct (_ && _).
Qed.

Lemma update_cell_wf v p day cs :
  schedule_wf cs → schedule_wf (Sql.update_cell v p day cs).
Proof.
  intros (Hnd & Hday & Hall). split; [|split].
  - change (NoDup (List.map cell_key (Sql.update_cell v p day cs))).
    by rewrite update_cell_keys.
  - intros c Hc. unfold Sql.update_cell in Hc.
    apply List.in_map_iff in Hc as (c0 & <- & Hc0).
    specialize (Hday c0 Hc0). by destruct (_ && _).
  - intros q d Hq Hd. destruct (Hall q d Hq Hd) as (c & Hc & Hcp & Hcd).
    eexists. split; [unfold Sql.update_cell; apply List.in_map, Hc|].
    by destruct (_ && _).
Qed.

Lemma update_cell_entry v p day d q day' :
  Sql.schedule_entry (set_prayer_schedule (Sql.update_cell v p day (prayer_schedule d)) d) q day'
  = (fun c => if String.eqb q p && (day' =? day)
              then mkCell (cell_prayer c) (day_of_week c) v else c)
    <$> Sql.schedule_entry d q day'.
Proof.
  unfold Sql.schedule_entry, Sql.update_cell. simpl.
  rewrite find_map_same.
  - destruct (List.find _ _) as [c|] eqn:Hf; simpl; [|done].
    apply List.find_some in Hf as [_ Hf]. apply andb_prop in Hf as [H1 H2].
    apply String.eqb_eq in H1. apply Z.eqb_eq in H2. by subst.
  - intros c.
    by destruct (String.eqb (cell_prayer c) p && (day_of_week c =? day)).
Qed.

Lemma main_prayer_valid p :
  In p prayerNames → String.eqb p "" = false ∧ JS.includes mainPrayers p = true.
Proof. drop_env.
  intros Hp. split; [|by apply includes_In].
  simpl in Hp. intuition (subst; done).
Qed.

Lemma postPrayerSchedule_ok p day en s :
  In p prayerNames → 0 <= day <= 6 →
  postPrayerSchedule p day en s =
  (set_db (set_prayer_schedule
             (Sql.update_cell (if en then 1 else 0) p day (prayer_schedule (db s)))
             (db s)) s, 200).
Proof.
  intros Hp Hd. unfold postPrayerSchedule.
  destruct (main_prayer_valid p Hp) as [-> ->].
  destruct (Z.ltb_spec day 0); [lia|]. destruct (Z.ltb_spec 6 day); [lia|].
  done.
Qed.

Lemma prayerSettingEnabled_iff p s :
  In p prayerNames → schedule_wf (prayer_schedule (db s)) →
  (prayerSettingEnabled p s = 1 ↔ ∀ day, 0 <= day <= 6 → cell_enabled (db s) p day).
Proof.
  intros Hp Hwf. unfold prayerSettingEnabled, cell_enabled.
  rewrite <- (all_cells_iff (fun e => e ≠ 0)), <- disabled_count_0 by done.
  destruct (Z.eqb_spec (Sql.disabled_count (db s) p) 0); split; done.
Qed.

Lemma prayerSettingEnabled_01 p s :
  prayerSettingEnabled p s = 1 ∨ prayerSettingEnabled p s = 0.
Proof. unfold prayerSettingEnabled. destruct (_ =? _); auto. Qed.

(** C7. The simple per-prayer view ([GET /api/prayer-settings] and
    [GET /api/prayer-settings/:prayerName]) reports [enabled = 1] exactly
    when all seven weekday cells of the prayer are enabled, and 0 otherwise;
    disabling one weekday cell makes it report 0; enabling that cell while
    the other six are enabled (in particular, re-enabling it after having
    disabled it) makes it report 1. *)
Theorem simple_view_all_seven p s :
  In p prayerNames → schedule_wf (prayer_schedule (db s)) →
  (prayerSettingEnabled p s = 1 ↔ ∀ day, 0 <= day <= 6 → cell_enabled (db s) p day)
  ∧ (prayerSettingEnabled p s ≠ 1 → prayerSettingEnabled p s = 0)
  ∧ In (p, prayerSettingEnabled p s) (prayerSettings s)
  ∧ ∀ day, 0 <= day <= 6 →
      let disabled := (postPrayerSchedule p day false s).1 in
      prayerSettingEnabled p disabled = 0
      ∧ ((∀ day', 0 <= day' <= 6 → day' ≠ day → cell_enabled (db s) p day') →
         prayerSettingEnabled p (postPrayerSchedule p day true s).1 = 1
         ∧ prayerSettingEnabled p (postPrayerSchedule p day true disabled).1 = 1).
Proof.
  intros Hp Hwf.
  assert (Hset : ∀ en day s0, 0 <= day <= 6 →
     schedule_wf (prayer_schedule (db s0)) →
     let s1 := (postPrayerSchedule p day en s0).1 in
     schedule_wf (prayer_schedule (db s1))
     ∧ (∀ day', 0 <= day' <= 6 → day' ≠ day →
          cell_enabled (db s0) p day' → cell_enabled (db s1) p day')
     ∧ ∃ c, Sql.schedule_entry (db s1) p day = Some c
            ∧ enabled c = if en then 1 else 0).
  { intros en day s0 Hd Hwf0. rewrite postPrayerSchedule_ok by done. simpl.
    split; [by apply update_cell_wf|]. split.
    - intros day' Hd' Hne (c & He & Hen). exists c.
      rewrite update_cell_entry, He. simpl.
      rewrite String.eqb_refl. destruct (Z.eqb_spec day' day); done.
    - destruct Hwf0 as (Hnd & _ & Hall).
      destruct (Hall p day Hp Hd) as (c & Hc & Hcp & Hcd).
      eexists. rewrite update_cell_entry. subst p day.
      rewrite (schedule_entry_of_cell _ c Hnd Hc). simpl.
      rewrite String.eqb_refl, Z.eqb_refl. simpl. done. }
  split; [by apply prayerSettingEnabled_iff|]. split.
  { destruct (prayerSettingEnabled_01 p s); [done|auto]. }
  split.
  { unfold prayerSettings. apply List.in_map_iff. by exists p. }
  intros day Hd disabled.
  destruct (Hset false day s Hd Hwf) as (Hwf1 & Hkeep1 & c1 & He1 & Hc1).
  fold disabled in Hwf1, Hkeep1, He1.
  split.
  - destruct (prayerSettingEnabled_01 p disabled) as [H1|]; [|done].
    pose proof (proj1 (prayerSettingEnabled_iff p disabled Hp Hwf1) H1) as Hall.
    destruct (Hall day Hd) as (c & He & Hen). congruence.
  - intros Hothers.
    assert (Hon : ∀ s0, schedule_wf (prayer_schedule (db s0)) →
       (∀ day', 0 <= day' <= 6 → day' ≠ day → cell_enabled (db s0) p day') →
       prayerSettingEnabled p (postPrayerSchedule p day true s0).1 = 1).
    { intros s0 Hwf0 Hoth.
      destruct (Hset true day s0 Hd Hwf0) as (Hwf2 & Hkeep2 & c2 & He2 & Hc2).
      apply prayerSettingEnabled_iff; [done|done|].
      intros day' Hd'. destruct (Z.eq_dec day' day) as [->|Hne].
      - exists c2. split; [done|lia].
      - apply Hkeep2; auto. }
    split; [by apply Hon|].
    apply Hon; [done|]. intros day' Hd' Hne. apply Hkeep1; auto.
Qed.

(** ** Times of day as text

    The calendar stores times as zero-padded HH:MM; on such texts the
    comparison of SQLite and the minutes computed by [parseInt] are the
    clock's. *)

Lemma upto_In n z : 0 <= z < Z.of_nat n → In z (upto n).
Proof.
  intros H. unfold upto. apply List.in_map_iff. exists (Z.to_nat z).
  split; [lia|]. apply List.in_seq. lia.
Qed.

Lemma padStart2_table :
  forallb (fun a => forallb (fun b =>
      comparison_eqb (String.compare (JS.padStart2 a) (JS.padStart2 b)) (a ?= b)
      && Nat.eqb (String.length (JS.padStart2 a)) 2
      && bool_decide (JS.parseInt (JS.padStart2 a) = Some a)
      && negb (existsb (Ascii.eqb ":") (list_ascii_of_string (JS.padStart2 a))))
    (upto 60)) (upto 60) = true.
Proof. vm_compute. reflexivity. Qed.

Lemma padStart2_facts a b :
  0 <= a < 60 → 0 <= b < 60 →
  String.compare (JS.padStart2 a) (JS.padStart2 b) = (a ?= b)
  ∧ String.length (JS.padStart2 a) = 2%nat
  ∧ JS.parseInt (JS.padStart2 a) = Some a
  ∧ existsb (Ascii.eqb ":") (list_ascii_of_string (JS.padStart2 a)) = false.
Proof.
  intros Ha Hb. pose proof padStart2_table as T.
  rewrite forallb_forall in T. specialize (T a (upto_In 60 a Ha)).
  rewrite forallb_forall in T. specialize (T b (upto_In 60 b Hb)).
  apply andb_prop in T as [T T4]. apply andb_prop in T as [T T3].
  apply andb_prop in T as [T1 T2].
  apply Nat.eqb_eq in T2. apply bool_decide_eq_true in T3.
  apply negb_true_iff in T4.
  repeat split; try done.
  destruct (String.compare _ _), (a ?= b); done.
Qed.

Lemma compare_app a : ∀ b s t,
  String.length a = String.length b →
  String.compare (a +:+ s) (b +:+ t) =
  match String.compare a b with Eq => String.compare s t | c => c end.
Proof.
  induction a as [|x a IH]; intros [|y b] s t Hlen; simpl in *; try done.
  destruct (Ascii.compare x y); auto.
Qed.

Lemma hhmm_compare h m h' m' :
  0 <= h < 24 → 0 <= m < 60 → 0 <= h' < 24 → 0 <= m' < 60 →
  String.compare (hhmm h m) (hhmm h' m') = (h * 60 + m ?= h' * 60 + m').
Proof.
  intros Hh Hm Hh' Hm'. unfold hhmm.
  destruct (padStart2_facts h h') as (Ch & Lh & _); [lia..|].
  destruct (padStart2_facts h' h) as (_ & Lh' & _); [lia..|].
  destruct (padStart2_facts m m') as (Cm & _); [lia..|].
  rewrite compare_app by congruence. rewrite Ch.
  change (String.compare (":" +:+ JS.padStart2 m) (":" +:+ JS.padStart2 m'))
    with (String.compare (JS.padStart2 m) (JS.padStart2 m')).
  rewrite Cm. symmetry.
  destruct (Z.compare_spec h h'); destruct (Z.compare_spec m m');
    first [apply Z.compare_eq_iff | apply Z.compare_lt_iff | apply Z.compare_gt_iff];
    lia.
Qed.

(** Text order of two HH:MM times is the order of the clock. *)
Lemma hhmm_lt h m h' m' :
  0 <= h < 24 → 0 <= m < 60 → 0 <= h' < 24 → 0 <= m' < 60 →
  JS.str_lt (hhmm h m) (hhmm h' m') = (h * 60 + m <? h' * 60 + m').
Proof.
  intros. unfold JS.str_lt, String.ltb, Z.ltb. by rewrite hhmm_compare.
Qed.

Lemma hhmm_le h m h' m' :
  0 <= h < 24 → 0 <= m < 60 → 0 <= h' < 24 → 0 <= m' < 60 →
  JS.str_le (hhmm h m) (hhmm h' m') = (h * 60 + m <=? h' * 60 + m').
Proof.
  intros. unfold JS.str_le, String.leb, Z.leb. by rewrite hhmm_compare.
Qed.

Lemma str_app_cons c s t : String c s +:+ t = String c (s +:+ t).
Proof. reflexivity. Qed.

Lemma str_app_nil_r s : s +:+ "" = s.
Proof. induction s as [|c s IH]; [done|]. by rewrite str_app_cons, IH. Qed.

Lemma str_app_snoc cur c s : (cur +:+ String c "") +:+ s = cur +:+ String c s.
Proof. induction cur as [|x cur IH]; [done|]. by rewrite !str_app_cons, IH. Qed.

Lemma split_go_no_sep sep s : ∀ cur,
  existsb (Ascii.eqb sep) (list_ascii_of_string s) = false →
  JS.split_go sep s cur = [cur +:+ s].
Proof.
  induction s as [|c s IH]; intros cur H; simpl in *.
  - by rewrite str_app_nil_r.
  - apply orb_false_elim in H as [Hc Hs].
    rewrite Ascii.eqb_sym, Hc. rewrite IH by done. by rewrite str_app_snoc.
Qed.

Lemma split_go_app sep a : ∀ cur rest,
  existsb (Ascii.eqb sep) (list_ascii_of_string a) = false →
  JS.split_go sep (a +:+ String sep rest) cur =
  (cur +:+ a) :: JS.split_go sep rest "".
Proof.
  induction a as [|c a IH]; intros cur rest H; simpl in *.
  - rewrite Ascii.eqb_refl. by rewrite str_app_nil_r.
  - apply orb_false_elim in H as [Hc Hs].
    rewrite Ascii.eqb_sym, Hc. rewrite IH by done. by rewrite str_app_snoc.
Qed.

(** The minutes [parseInt] reads from an HH:MM text. *)
Lemma minutesOf_hhmm h m :
  0 <= h < 24 → 0 <= m < 60 → minutesOf (hhmm h m) = Some (h * 60 + m).
Proof.
  intros Hh Hm. unfold minutesOf, hhmm, JS.split.
  destruct (padStart2_facts h h) as (_ & _ & Ph & Nh); [lia..|].
  destruct (padStart2_facts m m) as (_ & _ & Pm & Nm); [lia..|].
  change (":" +:+ JS.padStart2 m) with (String ":" (JS.padStart2 m)).
  rewrite split_go_app by done. rewrite split_go_no_sep by done.
  change ("" +:+ JS.padStart2 h) with (JS.padStart2 h).
  change ("" +:+ JS.padStart2 m) with (JS.padStart2 m).
  simpl. rewrite Ph, Pm. done.
Qed.

(** ** Next upcoming prayer *)

Lemma by_time_total a b : Sql.by_time a b = true ∨ Sql.by_time b a = true.
Proof. apply str_le_total. Qed.

Lemma by_time_trans a b c :
  Sql.by_time a b = true → Sql.by_time b c = true → Sql.by_time a c = true.
Proof. apply str_le_trans. Qed.

Lemma main_on_filter d day q :
  In q (List.filter (fun r => String.eqb (date r) day && Sql.is_main r) (prayers d))
  ↔ main_on d day q.
Proof. drop_env.
  rewrite List.filter_In, andb_true_iff, String.eqb_eq.
  unfold Sql.is_main. rewrite includes_In. unfold main_on. tauto.
Qed.

Lemma main_prayers_on_In d day q :
  In q (Sql.main_prayers_on d day) ↔ main_on d day q.
Proof. unfold Sql.main_prayers_on. by rewrite order_by_In, main_on_filter. Qed.

Lemma first_main_prayer_spec d day :
  match Sql.first_main_prayer d day with
  | Some r => earliest (main_on d day) r
  | None => ∀ q, ¬ main_on d day q
  end.
Proof.
  unfold Sql.first_main_prayer, Sql.main_prayers_on.
  destruct (head _) as [r|] eqn:Hh.
  - apply (order_by_head_least _ by_time_total by_time_trans) in Hh as [Hin Hmin].
    split; [by apply main_on_filter|].
    intros q Hq. apply Hmin. by apply main_on_filter.
  - apply order_by_head_none in Hh. intros q Hq.
    apply main_on_filter in Hq. by rewrite Hh in Hq.
Qed.

Lemma next_main_prayer_spec d day t :
  match Sql.next_main_prayer d day t with
  | Some r =>
      earliest (fun q => main_on d day q ∧ JS.str_lt t (prayer_time q) = true) r
  | None => ∀ q, ¬ (main_on d day q ∧ JS.str_lt t (prayer_time q) = true)
  end.
Proof. drop_env.
  unfold Sql.next_main_prayer.
  set (sel := List.filter _ (prayers d)).
  assert (Hsel : ∀ q, In q sel ↔
            main_on d day q ∧ JS.str_lt t (prayer_time q) = true).
  { intros q. unfold sel.
    rewrite List.filter_In, !andb_true_iff, String.eqb_eq.
    unfold Sql.is_main. rewrite includes_In. unfold main_on. tauto. }
  destruct (head _) as [r|] eqn:Hh.
  - apply (order_by_head_least _ by_time_total by_time_trans) in Hh as [Hin Hmin].
    split; [by apply Hsel|]. intros q Hq. apply Hmin. by apply Hsel.
  - apply order_by_head_none in Hh. intros q Hq.
    apply Hsel in Hq. by rewrite Hh in Hq.
Qed.

(** C6. [nextUpcoming] ([GET /api/prayers/next/upcoming]) returns an
    earliest main prayer of today whose time is strictly after the current
    time; when none remains today, an earliest main prayer of tomorrow; and
    [null] when neither exists, in particular when the calendar has no row
    for today or tomorrow. *)
Theorem nextUpcoming_spec now s :
  ((∃ q, upcoming_today now (db s) q) →
     ∃ r, nextUpcoming now s = Some r ∧ earliest (upcoming_today now (db s)) r)
  ∧ ((¬ ∃ q, upcoming_today now (db s) q) →
     (∃ q, main_on (db s) (tomorrow now) q) →
     ∃ r, nextUpcoming now s = Some r ∧ earliest (main_on (db s) (tomorrow now)) r)
  ∧ ((¬ ∃ q, upcoming_today now (db s) q) →
     (¬ ∃ q, main_on (db s) (tomorrow now) q) →
     nextUpcoming now s = None)
  ∧ ((∀ r, In r (prayers (db s)) → date r ≠ today now ∧ date r ≠ tomorrow now) →
     nextUpcoming now s = None).
Proof.
  unfold nextUpcoming, upcoming_today.
  fold (today now). fold (tomorrow now).
  pose proof (next_main_prayer_spec (db s) (today now) (timeHHMM now)) as Hn.
  pose proof (first_main_prayer_spec (db s) (tomorrow now)) as Hf.
  destruct (Sql.next_main_prayer _ _ _) as [r|].
  - split; [eauto|]. destruct Hn as [Hr _].
    split; [intros Hno; exfalso; eauto|].
    split; [intros Hno; exfalso; eauto|].
    intros Hnone. destruct Hr as [(Hin & Hd & _) _].
    by destruct (Hnone r Hin).
  - split; [intros [q Hq]; by destruct (Hn q)|].
    destruct (Sql.first_main_prayer _ _) as [r|].
    + split; [eauto|]. destruct Hf as [Hr _].
      split; [intros _ Hno; exfalso; eauto|].
      intros Hnone. destruct Hr as (Hin & Hd & _).
      by destruct (Hnone r Hin).
    + split; [intros _ [q Hq]; by destruct (Hf q)|]. done.
Qed.

(** ** One-shot mute: setting the flag *)

Lemma nextUpcoming_main now s p :
  nextUpcoming now s = Some p → In (prayer_name p) prayerNames.
Proof.
  unfold nextUpcoming.
  pose proof (next_main_prayer_spec (db s) (formatDateLocal (local now)) (timeHHMM now)) as Hn.
  pose proof (first_main_prayer_spec (db s) (formatDateLocal (setDate_next (local now)))) as Hf.
  destruct (Sql.next_main_prayer _ _ _) as [r|].
  - intros [= ->]. by destruct Hn as [[(_ & _ & H) _] _].
  - destruct (Sql.first_main_prayer _ _) as [r|]; [|done].
    intros [= ->]. by destruct Hf as [(_ & _ & H) _].
Qed.

Lemma muteNext_nextUpcoming rejectStatus okMessage now s :
  muteNext rejectStatus okMessage now s =
  match nextUpcoming now s with
  | Some p =>
      if Sql.disabled_count (db s) (prayer_name p) =? 7
      then (s, mkMuteAnswer rejectStatus false
                 (prayer_name p +:+ " is already muted in general settings"))
      else (set_skip_flag s, mkMuteAnswer 200 true okMessage)
  | None => (set_skip_flag s, mkMuteAnswer 200 true okMessage)
  end.
Proof.
  unfold muteNext, nextUpcoming.
  destruct (Sql.next_main_prayer _ _ _); [done|].
  by destruct (Sql.first_main_prayer _ _).
Qed.




(** ** The trigger window of [/api/check-athan-time] *)

Lemma inTriggerWindow_iff cm r :
  inTriggerWindow cm r = true ↔
  ∃ c p, cm = Some c ∧ minutesOf (prayer_time r) = Some p ∧ 0 <= c - p <= 1.
Proof.
  unfold inTriggerWindow.
  destruct cm as [c|], (minutesOf (prayer_time r)) as [p|]; simpl.
  - rewrite andb_true_iff, !Z.leb_le. split.
    + intros H. exists c, p. auto.
    + intros (c' & p' & [= <-] & [= <-] & H). done.
  - split; [done|]. by intros (c' & p' & _ & ? & _).
  - split; [done|]. by intros (c' & p' & ? & _).
  - split; [done|]. by intros (c' & p' & ? & _).
Qed.

Lemma checkLoop_find d dayIndex currentDate cm l :
  checkLoop d dayIndex currentDate cm l =
  match List.find (inTriggerWindow cm) l with
  | Some r => checkInWindow d dayIndex currentDate r
  | None => dont_play
  end.
Proof.
  induction l as [|r l IH]; simpl; [done|].
  by destruct (inTriggerWindow cm r).
Qed.

Lemma checkAthanTime_window now s :
  checkAthanTime now s =
  if String.eqb (default "both" (Sql.setting (db s) "audio_output")) "server"
  then dont_play
  else match windowPrayer now s with
       | Some r => checkInWindow (db s) (Z.rem (getDay now + 6) 7) (today now) r
       | None => dont_play
       end.
Proof.
  unfold checkAthanTime, windowPrayer, today.
  destruct (String.eqb _ _); [done|]. apply checkLoop_find.
Qed.

Lemma checkInWindow_names d dayIndex currentDate r :
  shouldPlay (checkInWindow d dayIndex currentDate r) = true →
  answer_prayerName (checkInWindow d dayIndex currentDate r) = Some (prayer_name r).
Proof.
  unfold checkInWindow.
  repeat match goal with |- context [if ?b then _ else _] => destruct b end;
    simpl; done.
Qed.

Lemma windowPrayer_Some now s r :
  windowPrayer now s = Some r →
  main_on (db s) (today now) r
  ∧ inTriggerWindow (minutesOf (timeHHMM now)) r = true.
Proof.
  unfold windowPrayer. intros H. apply List.find_some in H as [Hin Hw].
  split; [by apply main_prayers_on_In|done].
Qed.

Lemma checkAthanTime_play now s :
  shouldPlay (checkAthanTime now s) = true →
  ∃ r, windowPrayer now s = Some r
       ∧ answer_prayerName (checkAthanTime now s) = Some (prayer_name r).
Proof.
  rewrite checkAthanTime_window.
  destruct (String.eqb _ _); [done|].
  destruct (windowPrayer now s) as [r|]; [|done].
  intros H. exists r. split; [done|]. by apply checkInWindow_names.
Qed.

(** C3. [/api/check-athan-time] answers [shouldPlay: true] for a prayer
    only if that prayer is a main prayer of the current date and the current
    time, in minutes of the day, is at or after the prayer's time and at most
    one minute after it; for a main prayer of the current date whose time is
    still ahead, or more than one minute behind, the answer is never
    [shouldPlay: true] for that prayer.  (Minutes are those of the local
    HH:MM, as the handler reads them.) *)
Theorem fire_window now s :
  (∀ name, shouldPlay (checkAthanTime now s) = true →
     answer_prayerName (checkAthanTime now s) = Some name →
     ∃ r c p, main_on (db s) (today now) r ∧ prayer_name r = name
              ∧ minutesOf (timeHHMM now) = Some c
              ∧ minutesOf (prayer_time r) = Some p
              ∧ 0 <= c - p <= 1)
  ∧ (shouldPlay (checkAthanTime now s) = true →
     ∃ name, answer_prayerName (checkAthanTime now s) = Some name)
  ∧ (prayers_unique (prayers (db s)) →
     ∀ r c p, main_on (db s) (today now) r →
       minutesOf (timeHHMM now) = Some c →
       minutesOf (prayer_time r) = Some p →
       c < p ∨ 1 < c - p →
       ¬ (shouldPlay (checkAthanTime now s) = true
          ∧ answer_prayerName (checkAthanTime now s) = Some (prayer_name r)))
  ∧ (0 <= getHours now < 24 → 0 <= getMinutes now < 60 →
     minutesOf (timeHHMM now) = Some (getHours now * 60 + getMinutes now)).
Proof.
  split; [|split; [|split]].
  - intros name Hplay Hname.
    destruct (checkAthanTime_play now s Hplay) as (r & Hw & Hn).
    apply windowPrayer_Some in Hw as [Hmain Hin].
    apply inTriggerWindow_iff in Hin as (c & p & Hc & Hp & Hd).
    exists r, c, p. split; [done|]. split; [congruence|]. done.
  - intros Hplay. destruct (checkAthanTime_play now s Hplay) as (r & _ & Hn). eauto.
  - intros Huniq r c p Hmain Hc Hp Hout [Hplay Hname].
    destruct (checkAthanTime_play now s Hplay) as (r' & Hw & Hn).
    apply windowPrayer_Some in Hw as [Hmain' Hin].
    assert (r' = r) as ->.
    { destruct Hmain as (Hr & Hd & _), Hmain' as (Hr' & Hd' & _).
      apply (NoDup_key_inj prayer_key (prayers (db s))); try done.
      unfold prayer_key. f_equal; congruence. }
    apply inTriggerWindow_iff in Hin as (c' & p' & Hc' & Hp' & Hd). 
    rewrite Hc in Hc'. rewrite Hp in Hp'. simplify_eq. lia.
  - intros Hh Hm. by apply minutesOf_hhmm.
Qed.

(** ** Trigger scheduler *)

Lemma cancel_all_tracked jobs : ∀ ts,
  (∀ j, In j ts → In j jobs) → cancel_all jobs ts = [].
Proof.
  unfold cancel_all. induction jobs as [|a jobs IH]; intros ts H; simpl.
  - destruct ts as [|j ts]; [done|]. destruct (H j). by left.
  - apply IH. intros j Hj. unfold cancel in Hj.
    apply List.filter_In in Hj as [Hj Hid].
    destruct (H j Hj) as [<- | ?]; [|done].
    by rewrite Nat.eqb_refl in Hid.
Qed.

Lemma number_jobs_length n rows : length (number_jobs n rows) = length rows.
Proof. revert n. induction rows as [|r rows IH]; intros n; simpl; auto. Qed.

Lemma number_jobs_prayers n rows :
  List.map job_prayer (number_jobs n rows) = rows.
Proof. revert n. induction rows as [|r rows IH]; intros n; simpl; by rewrite ?IH. Qed.

Lemma number_jobs_schedule n m rows :
  List.map (fun j => (fireAt j, job_prayer j)) (number_jobs n rows)
  = List.map (fun j => (fireAt j, job_prayer j)) (number_jobs m rows).
Proof.
  revert n m. induction rows as [|r rows IH]; intros n m; simpl; [done|].
  f_equal. apply IH.
Qed.

Lemma number_jobs_ids n rows j :
  In j (number_jobs n rows) → (n <= job_id j < n + length rows)%nat.
Proof.
  revert n. induction rows as [|r rows IH]; intros n; simpl; [done|].
  intros [<- | Hj]; simpl; [lia|]. apply IH in Hj. lia.
Qed.

Lemma number_jobs_NoDup n rows : NoDup (List.map job_id (number_jobs n rows)).
Proof.
  revert n. induction rows as [|r rows IH]; intros n; simpl; [constructor|].
  apply NoDup_cons. split; [|apply IH].
  intros Hin. apply list_elem_of_In, List.in_map_iff in Hin as (j & Hid & Hj).
  apply number_jobs_ids in Hj. lia.
Qed.

Lemma number_jobs_instant now n rows j :
  In j (number_jobs n (List.filter (is_future now) rows)) →
  fire_instant (job_prayer j) = Some (fireAt j) ∧ getTime now < fireAt j.
Proof.
  revert n. induction rows as [|r rows IH]; intros n; simpl; [done|].
  destruct (is_future now r) eqn:Hf; [|apply IH].
  simpl. intros [<- | Hj]; [|by eapply IH]. simpl.
  unfold is_future in Hf. destruct (fire_instant r) as [t|]; [|done].
  simpl. split; [done|]. by apply Z.ltb_lt.
Qed.

Lemma number_jobs_app n l1 l2 :
  number_jobs n (l1 ++ l2)%list
  = (number_jobs n l1 ++ number_jobs (n + length l1) l2)%list.
Proof.
  revert n. induction l1 as [|r l1 IH]; intros n; simpl.
  - by rewrite Nat.add_0_r.
  - rewrite IH. do 3 f_equal. lia.
Qed.

Lemma extends_trans s j1 s1 j2 s2 :
  extends s j1 s1 → extends s1 j2 s2 → extends s (j1 ++ j2)%list s2.
Proof.
  intros (A1 & A2 & A3 & A4 & A5 & A6 & A7) (B1 & B2 & B3 & B4 & B5 & B6 & B7).
  unfold extends. rewrite B1, B2, B3, B4, B5, B6, B7, A1, A2, A3, A4, A5, A6, A7.
  rewrite !app_assoc, length_app. repeat split; try done. lia.
Qed.

Lemma arm_extends now s a b r :
  extends s (number_jobs (next_job_id s) (List.filter (is_future now) [r]))
          (arm now (s, a, b) r).1.1.
Proof.
  unfold arm, is_future, extends. simpl.
  destruct (fire_instant r) as [t|] eqn:Ht; simpl.
  - destruct (getTime now <? t); simpl.
    + rewrite Ht, List.filter_app, app_nil_r. simpl.
      repeat split; try done. lia.
    + rewrite !app_nil_r, List.filter_app, app_nil_r, Nat.add_0_r. done.
  - rewrite !app_nil_r, List.filter_app, app_nil_r, Nat.add_0_r. done.
Qed.

(** The fold of [arm] over the selected rows: one new job per future row,
    appended in order; nothing else moves but the console. *)
Lemma fold_arm now rows : ∀ s a b,
  extends s (number_jobs (next_job_id s) (List.filter (is_future now) rows))
          (fold_left (arm now) rows (s, a, b)).1.1.
Proof.
  induction rows as [|r rows IH]; intros s a b.
  - simpl. unfold extends. rewrite !app_nil_r, Nat.add_0_r. done.
  - change (fold_left (arm now) (r :: rows) (s, a, b))
      with (fold_left (arm now) rows (arm now (s, a, b) r)).
    change (r :: rows) with ([r] ++ rows)%list.
    rewrite List.filter_app, number_jobs_app.
    pose proof (arm_extends now s a b r) as Hstep.
    destruct (arm now (s, a, b) r) as [[s1 a1] b1]. simpl fst in Hstep.
    eapply extends_trans; [exact Hstep|].
    destruct Hstep as (_ & _ & _ & Hid & _).
    rewrite number_jobs_length in Hid. rewrite <- Hid.
    apply IH.
Qed.

(** What one sweep of [scheduleAthanCalls] leaves. *)
Lemma scheduleAthanCalls_eq now s :
  let rows := Sql.main_prayers_on2 (db s) (today now) (tomorrow now) in
  let jobs := number_jobs (next_job_id s) (List.filter (is_future now) rows) in
  let s' := scheduleAthanCalls now s in
  db s' = db s
  ∧ scheduledJobs s' = jobs
  ∧ timers s' = (cancel_all (scheduledJobs s) (timers s) ++ jobs)%list
  ∧ next_job_id s' = (next_job_id s + length jobs)%nat
  ∧ fridayQuranJob s' = fridayQuranJob s
  ∧ lastSystemTime s' = lastSystemTime s
  ∧ rearm_count s' = S (rearm_count s).
Proof.
  unfold scheduleAthanCalls, today, tomorrow, rearm_count. simpl.
  match goal with |- context [fold_left (arm now) ?rows (?s1, ?a1, ?b1)] =>
    pose proof (fold_arm now rows s1 a1 b1) as H;
    destruct (fold_left (arm now) rows (s1, a1, b1)) as [[s2 a2] b2] end.
  unfold extends, log in H. simpl in H.
  destruct H as (H1 & H2 & H3 & H4 & H5 & H6 & H7).
  unfold log. simpl. rewrite H1, H2, H3, H4, H5, H6.
  rewrite !List.filter_app, H7, List.filter_app. simpl.
  rewrite !app_nil_r, length_app. simpl.
  repeat split; try done. lia.
Qed.

Lemma main_prayers_on2_In d day1 day2 r :
  In r (Sql.main_prayers_on2 d day1 day2) ↔
  In r (prayers d) ∧ (date r = day1 ∨ date r = day2)
  ∧ In (prayer_name r) mainPrayers.
Proof.
  unfold Sql.main_prayers_on2.
  rewrite order_by_In, List.filter_In, andb_true_iff, orb_true_iff, !String.eqb_eq.
  unfold Sql.is_main. by rewrite includes_In.
Qed.

Lemma main_prayers_on2_unique d day1 day2 f :
  prayers_unique (prayers d) →
  NoDup (List.map prayer_key (List.filter f (Sql.main_prayers_on2 d day1 day2))).
Proof.
  intros Hu. apply NoDup_map_filter. unfold Sql.main_prayers_on2.
  rewrite (Permutation_map prayer_key (order_by_perm Sql.by_date_time _)).
  by apply NoDup_map_filter.
Qed.

(** C4. After [scheduleAthanCalls], the armed athan timers are exactly one
    per (date, prayer) among the main prayers of today and tomorrow whose
    instant is strictly after [now], each firing at its prayer's instant,
    and none for a pair whose instant has passed; every timer armed before
    is gone (all armed timers are new and are the ones [scheduledJobs]
    holds).  Calling it twice at the same instant on the same calendar
    gives the same firing schedule as calling it once.  (The two
    hypotheses hold in every state the server reaches: [reachable_ok].) *)
Theorem rearm_exactly_future now s :
  tracked s → prayers_unique (prayers (db s)) →
  let s' := scheduleAthanCalls now s in
  let armed := List.map job_prayer (timers s') in
  (∀ r, In r armed ↔
        In r (prayers (db s))
        ∧ (date r = today now ∨ date r = tomorrow now)
        ∧ In (prayer_name r) mainPrayers
        ∧ ∃ t, fire_instant r = Some t ∧ getTime now < t)
  ∧ NoDup (List.map prayer_key armed)
  ∧ NoDup (List.map job_id (timers s'))
  ∧ (∀ j, In j (timers s') →
       fire_instant (job_prayer j) = Some (fireAt j)
       ∧ (next_job_id s <= job_id j)%nat)
  ∧ (∀ j, In j (timers s) → (job_id j < next_job_id s)%nat → ¬ In j (timers s'))
  ∧ scheduledJobs s' = timers s'
  ∧ db s' = db s
  ∧ firing_schedule (scheduleAthanCalls now s') = firing_schedule s'.
Proof.
  intros Htr Hu s' armed.
  destruct (scheduleAthanCalls_eq now s) as (H1 & H2 & H3 & H4 & _).
  fold s' in H1, H2, H3, H4.
  rewrite cancel_all_tracked in H3 by done. simpl in H3.
  assert (Harmed : armed =
    List.filter (is_future now) (Sql.main_prayers_on2 (db s) (today now) (tomorrow now))).
  { unfold armed. by rewrite H3, number_jobs_prayers. }
  split; [|split; [|split; [|split; [|split; [|split; [|split]]]]]].
  - intros r. rewrite Harmed, List.filter_In, main_prayers_on2_In.
    unfold is_future. destruct (fire_instant r) as [t|].
    + rewrite Z.ltb_lt. split.
      * intros ((? & ? & ?) & ?). eauto 10.
      * intros (? & ? & ? & t' & [= <-] & ?). auto.
    + split; [by intros [_ ?]|]. by intros (_ & _ & _ & t' & ? & _).
  - rewrite Harmed. by apply main_prayers_on2_unique.
  - rewrite H3. apply number_jobs_NoDup.
  - intros j Hj. rewrite H3 in Hj. split.
    + by eapply number_jobs_instant.
    + apply number_jobs_ids in Hj. lia.
  - intros j _ Hold Hj. rewrite H3 in Hj.
    apply number_jobs_ids in Hj. lia.
  - by rewrite H2, H3.
  - done.
  - destruct (scheduleAthanCalls_eq now s') as (_ & _ & G3 & _).
    rewrite cancel_all_tracked in G3
      by (intros j Hj; by rewrite H2, <- H3).
    unfold firing_schedule. rewrite G3, H3, H1. simpl.
    apply number_jobs_schedule.
Qed.

(** [tracked] is an invariant of the server: it holds at start-up, and the
    scheduler, a firing, the drift monitor and the refresh keep it. *)
Lemma tracked_start d fq t l : tracked (mkServer d [] [] 0 fq t l).
Proof. by intros j. Qed.

Lemma tracked_scheduleAthanCalls now s :
  tracked s → tracked (scheduleAthanCalls now s).
Proof.
  intros Htr j. destruct (scheduleAthanCalls_eq now s) as (_ & H2 & H3 & _).
  rewrite H2, H3, cancel_all_tracked by done. done.
Qed.

Lemma tracked_fired j s : tracked s → tracked (fired j s).
Proof.
  intros Htr k. unfold fired, cancel. simpl.
  rewrite List.filter_In. intros [Hk _]. by apply Htr.
Qed.

Lemma fresh_scheduleAthanCalls now s : fresh_ids (scheduleAthanCalls now s).
Proof.
  intros j. destruct (scheduleAthanCalls_eq now s) as (_ & H2 & _ & H4 & _).
  rewrite H2, H4, number_jobs_length. intros Hj.
  apply number_jobs_ids in Hj. lia.
Qed.

Lemma scheduleFridayQuran_frame s :
  db (scheduleFridayQuran s).1 = db s
  ∧ scheduledJobs (scheduleFridayQuran s).1 = scheduledJobs s
  ∧ timers (scheduleFridayQuran s).1 = timers s
  ∧ next_job_id (scheduleFridayQuran s).1 = next_job_id s
  ∧ lastSystemTime (scheduleFridayQuran s).1 = lastSystemTime s
  ∧ console (scheduleFridayQuran s).1 = console s.
Proof.
  unfold scheduleFridayQuran. simpl. destruct (negb _); [done|].
  by destruct (cronAccepts _ _).
Qed.

(** Whether [scheduleFridayQuran] throws is decided by the settings. *)
Lemma scheduleFridayQuran_completion s s' :
  db s = db s' → (scheduleFridayQuran s).2 = (scheduleFridayQuran s').2.
Proof.
  intros E. unfold scheduleFridayQuran. simpl. rewrite E.
  destruct (negb _); [done|]. by destruct (cronAccepts _ _).
Qed.

(** A sweep does not read the console. *)
Lemma scheduleAthanCalls_log now l s :
  timers (scheduleAthanCalls now (log l s)) = timers (scheduleAthanCalls now s)
  ∧ scheduledJobs (scheduleAthanCalls now (log l s))
    = scheduledJobs (scheduleAthanCalls now s)
  ∧ rearm_count (scheduleAthanCalls now (log l s))
    = S (rearm_count (log l s))
  ∧ next_job_id (scheduleAthanCalls now (log l s))
    = next_job_id (scheduleAthanCalls now s).
Proof.
  destruct (scheduleAthanCalls_eq now s) as (_ & H2 & H3 & H4 & _).
  destruct (scheduleAthanCalls_eq now (log l s)) as (_ & G2 & G3 & G4 & _ & _ & G7).
  rewrite H2, H3, H4, G2, G3, G4. done.
Qed.

(** ** Clock-drift monitor *)

(** What one run of the interval body does, by the size of the drift. *)
Lemma driftCheck_effect now s :
  let expectedElapsed := 10000 in
  let drift := Z.abs ((getTime now - lastSystemTime s) - expectedElapsed) in
  let s' := (driftCheck now s).1 in
  ((driftCheck now s).2 = Returned → lastSystemTime s' = getTime now)
  ∧ (expectedElapsed / 2 < drift →
       timers s' = timers (scheduleAthanCalls now s)
       ∧ scheduledJobs s' = scheduledJobs (scheduleAthanCalls now s)
       ∧ next_job_id s' = next_job_id (scheduleAthanCalls now s)
       ∧ db s' = db s
       ∧ rearm_count s' = S (rearm_count s))
  ∧ (drift <= expectedElapsed / 2 →
       driftCheck now s = (set_lastSystemTime (getTime now) s, Returned)
       ∧ rearm_count s' = rearm_count s)
  ∧ ((driftCheck now s).2 = Threw
     ↔ expectedElapsed / 2 < drift ∧ (scheduleFridayQuran s).2 = Threw)
  ∧ ((driftCheck now s).2 = Threw → lastSystemTime s' = lastSystemTime s).
Proof.
  intros expectedElapsed drift s'. subst expectedElapsed.
  change (10000 / 2) with 5000.
  unfold s', driftCheck. fold drift. cbv zeta.
  destruct (Z.ltb_spec 5000 drift) as [Hd|Hd].
  - set (s1 := log LogRescheduling (log (LogDriftDetected drift) s)).
    destruct (scheduleFridayQuran_frame (scheduleAthanCalls now s1))
      as (F1 & F2 & F3 & F4 & F5 & F6).
    destruct (scheduleAthanCalls_eq now s1) as (E1 & _ & _ & _ & _ & E6 & _).
    destruct (scheduleAthanCalls_log now LogRescheduling
                (log (LogDriftDetected drift) s)) as (L1 & L2 & L3 & L4).
    destruct (scheduleAthanCalls_log now (LogDriftDetected drift) s)
      as (M1 & M2 & _ & M4).
    fold s1 in L1, L2, L3, L4.
    assert (Hc : (scheduleFridayQuran (scheduleAthanCalls now s1)).2
                 = (scheduleFridayQuran s).2).
    { apply scheduleFridayQuran_completion. by rewrite E1. }
    assert (Hcount : rearm_count (scheduleFridayQuran (scheduleAthanCalls now s1)).1
                     = S (rearm_count s)).
    { unfold rearm_count in *. rewrite F6, L3. unfold s1. simpl.
      rewrite !List.filter_app, !length_app. simpl. lia. }
    destruct (scheduleFridayQuran (scheduleAthanCalls now s1)) as [s2 c].
    cbn [fst snd] in *. destruct c; cbn [fst snd].
    + split; [done|]. split.
      { intros _. unfold rearm_count in *. simpl.
        rewrite F1, F2, F3, F4, E1, L1, L2, L4, M1, M2, M4.
        repeat split; try done.
        rewrite List.filter_app, length_app. simpl. lia. }
      split; [lia|]. split; [|done].
      split; [done|]. intros [_ H]. by rewrite <- Hc in H.
    + split; [done|]. split.
      { intros _. rewrite F1, F2, F3, F4, E1, L1, L2, L4, M1, M2, M4. done. }
      split; [lia|]. split; [by rewrite <- Hc|].
      intros _. rewrite F5, E6. done.
  - split; [done|]. split; [lia|]. split; [done|].
    split; [|done]. split; [done|lia].
Qed.

(** C8. One run of the monitor's interval body: when the magnitude of
    (actual elapsed - expected elapsed) exceeds half of the 10-second
    polling period, it runs one sweep of [scheduleAthanCalls] at the sampled
    time on the calendar as it stands (the armed timers become those of that
    sweep); when the drift is within the threshold it runs none and changes
    nothing but the sampled time it records.  A run that returns records
    the sampled time; a run ends in an exception exactly when the drift
    exceeds the threshold and [scheduleFridayQuran], called after the
    sweep, throws, and then the time kept is the old one. *)
Theorem drift_triggers_rearm now s :
  let expectedElapsed := 10000 in
  let drift := Z.abs ((getTime now - lastSystemTime s) - expectedElapsed) in
  let s' := (driftCheck now s).1 in
  ((driftCheck now s).2 = Returned → lastSystemTime s' = getTime now)
  ∧ (expectedElapsed / 2 < drift →
       timers s' = timers (scheduleAthanCalls now s)
       ∧ scheduledJobs s' = scheduledJobs (scheduleAthanCalls now s)
       ∧ next_job_id s' = next_job_id (scheduleAthanCalls now s)
       ∧ db s' = db s
       ∧ rearm_count s' = S (rearm_count s))
  ∧ (drift <= expectedElapsed / 2 →
       driftCheck now s = (set_lastSystemTime (getTime now) s, Returned)
       ∧ rearm_count s' = rearm_count s)
  ∧ ((driftCheck now s).2 = Threw
     ↔ expectedElapsed / 2 < drift ∧ (scheduleFridayQuran s).2 = Threw)
  ∧ ((driftCheck now s).2 = Threw → lastSystemTime s' = lastSystemTime s).
Proof. apply driftCheck_effect. Qed.

(** ** Calendar refresh *)

(** C5. When the fetch of the external source fails, [fetchPrayerTimes]
    returns [false] and leaves the whole store as it was, the [prayers]
    table in particular: no row is deleted or changed; the armed timers are
    not touched either. *)
Theorem refresh_failure_keeps_calendar now s :
  (fetchPrayerTimes now SourceUnavailable s).2 = false
  ∧ db (fetchPrayerTimes now SourceUnavailable s).1 = db s
  ∧ prayers (db (fetchPrayerTimes now SourceUnavailable s).1) = prayers (db s)
  ∧ timers (fetchPrayerTimes now SourceUnavailable s).1 = timers s
  ∧ scheduledJobs (fetchPrayerTimes now SourceUnavailable s).1 = scheduledJobs s.
Proof.
  unfold fetchPrayerTimes. by destruct (Sql.setting (db s) "ics_url").
Qed.

(** ** Weekday mutes *)

Lemma playAthan_with_muted now prayerName mw s :
  playAthan now prayerName (with_muted mw s)
  = ((with_muted mw (playAthan now prayerName s).1), (playAthan now prayerName s).2).
Proof.
  destruct s as [[ps st sk sched mw0 info] js ts n fq t l].
  unfold playAthan, with_muted, Sql.schedule_entry, Sql.setting. simpl.
  repeat match goal with
  | |- context [if ?b then _ else _] => destruct b
  | |- context [match ?o with Some _ => _ | None => _ end] => destruct o
  end; reflexivity.
Qed.

Lemma checkLoop_with_muted mw d dayIndex currentDate cm l :
  checkLoop (set_muted_weekdays mw d) dayIndex currentDate cm l
  = checkLoop d dayIndex currentDate cm l.
Proof.
  induction l as [|r l IH]; simpl; [done|]. by rewrite IH.
Qed.

Lemma checkAthanTime_with_muted now mw s :
  checkAthanTime now (with_muted mw s) = checkAthanTime now s.
Proof.
  unfold checkAthanTime, with_muted. simpl.
  destruct (String.eqb _ _); [done|]. apply checkLoop_with_muted.
Qed.

(** C9. The weekday mutes never enter an authorization decision: for two
    states that differ only in [muted_weekdays], [playAthan] has the same
    outcome and the same effect on the rest of the state (and leaves the
    mutes as they are), and [/api/check-athan-time] gives the same answer,
    for every prayer name and instant; in particular a change made through
    [POST /api/muted-weekdays/:weekday] alters neither. *)
Theorem weekday_mute_no_influence now prayerName mw mw' s :
  (playAthan now prayerName (with_muted mw s)).2
  = (playAthan now prayerName (with_muted mw' s)).2
  ∧ with_muted [] (playAthan now prayerName (with_muted mw s)).1
    = with_muted [] (playAthan now prayerName (with_muted mw' s)).1
  ∧ muted_weekdays (db (playAthan now prayerName (with_muted mw s)).1) = mw
  ∧ checkAthanTime now (with_muted mw s) = checkAthanTime now (with_muted mw' s)
  ∧ ∀ day m,
      (playAthan now prayerName (postMutedWeekday day m s).1).2
      = (playAthan now prayerName s).2
      ∧ checkAthanTime now (postMutedWeekday day m s).1 = checkAthanTime now s.
Proof.
  rewrite !playAthan_with_muted, !checkAthanTime_with_muted. simpl.
  repeat split; try done.
  - unfold postMutedWeekday. destruct (_ || _); [done|]. simpl.
    change (set_db _ s) with
      (with_muted (List.map (fun r => if weekday r =? day
                     then mkMuted (weekday r) (if m then 1 else 0) else r)
                     (muted_weekdays (db s))) s).
    by rewrite playAthan_with_muted.
  - unfold postMutedWeekday. destruct (_ || _); [done|]. simpl.
    change (set_db _ s) with
      (with_muted (List.map (fun r => if weekday r =? day
                     then mkMuted (weekday r) (if m then 1 else 0) else r)
                     (muted_weekdays (db s))) s).
    by rewrite checkAthanTime_with_muted.
Qed.

(** ** The two authorization paths *)

Lemma main_not_special name :
  In name mainPrayers → JS.includes ["Startup"; "PageLoad"; "Test"] name = false.
Proof. drop_env. simpl. intuition (subst; done). Qed.

(** The conclusion of [playAthan] for a main prayer: schedule cell, then
    one-shot flag. *)
Lemma playAthan_allowed now name s :
  In name mainPrayers →
  allowed (playAthan now name s).2 =
  negb (match Sql.schedule_entry (db s) name (Z.rem (getDay now + 6) 7) with
        | Some e => enabled e =? 0 | None => false end)
  && negb (flag_set s).
Proof.
  intros Hmain. unfold playAthan, flag_set.
  rewrite (main_not_special name Hmain). simpl.
  destruct (match Sql.schedule_entry _ _ _ with Some _ => _ | None => _ end);
    [done|]. simpl.
  assert (Hpb : ∀ o, (o = BrowserOnly ∨ (∃ f v t, o = Played f v t)
                      ∨ ∃ f, o = AudioFileNotFound f) → allowed o = true).
  { intros o [-> | [(f & v & t & ->) | (f & ->)]]; done. }
  destruct (skip_next (db s)) as [row|]; [destruct (skip row =? 1); [done|]|];
    simpl; apply Hpb;
    repeat match goal with
    | |- context [if ?b then _ else _] => destruct b
    end; simpl; eauto 10.
Qed.

(** The conclusion of the poll for the prayer in its window: one-shot flag,
    then last-consumed record, then schedule cell. *)
Lemma checkInWindow_shouldPlay s dayIndex currentDate r :
  shouldPlay (checkInWindow (db s) dayIndex currentDate r) =
  negb (flag_set s)
  && negb (match skip_next (db s) with
           | Some row =>
               bool_decide (last_skipped_prayer row = Some (prayer_name r))
               && bool_decide (last_skipped_date row = Some currentDate)
           | None => false
           end)
  && negb (match Sql.schedule_entry (db s) (prayer_name r) dayIndex with
           | Some e => enabled e =? 0 | None => false end).
Proof.
  unfold checkInWindow, flag_set.
  repeat match goal with
  | |- context [if ?b then _ else _] => destruct b
  end; done.
Qed.

Lemma last_consumed_decide s name day :
  last_consumed s name day ↔
  match skip_next (db s) with
  | Some row =>
      bool_decide (last_skipped_prayer row = Some name)
      && bool_decide (last_skipped_date row = Some day)
  | None => false
  end = true.
Proof.
  unfold last_consumed. destruct (skip_next (db s)) as [row|].
  - rewrite andb_true_iff, !bool_decide_eq_true. split.
    + by intros (row' & [= <-] & ? & ?).
    + intros [? ?]. by exists row.
  - split; [by intros (? & ? & _)|done].
Qed.

(** C1 (as the code has it). For the prayer the poll finds in its trigger
    window, with the audio output not server-only, the firing path
    [playAthan] and the poll [/api/check-athan-time] reach the same
    Allow/Deny conclusion at the same instant whenever the last-consumed
    record is not (that prayer, today); when it is, the poll denies, while
    [playAthan] never reads that record. *)
Theorem gate_paths_agree now s r :
  default "both" (Sql.setting (db s) "audio_output") ≠ "server" →
  windowPrayer now s = Some r →
  (¬ last_consumed s (prayer_name r) (today now) →
     allowed (playAthan now (prayer_name r) s).2 = shouldPlay (checkAthanTime now s))
  ∧ (last_consumed s (prayer_name r) (today now) →
     shouldPlay (checkAthanTime now s) = false).
Proof.
  intros Hout Hw.
  pose proof (windowPrayer_Some now s r Hw) as [(_ & _ & Hmain) _].
  rewrite checkAthanTime_window, Hw.
  destruct (String.eqb_spec (default "both" (Sql.setting (db s) "audio_output")) "server");
    [done|].
  rewrite checkInWindow_shouldPlay, playAthan_allowed by done.
  split; intros Hlast; rewrite last_consumed_decide in Hlast.
  - apply not_true_is_false in Hlast. rewrite Hlast. simpl.
    rewrite andb_true_r. apply andb_comm.
  - rewrite Hlast. simpl. by rewrite andb_false_r.
Qed.

(** ** One-shot mute: consumption within a firing window *)






Lemma windowPrayer_prayers now s s1 :
  prayers (db s1) = prayers (db s) → windowPrayer now s1 = windowPrayer now s.
Proof.
  intros H. unfold windowPrayer, Sql.main_prayers_on. by rewrite H.
Qed.


(** ** Invariants of the server

    The hypotheses of the theorems above hold in every reachable state. *)

Lemma delete_prayers_unique day ps :
  prayers_unique ps → prayers_unique (Sql.delete_prayers_from day ps).
Proof. apply NoDup_map_filter. Qed.

Lemma insert_or_replace_unique r ps :
  prayers_unique ps → prayers_unique (Sql.insert_or_replace_prayer r ps).
Proof.
  intros Hu. unfold prayers_unique, Sql.insert_or_replace_prayer.
  rewrite List.map_app. simpl. apply NoDup_app. split; [|split].
  - by apply NoDup_map_filter.
  - intros k Hk Hr. apply list_elem_of_In in Hk, Hr.
    simpl in Hr. destruct Hr as [<- | []].
    apply List.in_map_iff in Hk as (q & Hq & Hin).
    apply List.filter_In in Hin as [_ Hne].
    unfold prayer_key in Hq. injection Hq as Hd Hn.
    by rewrite Hd, Hn, !String.eqb_refl in Hne.
  - apply NoDup_singleton.
Qed.

Lemma store_event_unique todayStr threeMonthsStr acc ev :
  prayers_unique acc.1 →
  prayers_unique (store_event todayStr threeMonthsStr acc ev).1.
Proof.
  destruct acc as [ps n]. unfold store_event. simpl.
  destruct (String.eqb _ _); [|done].
  destruct (_ && _); [|done]. simpl. apply insert_or_replace_unique.
Qed.

Lemma fold_store_event_unique todayStr threeMonthsStr events : ∀ acc,
  prayers_unique acc.1 →
  prayers_unique (fold_left (store_event todayStr threeMonthsStr) events acc).1.
Proof.
  induction events as [|ev events IH]; intros acc Hu; simpl; [done|].
  apply IH. by apply store_event_unique.
Qed.

Lemma tracked_same s s' :
  timers s' = timers s → scheduledJobs s' = scheduledJobs s →
  tracked s → tracked s'.
Proof. unfold tracked. intros -> ->. done. Qed.

Lemma fresh_same s s' :
  scheduledJobs s' = scheduledJobs s → next_job_id s' = next_job_id s →
  fresh_ids s → fresh_ids s'.
Proof. unfold fresh_ids. intros -> ->. done. Qed.

Lemma store_ok_same d d' :
  prayers d' = prayers d → prayer_schedule d' = prayer_schedule d →
  (is_Some (skip_next d) → is_Some (skip_next d')) →
  store_ok d → store_ok d'.
Proof. unfold store_ok. intros -> -> Hsk (? & ? & ?). auto. Qed.

Lemma playAthan_frame now name s :
  timers (playAthan now name s).1 = timers s
  ∧ scheduledJobs (playAthan now name s).1 = scheduledJobs s
  ∧ next_job_id (playAthan now name s).1 = next_job_id s
  ∧ prayers (db (playAthan now name s).1) = prayers (db s)
  ∧ prayer_schedule (db (playAthan now name s).1) = prayer_schedule (db s)
  ∧ (is_Some (skip_next (db s)) → is_Some (skip_next (db (playAthan now name s).1))).
Proof.
  destruct s as [[ps st sk sched mw0 info] js ts n fq t l].
  unfold playAthan, Sql.schedule_entry, Sql.setting. simpl.
  repeat match goal with
  | |- context [if ?b then _ else _] => destruct b
  | |- context [match ?o with Some _ => _ | None => _ end] => destruct o
  end; simpl; eauto 10.
Qed.

Lemma muteNext_frame rejectStatus okMessage now s :
  (muteNext rejectStatus okMessage now s).1 = s
  ∨ (muteNext rejectStatus okMessage now s).1 = set_skip_flag s.
Proof.
  rewrite muteNext_nextUpcoming.
  destruct (nextUpcoming now s); [destruct (_ =? _)|]; simpl; auto.
Qed.

Lemma fetchPrayerTimes_ok now response s :
  tracked s → store_ok (db s) → fresh_ids s →
  tracked (fetchPrayerTimes now response s).1
  ∧ store_ok (db (fetchPrayerTimes now response s).1)
  ∧ fresh_ids (fetchPrayerTimes now response s).1.
Proof.
  intros Htr (Hu & Hwf & Hsk) Hfr. unfold fetchPrayerTimes.
  destruct (Sql.setting (db s) "ics_url") as [url|]; [|done].
  destruct response as [|events]; [done|].
  pose proof (fold_store_event_unique
    (formatDateLocal (local now)) (formatDateLocal (setMonth_plus3 (local now)))
    events (Sql.delete_prayers_from (formatDateLocal (local now)) (prayers (db s)), 0)
    (delete_prayers_unique _ _ Hu)) as Hfold.
  destruct (fold_left _ events _) as [ps n]. simpl in Hfold. simpl.
  split; [|split].
  - by apply tracked_scheduleAthanCalls.
  - destruct (scheduleAthanCalls_eq now
      (set_db (set_update_info
         match update_info (db s) with
         | Some _ => Some (mkUpdateInfo (Some (toISOString now)) n
                             (Some (extractCityFromIcsUrl url))
                             (Some (getNextUpdateTime now)))
         | None => None
         end (set_prayers ps (db s))) s)) as (-> & _).
    done.
  - apply fresh_scheduleAthanCalls.
Qed.

Lemma reachable_ok s :
  reachable s → tracked s ∧ store_ok (db s) ∧ fresh_ids s.
Proof.
  induction 1 as [d fq t Hd | now s _ (Ht & Hd & Hf) | j now s _ (Ht & Hd & Hf) Hj
                 | now name s _ (Ht & Hd & Hf) | now s _ (Ht & Hd & Hf)
                 | now response s _ (Ht & Hd & Hf) | s _ (Ht & Hd & Hf)
                 | name day en s _ (Ht & Hd & Hf) | day m s _ (Ht & Hd & Hf)
                 | now s _ (Ht & Hd & Hf) | now s _ (Ht & Hd & Hf)].
  - split; [apply tracked_start|]. split; [done|]. by intros j.
  - split; [by apply tracked_scheduleAthanCalls|]. split.
    + by destruct (scheduleAthanCalls_eq now s) as (-> & _).
    + apply fresh_scheduleAthanCalls.
  - destruct (playAthan_frame now (prayer_name (job_prayer j)) (fired j s))
      as (F1 & F2 & F3 & F4 & F5 & F6).
    split; [|split].
    + eapply tracked_same; [exact F1|exact F2|]. by apply tracked_fired.
    + eapply store_ok_same; [exact F4|exact F5|exact F6|exact Hd].
    + eapply fresh_same; [exact F2|exact F3|exact Hf].
  - destruct (playAthan_frame now name s) as (F1 & F2 & F3 & F4 & F5 & F6).
    split; [by eapply tracked_same|].
    split; [by eapply store_ok_same|by eapply fresh_same].
  - destruct (driftCheck_effect now s) as (_ & Hdrift & Hstill & _).
    destruct (Z_lt_le_dec (10000 / 2)
                (Z.abs (getTime now - lastSystemTime s - 10000))) as [Hlt|Hle].
    + destruct (Hdrift Hlt) as (F1 & F2 & F3 & F4 & _).
      split; [|split].
      * eapply tracked_same; [exact F1|exact F2|].
        by apply tracked_scheduleAthanCalls.
      * by rewrite F4.
      * eapply fresh_same; [exact F2|exact F3|]. apply fresh_scheduleAthanCalls.
    + destruct (Hstill Hle) as [-> _]. done.
  - by apply fetchPrayerTimes_ok.
  - destruct (scheduleFridayQuran_frame s) as (F1 & F2 & F3 & F4 & _).
    split; [by eapply tracked_same|].
    split; [by rewrite F1|by eapply fresh_same].
  - unfold postPrayerSchedule.
    repeat match goal with |- context [if ?b then _ else _] => destruct b end;
      try done;
      (split; [done|]; split; [|done]; destruct Hd as (Hu & Hwf & Hsk);
       split; [done|]; split; [by apply update_cell_wf|done]).
  - unfold postMutedWeekday. by destruct (_ || _).
  - destruct (muteNext_frame 400 "Next athan will be skipped" now s) as [E|E];
      unfold postSkipNext; rewrite E; [done|].
    unfold set_skip_flag. destruct Hd as (Hu & Hwf & [row Hrow]).
    rewrite Hrow. done.
  - destruct (muteNext_frame 200 "Next athan has been muted successfully" now s)
      as [E|E]; unfold getMuteNextAthan; rewrite E; [done|].
    unfold set_skip_flag. destruct Hd as (Hu & Hwf & [row Hrow]).
    rewrite Hrow. done.
Qed.

Lemma schedule_wf_b_sound cs : schedule_wf_b cs = true → schedule_wf cs.
Proof. drop_env.
  unfold schedule_wf_b. rewrite !andb_true_iff, bool_decide_eq_true.
  intros [[Hnd Hday] Hall]. split; [done|]. split.
  - intros c Hc. rewrite forallb_forall in Hday.
    specialize (Hday c Hc). lia.
  - intros p d Hp Hd. rewrite forallb_forall in Hall.
    specialize (Hall p Hp). rewrite forallb_forall in Hall.
    specialize (Hall d (upto_In 7 d ltac:(lia))).
    apply existsb_exists in Hall as (c & Hc & Hk).
    apply andb_prop in Hk as [H1 H2].
    apply String.eqb_eq in H1. apply Z.eqb_eq in H2. eauto.
Qed.

(** ** Numbers as text: [parseInt(String(n))] *)

Lemma pretty_N_char_digit x :
  (x < 10)%N → JS.digit_val 10 (pretty_N_char x) = Some (Z.of_N x).
Proof.
  drop_env. intros Hx.
  assert (x = 0 ∨ x = 1 ∨ x = 2 ∨ x = 3 ∨ x = 4 ∨ x = 5 ∨ x = 6 ∨ x = 7
          ∨ x = 8 ∨ x = 9)%N as H by lia.
  repeat (destruct H as [-> | H]; [reflexivity |]). subst; reflexivity.
Qed.

Lemma digits_pretty_N_go x : ∀ s, (0 < x)%N →
  JS.digits 10 (pretty_N_go x s) None = JS.digits 10 s (Some (Z.of_N x)).
Proof.
  induction (N.lt_wf_0 x) as [x _ IH]; intros s Hx.
  rewrite pretty_N_go_step by done.
  assert (Hm : (x `mod` 10 < 10)%N) by (apply N.mod_lt; lia).
  destruct (decide (x `div` 10 = 0)%N) as [H0 | H0].
  - rewrite H0, pretty_N_go_0. cbn [JS.digits].
    rewrite pretty_N_char_digit by done.
    do 2 f_equal. pose proof (N.div_mod x 10 ltac:(lia)) as H.
    revert H H0 Hm. generalize (x `div` 10)%N (x `mod` 10)%N. lia.
  - rewrite IH; [| apply N.div_lt; lia | by apply N.neq_0_lt_0].
    cbn [JS.digits]. rewrite pretty_N_char_digit by done.
    do 2 f_equal. pose proof (N.div_mod x 10 ltac:(lia)) as H.
    revert H H0 Hm. generalize (x `div` 10)%N (x `mod` 10)%N. lia.
Qed.

(** The text of a positive number starts with a digit from 1 to 9. *)
Lemma pretty_N_go_head x : ∀ s, (0 < x)%N →
  ∃ d rest, pretty_N_go x s = String (pretty_N_char d) rest ∧ (0 < d < 10)%N.
Proof.
  induction (N.lt_wf_0 x) as [x _ IH]; intros s Hx.
  rewrite pretty_N_go_step by done.
  destruct (decide (x `div` 10 = 0)%N) as [H0 | H0].
  - rewrite H0, pretty_N_go_0. eexists _, _; split; [reflexivity |].
    pose proof (N.div_mod x 10 ltac:(lia)) as H.
    pose proof (N.mod_lt x 10 ltac:(lia)) as Hm.
    revert H H0 Hm. generalize (x `div` 10)%N (x `mod` 10)%N. lia.
  - apply IH; [apply N.div_lt; lia | by apply N.neq_0_lt_0].
Qed.

Lemma parseInt_head d rest :
  (0 < d < 10)%N →
  JS.parseInt (String (pretty_N_char d) rest)
  = JS.digits 10 (String (pretty_N_char d) rest) None.
Proof.
  drop_env. intros Hd.
  assert (d = 1 ∨ d = 2 ∨ d = 3 ∨ d = 4 ∨ d = 5 ∨ d = 6 ∨ d = 7
          ∨ d = 8 ∨ d = 9)%N as H by lia.
  repeat (destruct H as [-> | H]; [reflexivity |]). subst; reflexivity.
Qed.

Lemma parseInt_pretty_pos p : JS.parseInt (pretty (Zpos p)) = Some (Zpos p).
Proof.
  unfold pretty, pretty_Z, pretty, pretty_positive, pretty, pretty_N.
  rewrite decide_False by done.
  destruct (pretty_N_go_head (Npos p) "") as (d & rest & E & Hd); [lia |].
  rewrite E, parseInt_head, <- E by done.
  rewrite digits_pretty_N_go by lia. reflexivity.
Qed.

(** [parseInt(String(z))] is [z]: what a handler reads back from a number
    written into a text. *)
Lemma parseInt_pretty z : JS.parseInt (pretty z) = Some z.
Proof.
  destruct z as [| p | p]; [reflexivity | apply parseInt_pretty_pos |].
  pose proof (parseInt_pretty_pos p) as H.
  unfold pretty at 1, pretty_Z.
  unfold pretty, pretty_Z, pretty, pretty_positive, pretty, pretty_N in H |- *.
  rewrite decide_False in H |- * by done.
  destruct (pretty_N_go_head (Npos p) "") as (d & rest & E & Hd); [lia |].
  rewrite E in H |- *. rewrite parseInt_head in H by done.
  unfold JS.parseInt. cbn [JS.skip_ws JS.is_ws].
  change (JS.is_ws "-") with false. cbv iota.
  assert (Hs : JS.strip_hex (String (pretty_N_char d) rest) = None).
  { assert (d = 1 ∨ d = 2 ∨ d = 3 ∨ d = 4 ∨ d = 5 ∨ d = 6 ∨ d = 7
            ∨ d = 8 ∨ d = 9)%N as Hc by lia.
    repeat (destruct Hc as [-> | Hc]; [reflexivity |]). subst; reflexivity. }
  change ("-" +:+ String (pretty_N_char d) rest)
    with (String "-" (String (pretty_N_char d) rest)).
  cbn [JS.skip_ws]. change (JS.is_ws "-") with false. cbv iota.
  rewrite Hs, H. reflexivity.
Qed.

(** ** Schedule matrix: rows, columns and what the gates make of them *)

Lemma set_enabled_where_keys sel v cs :
  List.map cell_key (set_enabled_where sel v cs) = List.map cell_key cs.
Proof.
  unfold set_enabled_where. rewrite List.map_map. apply List.map_ext.
  intros c. by destruct (sel c).
Qed.

Lemma set_enabled_where_wf sel v cs :
  schedule_wf cs → schedule_wf (set_enabled_where sel v cs).
Proof.
  intros (Hnd & Hday & Hall). split; [|split].
  - change (NoDup (List.map cell_key (set_enabled_where sel v cs))).
    by rewrite set_enabled_where_keys.
  - intros c Hc. unfold set_enabled_where in Hc.
    apply List.in_map_iff in Hc as (c0 & <- & Hc0).
    specialize (Hday c0 Hc0). by destruct (sel c0).
  - intros q d Hq Hd. destruct (Hall q d Hq Hd) as (c & Hc & Hcp & Hcd).
    eexists. split; [unfold set_enabled_where; apply List.in_map, Hc|].
    by destruct (sel c).
Qed.

Lemma set_enabled_where_entry sel v d q day :
  Sql.schedule_entry (set_prayer_schedule (set_enabled_where sel v (prayer_schedule d)) d) q day
  = (fun c => if sel c then mkCell (cell_prayer c) (day_of_week c) v else c)
    <$> Sql.schedule_entry d q day.
Proof.
  unfold Sql.schedule_entry, set_enabled_where. simpl.
  apply find_map_same. intros c. by destruct (sel c).
Qed.

(** A statement that selects no row leaves the table as it is. *)
Lemma set_enabled_where_none sel v cs :
  (∀ c, In c cs → sel c = false) → set_enabled_where sel v cs = cs.
Proof.
  intros H. unfold set_enabled_where. rewrite <- (List.map_id cs) at 2.
  apply List.map_ext_in. intros c Hc. by rewrite H.
Qed.

Lemma with_cells_same s : with_cells (prayer_schedule (db s)) s = s.
Proof. by destruct s as [[] ?]. Qed.

(** Only the looked-up cell matters to a firing. *)
Lemma playAthan_with_cells now name cs s :
  cell_off (db (with_cells cs s)) name (dayIndexOf now)
  = cell_off (db s) name (dayIndexOf now) →
  playAthan now name (with_cells cs s)
  = (with_cells cs (playAthan now name s).1, (playAthan now name s).2).
Proof.
  intros H. unfold cell_off, dayIndexOf in H.
  destruct s as [[ps st sk sched mw info] js ts n fq t l].
  unfold playAthan, with_cells, Sql.setting in *. simpl in *. rewrite H.
  repeat match goal with
  | |- context [if ?b then _ else _] => destruct b
  | |- context [match ?o with Some _ => _ | None => _ end] => destruct o
  end; reflexivity.
Qed.

Lemma windowPrayer_with_cells now cs s :
  windowPrayer now (with_cells cs s) = windowPrayer now s.
Proof. reflexivity. Qed.

Lemma nextUpcoming_with_cells now cs s :
  nextUpcoming now (with_cells cs s) = nextUpcoming now s.
Proof. reflexivity. Qed.

(** The poll, in terms of the prayer in its window and of the cell test. *)
Lemma checkAthanTime_shouldPlay now s :
  shouldPlay (checkAthanTime now s) =
  negb (String.eqb (default "both" (Sql.setting (db s) "audio_output")) "server")
  && match windowPrayer now s with
     | Some r =>
         negb (flag_set s)
         && negb (match skip_next (db s) with
                  | Some row =>
                      bool_decide (last_skipped_prayer row = Some (prayer_name r))
                      && bool_decide (last_skipped_date row = Some (today now))
                  | None => false
                  end)
         && negb (cell_off (db s) (prayer_name r) (dayIndexOf now))
     | None => false
     end.
Proof.
  rewrite checkAthanTime_window.
  destruct (String.eqb _ "server"); [done|].
  destruct (windowPrayer now s) as [r|]; [|done].
  apply checkInWindow_shouldPlay.
Qed.

Lemma checkAthanTime_with_cells now cs s :
  (∀ r, windowPrayer now s = Some r →
     cell_off (db (with_cells cs s)) (prayer_name r) (dayIndexOf now)
     = cell_off (db s) (prayer_name r) (dayIndexOf now)) →
  checkAthanTime now (with_cells cs s) = checkAthanTime now s.
Proof.
  intros H. rewrite !checkAthanTime_window, windowPrayer_with_cells.
  change (Sql.setting (db (with_cells cs s))) with (Sql.setting (db s)).
  destruct (String.eqb _ "server"); [done|].
  destruct (windowPrayer now s) as [r|]; [|done].
  specialize (H r eq_refl). unfold cell_off, dayIndexOf in H.
  unfold checkInWindow.
  change (skip_next (db (with_cells cs s))) with (skip_next (db s)).
  change (Sql.setting (db (with_cells cs s))) with (Sql.setting (db s)).
  destruct (match skip_next (db s) with Some row => skip row =? 1 | None => false end);
    [done|].
  destruct (match skip_next (db s) with
            | Some row => bool_decide _ && bool_decide _ | None => false end); [done|].
  by rewrite H.
Qed.

(** The day the handlers compute from [getDay()] names the weekday before
    it, Monday first. *)
Lemma dayIndexOf_spec now day :
  0 <= getDay now <= 6 → 0 <= day <= 6 →
  (dayIndexOf now = day ↔ getDay now = (day + 1) mod 7).
Proof.
  drop_env. intros Hg Hd. unfold dayIndexOf.
  assert (getDay now = 0 ∨ getDay now = 1 ∨ getDay now = 2 ∨ getDay now = 3
          ∨ getDay now = 4 ∨ getDay now = 5 ∨ getDay now = 6) as Hc by lia.
  assert (day = 0 ∨ day = 1 ∨ day = 2 ∨ day = 3 ∨ day = 4 ∨ day = 5 ∨ day = 6)
    as Hc' by lia.
  destruct Hc as [-> | [-> | [-> | [-> | [-> | [-> | ->]]]]]];
    destruct Hc' as [-> | [-> | [-> | [-> | [-> | [-> | ->]]]]]];
    split; intros H; vm_compute in H |- *; congruence.
Qed.

Lemma cell_off_set_enabled_where sel v d q day :
  cell_off (set_prayer_schedule (set_enabled_where sel v (prayer_schedule d)) d) q day
  = match Sql.schedule_entry d q day with
    | Some c => if sel c then v =? 0 else enabled c =? 0
    | None => false
    end.
Proof.
  unfold cell_off. rewrite set_enabled_where_entry.
  destruct (Sql.schedule_entry d q day) as [c|]; [|done]. simpl.
  by destruct (sel c).
Qed.

Lemma filter_map_length {A} (f : A → bool) (g : A → A) (l : list A) :
  (∀ x, In x l → f (g x) = f x) →
  length (List.filter f (List.map g l)) = length (List.filter f l).
Proof.
  drop_env. induction l as [|x l IH]; intros H; simpl; [done|].
  rewrite (H x) by (by left).
  destruct (f x); simpl; rewrite IH; auto; intros y Hy; apply H; by right.
Qed.

(** Rows of other prayers do not count. *)
Lemma disabled_count_set_enabled_where sel v d q :
  (∀ c, In c (prayer_schedule d) → cell_prayer c = q → sel c = false) →
  Sql.disabled_count
    (set_prayer_schedule (set_enabled_where sel v (prayer_schedule d)) d) q
  = Sql.disabled_count d q.
Proof.
  intros H. unfold Sql.disabled_count, set_enabled_where. simpl. f_equal.
  apply filter_map_length. intros c Hc.
  destruct (sel c) eqn:Hs; [|done]. simpl.
  destruct (String.eqb_spec (cell_prayer c) q) as [Hq|]; [|done].
  by rewrite (H c Hc Hq) in Hs.
Qed.

Lemma postPrayerSettings_eq p en s :
  postPrayerSettings p en s
  = with_cells (set_enabled_where (fun c => String.eqb (cell_prayer c) p)
                  (if en then 1 else 0) (prayer_schedule (db s))) s.
Proof. reflexivity. Qed.

(** The cell the gates look up, after a statement on the [enabled]
    column, for a store with its 35 cells. *)
Lemma wf_entry cs p day :
  schedule_wf cs → In p prayerNames → 0 <= day <= 6 →
  ∀ d, prayer_schedule d = cs →
  ∃ c, Sql.schedule_entry d p day = Some c ∧ cell_prayer c = p ∧ day_of_week c = day.
Proof.
  intros (Hnd & Hday & Hall) Hp Hd d <-.
  destruct (Hall p day Hp Hd) as (c & Hc & Hcp & Hcd).
  exists c. subst. split; [by apply schedule_entry_of_cell | done].
Qed.

(** X1. [POST /api/prayer-settings/:prayerName] then the simple view: for
    a main prayer the view reports what was posted, each of the prayer's
    seven cells holds it, and the cells and the views of the other prayers
    are as before. *)
Theorem prayer_settings_write_read p en s :
  In p prayerNames → schedule_wf (prayer_schedule (db s)) →
  prayerSettingEnabled p (postPrayerSettings p en s) = (if en then 1 else 0)
  ∧ (∀ day, 0 <= day <= 6 →
       ∃ c, Sql.schedule_entry (db (postPrayerSettings p en s)) p day = Some c
            ∧ enabled c = if en then 1 else 0)
  ∧ (∀ q day, q ≠ p →
       Sql.schedule_entry (db (postPrayerSettings p en s)) q day
       = Sql.schedule_entry (db s) q day)
  ∧ (∀ q, q ≠ p →
       prayerSettingEnabled q (postPrayerSettings p en s) = prayerSettingEnabled q s)
  ∧ schedule_wf (prayer_schedule (db (postPrayerSettings p en s))).
Proof.
  intros Hp Hwf. rewrite postPrayerSettings_eq.
  set (sel := fun c => String.eqb (cell_prayer c) p).
  set (v := if en then 1 else 0).
  assert (Hwf' : schedule_wf (prayer_schedule (db (with_cells
            (set_enabled_where sel v (prayer_schedule (db s))) s))))
    by apply set_enabled_where_wf, Hwf.
  assert (Hcells : ∀ day, 0 <= day <= 6 →
       ∃ c, Sql.schedule_entry (db (with_cells
              (set_enabled_where sel v (prayer_schedule (db s))) s)) p day = Some c
            ∧ enabled c = v).
  { intros day Hd.
    destruct (wf_entry _ p day Hwf Hp Hd (db s) eq_refl) as (c & He & Hcp & _).
    change (db (with_cells ?cs s)) with (set_prayer_schedule cs (db s)).
    rewrite set_enabled_where_entry, He. simpl.
    unfold sel. rewrite Hcp, String.eqb_refl. eauto. }
  split; [|split; [exact Hcells|split; [|split; [|exact Hwf']]]].
  - destruct en; subst v.
    + apply prayerSettingEnabled_iff; [done..|].
      intros day Hd. destruct (Hcells day Hd) as (c & He & Hv).
      exists c. split; [done|lia].
    + destruct (prayerSettingEnabled_01 p (with_cells
            (set_enabled_where sel 0 (prayer_schedule (db s))) s)) as [H1|H0];
        [|done].
      pose proof (proj1 (prayerSettingEnabled_iff _ _ Hp Hwf') H1) as H1'.
      destruct (H1' 0 ltac:(lia)) as (c & He & Hne).
      destruct (Hcells 0 ltac:(lia)) as (c' & He' & Hv). congruence.
  - intros q day Hq.
    change (db (with_cells ?cs s)) with (set_prayer_schedule cs (db s)).
    rewrite set_enabled_where_entry.
    destruct (Sql.schedule_entry (db s) q day) as [c|] eqn:He; [|done]. simpl.
    apply schedule_entry_Some in He as (_ & Hcp & _).
    unfold sel. rewrite Hcp. by destruct (String.eqb_spec q p).
  - intros q Hq. unfold prayerSettingEnabled.
    change (db (with_cells ?cs s)) with (set_prayer_schedule cs (db s)).
    rewrite disabled_count_set_enabled_where; [done|].
    intros c _ Hcp. unfold sel. rewrite Hcp. by destruct (String.eqb_spec q p).
Qed.

(** X2. [POST /api/prayer-settings/:prayerName] does not validate the
    name: for a name that has no row in the matrix the request changes
    nothing, whatever [enabled] says, and the simple view of that name
    reports 1. *)
Theorem prayer_settings_unknown_name name en s :
  (∀ c, In c (prayer_schedule (db s)) → cell_prayer c ≠ name) →
  postPrayerSettings name en s = s
  ∧ prayerSettingEnabled name (postPrayerSettings name en s) = 1.
Proof.
  intros H.
  assert (E : postPrayerSettings name en s = s).
  { rewrite postPrayerSettings_eq, set_enabled_where_none; [apply with_cells_same|].
    intros c Hc. apply String.eqb_neq. auto. }
  rewrite E. split; [done|].
  unfold prayerSettingEnabled.
  replace (Sql.disabled_count (db s) name) with 0; [done|].
  symmetry. apply disabled_count_0. intros c Hc Hcp. by destruct (H c Hc).
Qed.

Lemma postPrayerScheduleBulk_day day en s :
  0 <= day <= 6 →
  postPrayerScheduleBulk (Some "day") (Some (JNumber day)) (Some en) s
  = (with_cells (set_enabled_where (fun c => day_of_week c =? day)
                   (if en then 1 else 0) (prayer_schedule (db s))) s, 200).
Proof.
  intros Hd. unfold postPrayerScheduleBulk. cbn [json_text].
  rewrite parseInt_pretty.
  change (String.eqb "day" "") with false. change (String.eqb "day" "prayer") with false.
  change (String.eqb "day" "day") with true. cbv iota. unfold JS.ltb, JS.gtb.
  destruct (Z.ltb_spec day 0); [lia|]. destruct (Z.ltb_spec 6 day); [lia|].
  reflexivity.
Qed.

(** X3. [POST /api/prayer-schedule/bulk] with [type: 'day'], as the
    client sends it (a day number from 0 to 6): it succeeds, the cell of
    every main prayer on that weekday holds what was posted, the cells of the
    other weekdays are as before; when the day was disabled, every main
    prayer fired on that weekday is refused for the schedule, leaving the
    store (and a set one-shot flag) as it is, and every simple view
    reports 0. *)
Theorem bulk_day_column day en s :
  0 <= day <= 6 → schedule_wf (prayer_schedule (db s)) →
  let r := postPrayerScheduleBulk (Some "day") (Some (JNumber day)) (Some en) s in
  r.2 = 200
  ∧ (∀ p, In p prayerNames →
       ∃ c, Sql.schedule_entry (db r.1) p day = Some c
            ∧ enabled c = if en then 1 else 0)
  ∧ (∀ p day', day' ≠ day →
       Sql.schedule_entry (db r.1) p day' = Sql.schedule_entry (db s) p day')
  ∧ schedule_wf (prayer_schedule (db r.1))
  ∧ (en = false →
     (∀ now p, In p prayerNames → dayIndexOf now = day →
        playAthan now p r.1 = (r.1, DeniedSchedule))
     ∧ ∀ p, In p prayerNames → prayerSettingEnabled p r.1 = 0).
Proof.
  intros Hd Hwf. rewrite postPrayerScheduleBulk_day by done. cbv zeta. simpl fst. simpl snd.
  set (sel := fun c => day_of_week c =? day).
  set (v := if en then 1 else 0).
  set (s' := with_cells (set_enabled_where sel v (prayer_schedule (db s))) s).
  assert (Hwf' : schedule_wf (prayer_schedule (db s')))
    by apply set_enabled_where_wf, Hwf.
  assert (Hcells : ∀ p, In p prayerNames →
       ∃ c, Sql.schedule_entry (db s') p day = Some c ∧ enabled c = v).
  { intros p Hp.
    destruct (wf_entry _ p day Hwf Hp Hd (db s) eq_refl) as (c & He & _ & Hcd).
    unfold s'. change (db (with_cells ?cs s)) with (set_prayer_schedule cs (db s)).
    rewrite set_enabled_where_entry, He. simpl.
    unfold sel. rewrite Hcd, Z.eqb_refl. eauto. }
  split; [done|]. split; [exact Hcells|]. split; [|split; [exact Hwf'|]].
  - intros p day' Hne. unfold s'.
    change (db (with_cells ?cs s)) with (set_prayer_schedule cs (db s)).
    rewrite set_enabled_where_entry.
    destruct (Sql.schedule_entry (db s) p day') as [c|] eqn:He; [|done]. simpl.
    apply schedule_entry_Some in He as (_ & _ & Hcd).
    unfold sel. rewrite Hcd. by destruct (Z.eqb_spec day' day).
  - intros ->. subst v. split.
    + intros now p Hp Hday. destruct (Hcells p Hp) as (c & He & Hv).
      unfold playAthan. rewrite (main_not_special p Hp). cbn [negb].
      unfold dayIndexOf in Hday. cbv zeta. rewrite Hday, He, Hv. reflexivity.
    + intros p Hp.
      destruct (prayerSettingEnabled_01 p s') as [H1|H0]; [|done].
      pose proof (proj1 (prayerSettingEnabled_iff _ _ Hp Hwf') H1) as H1'.
      destruct (H1' day Hd) as (c & He & Hne).
      destruct (Hcells p Hp) as (c' & He' & Hv). congruence.
Qed.

Lemma postPrayerSchedule_eq p day en s :
  In p prayerNames → 0 <= day <= 6 →
  postPrayerSchedule p day en s
  = (with_cells (set_enabled_where
       (fun c => String.eqb (cell_prayer c) p && (day_of_week c =? day))
       (if en then 1 else 0) (prayer_schedule (db s))) s, 200).
Proof. apply postPrayerSchedule_ok. Qed.

(** X4. One cell of the matrix and the two gates.  After
    [POST /api/prayer-schedule] has disabled the cell of main prayer [p] on
    weekday [day] (0 = Monday): on that weekday a firing of [p] is refused
    for the schedule and leaves the server as it is, and the poll does not
    tell the browser to play [p]; on any other weekday, and for any other
    prayer, firing and poll answer as they did before the request. *)
Theorem disabled_cell_denies p day now s :
  In p prayerNames → 0 <= day <= 6 → schedule_wf (prayer_schedule (db s)) →
  0 <= getDay now <= 6 →
  let s' := (postPrayerSchedule p day false s).1 in
  (getDay now = (day + 1) mod 7 →
     playAthan now p s' = (s', DeniedSchedule)
     ∧ ∀ r, windowPrayer now s' = Some r → prayer_name r = p →
            shouldPlay (checkAthanTime now s') = false)
  ∧ (getDay now ≠ (day + 1) mod 7 →
     (playAthan now p s').2 = (playAthan now p s).2
     ∧ checkAthanTime now s' = checkAthanTime now s)
  ∧ (∀ q, q ≠ p → (playAthan now q s').2 = (playAthan now q s).2).
Proof.
  intros Hp Hd Hwf Hg. rewrite postPrayerSchedule_eq by done. cbv zeta. simpl fst.
  set (sel := fun c => String.eqb (cell_prayer c) p && (day_of_week c =? day)).
  set (s' := with_cells (set_enabled_where sel 0 (prayer_schedule (db s))) s).
  assert (Hoff : ∀ q day', cell_off (db s') q day'
            = if String.eqb q p && (day' =? day)
              then bool_decide (is_Some (Sql.schedule_entry (db s) q day'))
              else cell_off (db s) q day').
  { intros q day'. unfold s'.
    change (db (with_cells ?cs s)) with (set_prayer_schedule cs (db s)).
    rewrite cell_off_set_enabled_where. unfold cell_off.
    destruct (Sql.schedule_entry (db s) q day') as [c|] eqn:He.
    - apply schedule_entry_Some in He as (_ & Hcp & Hcd).
      unfold sel. rewrite Hcp, Hcd.
      destruct (String.eqb q p && (day' =? day)); [|done].
      by rewrite bool_decide_eq_true_2.
    - destruct (String.eqb q p && (day' =? day)); [|done].
      rewrite bool_decide_eq_false_2; [done|]. by intros [? ?]. }
  pose proof (dayIndexOf_spec now day Hg Hd) as Hday.
  split; [|split].
  - intros Hnow. apply Hday in Hnow.
    assert (Hc : cell_off (db s') p (dayIndexOf now) = true).
    { rewrite Hoff, Hnow, String.eqb_refl, Z.eqb_refl. simpl.
      apply bool_decide_eq_true_2.
      destruct (wf_entry _ p day Hwf Hp Hd (db s) eq_refl) as (c & He & _).
      by rewrite He. }
    split.
    + unfold playAthan. rewrite (main_not_special p Hp). cbn [negb]. cbv zeta.
      unfold cell_off, dayIndexOf in Hc. by rewrite Hc.
    + intros r Hr <-. rewrite checkAthanTime_shouldPlay, Hr, Hc.
      by rewrite !andb_false_r.
  - intros Hnow.
    assert (Hne : dayIndexOf now ≠ day) by (intros H; by apply Hday in H).
    assert (Hc : ∀ q, cell_off (db s') q (dayIndexOf now)
                      = cell_off (db s) q (dayIndexOf now)).
    { intros q. rewrite Hoff. destruct (Z.eqb_spec (dayIndexOf now) day); [done|].
      by rewrite andb_false_r. }
    split.
    + unfold s'. by rewrite playAthan_with_cells by apply Hc.
    + unfold s'. apply checkAthanTime_with_cells. intros r _. apply Hc.
  - intros q Hq. unfold s'. rewrite playAthan_with_cells; [done|].
    fold s'. rewrite Hoff. by destruct (String.eqb_spec q p).
Qed.

Lemma disabled_count_with_cells_off p s :
  In p prayerNames → schedule_wf (prayer_schedule (db s)) →
  Sql.disabled_count (db (postPrayerSettings p false s)) p = 7.
Proof.
  intros Hp Hwf. rewrite postPrayerSettings_eq.
  apply disabled_count_7; [by apply set_enabled_where_wf | done |].
  intros c Hc Hcp. simpl in Hc. unfold set_enabled_where in Hc.
  apply List.in_map_iff in Hc as (c0 & <- & Hc0).
  destruct (String.eqb_spec (cell_prayer c0) p) as [|Hne]; [done|].
  by destruct Hne.
Qed.

Lemma prayer_settings_on_count p s :
  In p prayerNames → schedule_wf (prayer_schedule (db s)) →
  Sql.disabled_count (db (postPrayerSettings p true s)) p = 0
  ∧ Sql.disabled_count (db (postPrayerSettings p true s)) p ≠ 7.
Proof.
  intros Hp Hwf.
  assert (H0 : Sql.disabled_count (db (postPrayerSettings p true s)) p = 0).
  { rewrite postPrayerSettings_eq. apply disabled_count_0.
    intros c Hc Hcp. simpl in Hc. unfold set_enabled_where in Hc.
    apply List.in_map_iff in Hc as (c0 & <- & Hc0).
    destruct (String.eqb_spec (cell_prayer c0) p) as [|Hne]; [done|].
    by destruct Hne. }
  split; [done|]. rewrite H0. done.
Qed.

(** X5. The general mute of a prayer and the one-shot mute.  When the
    next upcoming prayer has been disabled by
    [POST /api/prayer-settings/:prayerName], both skip-next endpoints refuse
    (400, resp. 200 with [success: false]) with the "already muted" message
    and change nothing; when it has been enabled, they succeed and
    [GET /api/skip-next] then reports true. *)
Theorem general_mute_blocks_skip_next now s row r :
  schedule_wf (prayer_schedule (db s)) →
  skip_next (db s) = Some row →
  nextUpcoming now s = Some r →
  (prayerSettingEnabled (prayer_name r) (postPrayerSettings (prayer_name r) false s) = 0
   ∧ postSkipNext now (postPrayerSettings (prayer_name r) false s)
     = (postPrayerSettings (prayer_name r) false s,
        mkMuteAnswer 400 false
          (prayer_name r +:+ " is already muted in general settings"))
   ∧ getMuteNextAthan now (postPrayerSettings (prayer_name r) false s)
     = (postPrayerSettings (prayer_name r) false s,
        mkMuteAnswer 200 false
          (prayer_name r +:+ " is already muted in general settings")))
  ∧ (prayerSettingEnabled (prayer_name r) (postPrayerSettings (prayer_name r) true s) = 1
     ∧ success (postSkipNext now (postPrayerSettings (prayer_name r) true s)).2 = true
     ∧ getSkipNext (postSkipNext now (postPrayerSettings (prayer_name r) true s)).1
       = true
     ∧ success (getMuteNextAthan now (postPrayerSettings (prayer_name r) true s)).2
       = true).
Proof.
  intros Hwf Hrow Hnext.
  pose proof (nextUpcoming_main now s r Hnext) as Hp.
  split.
  - pose proof (disabled_count_with_cells_off _ s Hp Hwf) as H7.
    split; [|split].
    + unfold prayerSettingEnabled. by rewrite H7.
    + unfold postSkipNext. rewrite muteNext_nextUpcoming.
      rewrite postPrayerSettings_eq at 1. rewrite nextUpcoming_with_cells, Hnext.
      by rewrite H7.
    + unfold getMuteNextAthan. rewrite muteNext_nextUpcoming.
      rewrite postPrayerSettings_eq at 1. rewrite nextUpcoming_with_cells, Hnext.
      by rewrite H7.
  - destruct (prayer_settings_on_count (prayer_name r) s Hp Hwf) as [H0 Hn7].
    split; [unfold prayerSettingEnabled; by rewrite H0|].
    assert (E : ∀ st msg, muteNext st msg now (postPrayerSettings (prayer_name r) true s)
              = (set_skip_flag (postPrayerSettings (prayer_name r) true s),
                 mkMuteAnswer 200 true msg)).
    { intros st msg. rewrite muteNext_nextUpcoming.
      rewrite postPrayerSettings_eq at 1. rewrite nextUpcoming_with_cells, Hnext.
      rewrite H0. reflexivity. }
    unfold postSkipNext, getMuteNextAthan. rewrite !E. simpl.
    split; [done|]. split; [|done].
    unfold getSkipNext, set_skip_flag.
    change (skip_next (db (postPrayerSettings (prayer_name r) true s)))
      with (skip_next (db s)).
    by rewrite Hrow.
Qed.

(** ** One-shot mute: status, consumption, reset *)

(** What a firing does, by cases on the gate. *)
Lemma playAthan_cases now name s :
  if gated now name s && getSkipNext s
  then playAthan now name s = (consumed_by now name s, DeniedSkipNext)
  else (playAthan now name s).1 = s
       ∧ (playAthan now name s).2 ≠ DeniedSkipNext
       ∧ ((playAthan now name s).2 = DeniedSchedule
          ↔ isSpecialEvent name = false
            ∧ cell_off (db s) name (dayIndexOf now) = true).
Proof.
  unfold gated, getSkipNext, isSpecialEvent, cell_off, dayIndexOf, consumed_by, playAthan.
  destruct (JS.includes _ name); simpl.
  - repeat match goal with
    | |- context [if ?b then _ else _] => destruct b
    end; simpl; (split; [done|]); (split; [done|]); split; (done || by intros []).
  - destruct (match Sql.schedule_entry _ _ _ with Some _ => _ | None => _ end); simpl.
    + done.
    + destruct (skip_next (db s)) as [row|]; [destruct (skip row =? 1); [done|]|];
        repeat match goal with
        | |- context [if ?b then _ else _] => destruct b
        end; simpl; (split; [done|]); (split; [done|]); split; (done || by intros []).
Qed.

Lemma getSkipNext_consumed now name s :
  getSkipNext (consumed_by now name s) = false.
Proof. reflexivity. Qed.

Lemma gated_same now name s s' :
  prayer_schedule (db s') = prayer_schedule (db s) →
  gated now name s' = gated now name s.
Proof.
  intros H. unfold gated, cell_off, Sql.schedule_entry. by rewrite H.
Qed.

(** With the flag clear, firings change nothing and none is skipped. *)
Lemma fire_all_clear fs : ∀ s,
  getSkipNext s = false →
  (fire_all fs s).1 = s ∧ List.filter is_skip (fire_all fs s).2 = [].
Proof.
  induction fs as [|[now name] fs IH]; intros s Hs; [done|].
  pose proof (playAthan_cases now name s) as Hc.
  rewrite Hs, andb_false_r in Hc. destruct Hc as (H1 & H2 & _).
  simpl. destruct (playAthan now name s) as [s1 o] eqn:E. simpl in *. subst s1.
  destruct (IH s Hs) as [IH1 IH2].
  destruct (fire_all fs s) as [s2 os]. simpl in *.
  split; [done|]. destruct o; simpl; done.
Qed.

(** Nor do firings that do not reach the flag. *)
Lemma fire_all_ungated fs : ∀ s,
  (∀ f, In f fs → gated f.1 f.2 s = false) →
  (fire_all fs s).1 = s ∧ List.filter is_skip (fire_all fs s).2 = [].
Proof.
  induction fs as [|[now name] fs IH]; intros s Hg; [done|].
  pose proof (playAthan_cases now name s) as Hc.
  pose proof (Hg (now, name) ltac:(by left)) as Hg0. simpl in Hg0.
  rewrite Hg0 in Hc. simpl in Hc. destruct Hc as (H1 & H2 & _).
  simpl. destruct (playAthan now name s) as [s1 o] eqn:E. simpl in *. subst s1.
  destruct (IH s) as [IH1 IH2]; [intros f Hf; apply Hg; by right|].
  destruct (fire_all fs s) as [s2 os]. simpl in *.
  split; [done|]. destruct o; simpl; done.
Qed.

Lemma fire_all_app fs1 fs2 s :
  fire_all (fs1 ++ fs2)%list s
  = ((fire_all fs2 (fire_all fs1 s).1).1,
     ((fire_all fs1 s).2 ++ (fire_all fs2 (fire_all fs1 s).1).2)%list).
Proof.
  revert s. induction fs1 as [|[now name] fs1 IH]; intros s; simpl.
  - by destruct (fire_all fs2 s).
  - destruct (playAthan now name s) as [s1 o]. rewrite IH.
    destruct (fire_all fs1 s1) as [s2 os]. simpl.
    by destruct (fire_all fs2 s2).
Qed.

Lemma fire_all_length fs : ∀ s, length (fire_all fs s).2 = length fs.
Proof.
  induction fs as [|[now name] fs IH]; intros s; simpl; [done|].
  destruct (playAthan now name s) as [s1 o]. specialize (IH s1).
  destruct (fire_all fs s1) as [s2 os]. simpl in *. by rewrite IH.
Qed.

Lemma fire_all_skips fs : ∀ s,
  (length (List.filter is_skip (fire_all fs s).2) <= 1)%nat.
Proof.
  induction fs as [|[now name] fs IH]; intros s; simpl; [lia|].
  pose proof (playAthan_cases now name s) as Hc.
  destruct (gated now name s && getSkipNext s).
  - rewrite Hc.
    destruct (fire_all_clear fs (consumed_by now name s) eq_refl) as [_ H0].
    destruct (fire_all fs (consumed_by now name s)) as [s2 os]. simpl in *.
    rewrite H0. simpl. lia.
  - destruct Hc as (H1 & H2 & _).
    destruct (playAthan now name s) as [s1 o] eqn:E. simpl in *. subst s1.
    specialize (IH s). destruct (fire_all fs s) as [s2 os]. simpl in *.
    destruct o; simpl; done.
Qed.

(** X6. The one-shot mute over any sequence of firings of [playAthan]
    (prayers, tests, start-up sounds), nothing else touching the flag in
    between: at most one firing is skipped; none when [GET /api/skip-next]
    reports false; when it reports true, the skipped one is the first firing
    that is no special event and whose weekday cell is not disabled, the
    firings before it leave the server as it is, and after it the status is
    false. *)
Theorem one_shot_skips_first_gated fs s :
  (length (List.filter is_skip (fire_all fs s).2) <= 1)%nat
  ∧ (getSkipNext s = false →
       (fire_all fs s).1 = s ∧ List.filter is_skip (fire_all fs s).2 = [])
  ∧ (getSkipNext s = true →
       (∀ f, In f fs → gated f.1 f.2 s = false) →
       (fire_all fs s).1 = s ∧ List.filter is_skip (fire_all fs s).2 = [])
  ∧ (getSkipNext s = true →
       ∀ pre now name post,
         fs = (pre ++ (now, name) :: post)%list →
         (∀ f, In f pre → gated f.1 f.2 s = false) →
         gated now name s = true →
         (fire_all pre s).1 = s
         ∧ (fire_all fs s).2 !! length pre = Some DeniedSkipNext
         ∧ List.filter is_skip (fire_all fs s).2 = [DeniedSkipNext]
         ∧ getSkipNext (fire_all fs s).1 = false
         ∧ last_consumed (fire_all (pre ++ [(now, name)]) s).1 name (isoDate now)).
Proof.
  split; [apply fire_all_skips|]. split; [apply fire_all_clear|].
  split; [intros _; apply fire_all_ungated|].
  intros Hs pre now name post -> Hpre Hg.
  destruct (fire_all_ungated pre s Hpre) as [Hs1 Hos1].
  pose proof (playAthan_cases now name s) as Hc. rewrite Hg, Hs in Hc. simpl in Hc.
  destruct (fire_all_clear post (consumed_by now name s) eq_refl) as [Hs2 Hos2].
  split; [done|].
  rewrite !fire_all_app, Hs1. simpl. rewrite Hc.
  destruct (fire_all post (consumed_by now name s)) as [s2 os2] eqn:E2. simpl in *.
  subst s2. split; [|split; [|split]].
  - rewrite lookup_app_r by (rewrite fire_all_length; lia).
    by rewrite fire_all_length, Nat.sub_diag.
  - rewrite List.filter_app, Hos1. simpl. by rewrite Hos2.
  - done.
  - eexists. split; [reflexivity|]. done.
Qed.

(** X7. [GET /api/skip-next] tells what the next firing of a main prayer
    whose cell is not disabled will do: when it reports true the firing is
    skipped, the flag is cleared and (prayer, UTC date) is recorded as last
    consumed; when it reports false the firing passes the checks and changes
    nothing. *)
Theorem skip_status_predicts_firing now p s :
  In p prayerNames → cell_off (db s) p (dayIndexOf now) = false →
  (getSkipNext s = true →
     (playAthan now p s).2 = DeniedSkipNext
     ∧ getSkipNext (playAthan now p s).1 = false
     ∧ last_consumed (playAthan now p s).1 p (isoDate now))
  ∧ (getSkipNext s = false →
     (playAthan now p s).1 = s ∧ allowed (playAthan now p s).2 = true).
Proof.
  intros Hp Hoff.
  pose proof (playAthan_cases now p s) as Hc.
  unfold gated, isSpecialEvent in Hc. rewrite (main_not_special p Hp), Hoff in Hc.
  simpl in Hc. split; intros Hs; rewrite Hs in Hc.
  - rewrite Hc. split; [done|]. split; [done|].
    eexists. split; [reflexivity|]. done.
  - destruct Hc as (H1 & H2 & H3). split; [done|].
    destruct (playAthan now p s).2 eqn:E; try done.
    destruct (proj1 H3 eq_refl) as [_ H]. congruence.
Qed.

Lemma resetSkipNext_flag s : getSkipNext (resetSkipNext s) = false.
Proof.
  unfold getSkipNext, resetSkipNext.
  destruct (skip_next (db s)) as [row|] eqn:E; simpl; [done|]. by rewrite E.
Qed.

Lemma resetSkipNext_frame s :
  set_skip_next None (db (resetSkipNext s)) = set_skip_next None (db s)
  ∧ scheduledJobs (resetSkipNext s) = scheduledJobs s
  ∧ timers (resetSkipNext s) = timers s
  ∧ next_job_id (resetSkipNext s) = next_job_id s
  ∧ fridayQuranJob (resetSkipNext s) = fridayQuranJob s.
Proof. unfold resetSkipNext. by destruct (skip_next (db s)). Qed.

(** X8. [/api/skip-next/reset] undoes the one-shot mute at any stage,
    set or already consumed: the status is false, no last-consumed record is
    left, nothing else in the store has changed, and from then on both gates
    decide on the weekday cell alone: a firing of a main prayer passes the
    checks, and the poll tells the browser to play the prayer in its window
    (the audio output allowing), exactly when the cell is not disabled. *)
Theorem reset_skip_next_clears now s :
  getSkipNext (resetSkipNext s) = false
  ∧ (∀ name day, ¬ last_consumed (resetSkipNext s) name day)
  ∧ set_skip_next None (db (resetSkipNext s)) = set_skip_next None (db s)
  ∧ (∀ p, In p prayerNames →
       allowed (playAthan now p (resetSkipNext s)).2
       = negb (cell_off (db s) p (dayIndexOf now)))
  ∧ (∀ r, windowPrayer now s = Some r →
       shouldPlay (checkAthanTime now (resetSkipNext s))
       = negb (String.eqb (default "both" (Sql.setting (db s) "audio_output")) "server")
         && negb (cell_off (db s) (prayer_name r) (dayIndexOf now))).
Proof.
  pose proof (resetSkipNext_flag s) as Hf.
  destruct (resetSkipNext_frame s) as (Hdb & _).
  assert (Hsched : prayer_schedule (db (resetSkipNext s)) = prayer_schedule (db s))
    by (unfold resetSkipNext; by destruct (skip_next (db s))).
  assert (Hset : settings (db (resetSkipNext s)) = settings (db s))
    by (unfold resetSkipNext; by destruct (skip_next (db s))).
  assert (Hps : prayers (db (resetSkipNext s)) = prayers (db s))
    by (unfold resetSkipNext; by destruct (skip_next (db s))).
  assert (Hoff : ∀ q day, cell_off (db (resetSkipNext s)) q day = cell_off (db s) q day)
    by (intros; unfold cell_off, Sql.schedule_entry; by rewrite Hsched).
  assert (Hlast : ∀ name day, ¬ last_consumed (resetSkipNext s) name day).
  { intros name day (row & Hrow & Hp & _). unfold resetSkipNext in Hrow.
    destruct (skip_next (db s)) eqn:E; simpl in Hrow; [|congruence].
    injection Hrow as <-. done. }
  split; [done|]. split; [done|]. split; [done|]. split.
  - intros p Hp. rewrite playAthan_allowed by done.
    fold (dayIndexOf now). fold (cell_off (db (resetSkipNext s)) p (dayIndexOf now)).
    rewrite Hoff. change (flag_set (resetSkipNext s)) with (getSkipNext (resetSkipNext s)).
    rewrite Hf. by rewrite andb_true_r.
  - intros r Hr. rewrite checkAthanTime_shouldPlay.
    rewrite (windowPrayer_prayers now s _ Hps), Hr.
    unfold Sql.setting. rewrite Hset, Hoff.
    change (flag_set (resetSkipNext s)) with (getSkipNext (resetSkipNext s)).
    rewrite Hf. f_equal. simpl.
    destruct (skip_next (db (resetSkipNext s))) as [row|] eqn:E; [|done].
    destruct (bool_decide (last_skipped_prayer row = Some (prayer_name r))) eqn:B1;
      [|done].
    destruct (bool_decide (last_skipped_date row = Some (today now))) eqn:B2; [|done].
    apply bool_decide_eq_true in B1. apply bool_decide_eq_true in B2.
    destruct (Hlast (prayer_name r) (today now)). by exists row.
Qed.

(** ** Playback: output target, file and volume *)

(** A firing that gets past the flag goes to playback. *)
Lemma playAthan_open now name s :
  gated now name s && getSkipNext s = false →
  (isSpecialEvent name = false → cell_off (db s) name (dayIndexOf now) = false) →
  if String.eqb (default "both" (Sql.setting (db s) "audio_output")) "browser"
  then (playAthan now name s).2 = BrowserOnly
  else if existsSync (default "Masjid Al-Haram.mp3" (Sql.setting (db s) "audio_file"))
  then ∃ v, (playAthan now name s).2
            = Played (default "Masjid Al-Haram.mp3" (Sql.setting (db s) "audio_file"))
                     v (String.eqb name "Test")
  else (playAthan now name s).2
       = AudioFileNotFound (default "Masjid Al-Haram.mp3" (Sql.setting (db s) "audio_file")).
Proof.
  unfold gated, getSkipNext, isSpecialEvent, cell_off, dayIndexOf, playAthan.
  destruct (JS.includes _ name); simpl.
  - intros _ _. destruct (String.eqb _ "browser"); [done|].
    destruct (existsSync _); eauto.
  - intros Hg Hoff. rewrite Hoff in Hg |- * by done. simpl in Hg.
    destruct (skip_next (db s)) as [row|]; [rewrite Hg|];
      (destruct (String.eqb _ "browser"); [done|]; destruct (existsSync _); eauto).
Qed.

(** X9. Where an authorized athan is heard.  For the prayer in its
    trigger window, the one-shot mute idle and the weekday cell not disabled:
    the poll tells the browser to play exactly when [audio_output] is not
    [server]; the firing stays silent on the server exactly when it is
    [browser]; and both name the same file, the [audio_file] setting
    (default Masjid Al-Haram.mp3), which the server plays in full when it
    exists in [audio/athan]. *)
Theorem audio_output_routing now s r :
  windowPrayer now s = Some r →
  getSkipNext s = false →
  ¬ last_consumed s (prayer_name r) (today now) →
  cell_off (db s) (prayer_name r) (dayIndexOf now) = false →
  (shouldPlay (checkAthanTime now s) = true
     ↔ default "both" (Sql.setting (db s) "audio_output") ≠ "server")
  ∧ ((playAthan now (prayer_name r) s).2 = BrowserOnly
     ↔ default "both" (Sql.setting (db s) "audio_output") = "browser")
  ∧ (shouldPlay (checkAthanTime now s) = true →
       answer_prayerName (checkAthanTime now s) = Some (prayer_name r)
       ∧ answer_audioFile (checkAthanTime now s)
         = Some (default "Masjid Al-Haram.mp3" (Sql.setting (db s) "audio_file")))
  ∧ (default "both" (Sql.setting (db s) "audio_output") ≠ "browser" →
       if existsSync (default "Masjid Al-Haram.mp3" (Sql.setting (db s) "audio_file"))
       then ∃ v, (playAthan now (prayer_name r) s).2
                 = Played (default "Masjid Al-Haram.mp3"
                             (Sql.setting (db s) "audio_file")) v false
       else (playAthan now (prayer_name r) s).2
            = AudioFileNotFound (default "Masjid Al-Haram.mp3"
                                   (Sql.setting (db s) "audio_file"))).
Proof.
  intros Hr Hs Hlast Hoff.
  assert (Hmain : In (prayer_name r) mainPrayers).
  { apply windowPrayer_Some in Hr as [(_ & _ & H) _]. exact H. }
  assert (Hpoll : shouldPlay (checkAthanTime now s)
            = negb (String.eqb (default "both" (Sql.setting (db s) "audio_output"))
                               "server")).
  { rewrite checkAthanTime_shouldPlay, Hr, Hoff.
    change (flag_set s) with (getSkipNext s). rewrite Hs. simpl.
    rewrite andb_true_r.
    destruct (skip_next (db s)) as [row|] eqn:E; [|by rewrite andb_true_r].
    destruct (bool_decide (last_skipped_prayer row = Some (prayer_name r))) eqn:B1;
      [|by rewrite andb_true_r].
    destruct (bool_decide (last_skipped_date row = Some (today now))) eqn:B2;
      [|by rewrite andb_true_r].
    apply bool_decide_eq_true in B1. apply bool_decide_eq_true in B2.
    destruct Hlast. by exists row. }
  pose proof (playAthan_open now (prayer_name r) s) as Hopen.
  rewrite Hs, andb_false_r in Hopen. specialize (Hopen eq_refl (fun _ => Hoff)).
  assert (Htest : String.eqb (prayer_name r) "Test" = false).
  { apply String.eqb_neq. intros E.
    pose proof (main_not_special _ Hmain) as H. rewrite E in H. done. }
  rewrite Htest in Hopen.
  split; [|split; [|split]].
  - rewrite Hpoll. destruct (String.eqb_spec (default "both"
      (Sql.setting (db s) "audio_output")) "server"); simpl; split; done.
  - destruct (String.eqb_spec (default "both" (Sql.setting (db s) "audio_output"))
                              "browser") as [E|E].
    + by rewrite Hopen.
    + split; [|done]. intros Ho. rewrite Ho in Hopen.
      destruct (existsSync _); [by destruct Hopen|done].
  - intros Hplay. rewrite checkAthanTime_window in Hplay |- *. rewrite Hr in Hplay |- *.
    destruct (String.eqb _ "server"); [done|].
    unfold checkInWindow in Hplay |- *.
    repeat match goal with
    | H : shouldPlay (if ?b then _ else _) = true |- _ => destruct b; [done|]
    end. done.
  - intros Hne. apply String.eqb_neq in Hne. by rewrite Hne in Hopen.
Qed.

Lemma postSettings_plain key value s :
  key ≠ "ics_url" → key ≠ "friday_quran_enabled" → key ≠ "friday_quran_time" →
  postSettings key value s
  = (set_db (set_settings (<[key := value]> (settings (db s))) (db s)) s,
     mkSettingsAnswer 200 false).
Proof.
  intros H1 H2 H3. unfold postSettings.
  apply String.eqb_neq in H1. apply String.eqb_neq in H2. apply String.eqb_neq in H3.
  by rewrite H1, H2, H3.
Qed.

(** X10. The volume settings, written by [POST /api/settings] as the
    decimal text of an integer [n] of magnitude at most 2^53 (the integers
    that [parseInt] gives back exactly) and read back by [parseInt] at
    playback: after [volume] is set to [n], an athan that plays on the
    server plays at [n] percent, unless it is Fajr with [sync_fajr_volume]
    at '1'; then it plays at what [fajr_volume] was last set to;
    [fajr_volume] plays no part for the other prayers; and the Friday
    recitation plays at [volume]. *)
Theorem volume_write_read n now name s r :
  - 2 ^ 53 <= n <= 2 ^ 53 →
  (∀ f v t,
     (playAthan now name (postSettings "volume" (pretty n) s).1).2 = Played f v t →
     name ≠ "Fajr" ∨ Sql.setting (db s) "sync_fajr_volume" ≠ Some "1" →
     v = Some n)
  ∧ (∀ f v t,
       (playAthan now "Fajr" (postSettings "fajr_volume" (pretty n) s).1).2
       = Played f v t →
       Sql.setting (db s) "sync_fajr_volume" = Some "1" →
       v = Some n)
  ∧ (name ≠ "Fajr" →
       (playAthan now name (postSettings "fajr_volume" (pretty n) s).1).2
       = (playAthan now name s).2)
  ∧ (∀ f v,
       (playQuran now (postSettings "volume" (pretty n) s).1 r).2 = QuranPlayed f v →
       v = Some n).
Proof.
  intros _.
  rewrite !postSettings_plain by done. simpl fst.
  split; [|split; [|split]].
  - intros f v t Hplay Hcase. revert Hplay.
    unfold playAthan, Sql.setting. cbn [db set_db settings set_settings].
    rewrite lookup_insert_eq, parseInt_pretty.
    rewrite !lookup_insert_ne by done.
    assert (Hv : (if String.eqb name "Fajr" then
                    if match settings (db s) !! "sync_fajr_volume" with
                       | Some v0 => String.eqb v0 "1" | None => false end
                    then match settings (db s) !! "fajr_volume" with
                         | Some v0 => JS.parseInt v0 | None => Some 50 end
                    else Some n
                  else Some n) = Some n).
    { destruct (String.eqb_spec name "Fajr") as [E|E]; [|done].
      destruct Hcase as [Hc|Hc]; [done|]. unfold Sql.setting in Hc.
      destruct (settings (db s) !! "sync_fajr_volume") as [v0|]; [|done].
      destruct (String.eqb_spec v0 "1"); [congruence|done]. }
    rewrite Hv.
    repeat match goal with
    | |- context [if ?b then _ else _] => destruct b
    | |- context [match ?o with Some _ => _ | None => _ end] => destruct o
    end; simpl; intros; congruence.
  - intros f v t Hplay Hsync. revert Hplay.
    unfold playAthan, Sql.setting in *. cbn [db set_db settings set_settings].
    rewrite lookup_insert_eq, parseInt_pretty.
    rewrite !lookup_insert_ne by done. rewrite Hsync.
    change (String.eqb "Fajr" "Fajr") with true.
    change (String.eqb "1" "1") with true. cbv iota.
    repeat match goal with
    | |- context [if ?b then _ else _] => destruct b
    | |- context [match ?o with Some _ => _ | None => _ end] => destruct o
    end; simpl; intros; congruence.
  - intros Hne. apply String.eqb_neq in Hne.
    destruct s as [[ps st sk sched mw info] js ts nid fq t l].
    unfold playAthan, Sql.setting, Sql.schedule_entry.
    cbn [db set_db settings set_settings skip_next set_skip_next prayer_schedule].
    rewrite Hne. cbv iota. rewrite !lookup_insert_ne by done.
    repeat match goal with
    | |- context [if ?b then _ else _] => destruct b
    | |- context [match ?o with Some _ => _ | None => _ end] => destruct o
    end; reflexivity.
  - intros f v. unfold playQuran, Sql.setting.
    cbn [db set_db settings set_settings].
    rewrite lookup_insert_eq, parseInt_pretty.
    repeat match goal with
    | |- context [if ?b then _ else _] => destruct b
    | |- context [match ?o with Some _ => _ | None => _ end] => destruct o
    end; simpl; intros; congruence.
Qed.

(** ** Friday Quran *)

Lemma split_hhmm h m :
  0 <= h < 60 → 0 <= m < 60 →
  JS.split ":" (hhmm h m) = [JS.padStart2 h; JS.padStart2 m].
Proof.
  intros Hh Hm. unfold hhmm, JS.split.
  destruct (padStart2_facts h h) as (_ & _ & _ & Nh); [lia..|].
  destruct (padStart2_facts m m) as (_ & _ & _ & Nm); [lia..|].
  change (":" +:+ JS.padStart2 m) with (String ":" (JS.padStart2 m)).
  rewrite split_go_app by done. rewrite split_go_no_sep by done.
  reflexivity.
Qed.

Lemma parseInt10_padStart2 a :
  0 <= a < 60 → JS.parseInt10 (JS.padStart2 a) = Some a.
Proof.
  drop_env. intros Ha.
  assert (T : forallb (fun a => bool_decide (JS.parseInt10 (JS.padStart2 a) = Some a))
                      (upto 60) = true) by (vm_compute; reflexivity).
  rewrite forallb_forall in T.
  apply (bool_decide_unpack _), Is_true_true, T, upto_In. lia.
Qed.

(** What [scheduleFridayQuran] leaves in [fridayQuranJob], and how it
    ends. *)
Lemma scheduleFridayQuran_job s :
  let enabled := match Sql.setting (db s) "friday_quran_enabled" with
                 | Some v => String.eqb v "1" | None => false end in
  let parts := JS.split ":" (default "07:00" (Sql.setting (db s) "friday_quran_time")) in
  let hour := match parts !! 0%nat with Some h => JS.parseInt10 h | None => None end in
  let minute := match parts !! 1%nat with Some m => JS.parseInt10 m | None => None end in
  fridayQuranJob (scheduleFridayQuran s).1
  = (if enabled && cronAccepts minute hour then Some (mkCron minute hour) else None)
  ∧ (scheduleFridayQuran s).2
    = (if enabled && negb (cronAccepts minute hour) then Threw else Returned).
Proof.
  cbv zeta. unfold scheduleFridayQuran. cbn [db set_fridayQuranJob].
  destruct (match Sql.setting (db s) "friday_quran_enabled" with
            | Some v => String.eqb v "1" | None => false end); [|done].
  cbn [negb andb]. by destruct (cronAccepts _ _).
Qed.

(** X11. The weekly job and the Friday settings.  [POST /api/settings]
    writing [friday_quran_enabled] or [friday_quran_time] answers 200 or
    500.  It answers 500 exactly when the recitation is then enabled and
    [cron.schedule] does not accept the expression made of the minute and
    the hour that [parseInt] reads in the time; then no job is left, so
    [/api/friday-quran-status] reports enabled without a job.  When it
    answers 200 the status reports a job scheduled exactly when it reports
    the recitation enabled.  An enabled recitation whose time reads HH:MM
    has, when [cron.schedule] accepts (MM, HH), the job with these fields,
    leading zeros dropped; writing a value other than '1' to
    [friday_quran_enabled] answers 200 and leaves no job.  In every case
    the store differs in that setting only, and the armed timers and the
    recorded jobs are as they were. *)
Theorem friday_job_follows_settings key value s :
  key = "friday_quran_enabled" ∨ key = "friday_quran_time" →
  (settings_status (postSettings key value s).2 = 200
   ∨ settings_status (postSettings key value s).2 = 500)
  ∧ (let parts :=
       JS.split ":" (fs_time (fridayQuranStatus (postSettings key value s).1)) in
     let hour := match parts !! 0%nat with Some h => JS.parseInt10 h | None => None end in
     let minute := match parts !! 1%nat with Some m => JS.parseInt10 m | None => None end in
     settings_status (postSettings key value s).2 = 500
     ↔ fs_enabled (fridayQuranStatus (postSettings key value s).1) = true
       ∧ cronAccepts minute hour = false)
  ∧ (settings_status (postSettings key value s).2 = 500 →
       fridayQuranJob (postSettings key value s).1 = None
       ∧ fs_enabled (fridayQuranStatus (postSettings key value s).1) = true
       ∧ jobScheduled (fridayQuranStatus (postSettings key value s).1) = false)
  ∧ (settings_status (postSettings key value s).2 = 200 →
       jobScheduled (fridayQuranStatus (postSettings key value s).1)
       = fs_enabled (fridayQuranStatus (postSettings key value s).1))
  ∧ (∀ h m, 0 <= h < 24 → 0 <= m < 60 →
       fs_enabled (fridayQuranStatus (postSettings key value s).1) = true →
       fs_time (fridayQuranStatus (postSettings key value s).1) = hhmm h m →
       cronAccepts (Some m) (Some h) = true →
       settings_status (postSettings key value s).2 = 200
       ∧ fridayQuranJob (postSettings key value s).1 = Some (mkCron (Some m) (Some h)))
  ∧ (key = "friday_quran_enabled" → value ≠ "1" →
       settings_status (postSettings key value s).2 = 200
       ∧ fridayQuranJob (postSettings key value s).1 = None)
  ∧ db (postSettings key value s).1
    = set_settings (<[key := value]> (settings (db s))) (db s)
  ∧ timers (postSettings key value s).1 = timers s
  ∧ scheduledJobs (postSettings key value s).1 = scheduledJobs s.
Proof.
  intros Hkey.
  set (s0 := set_db (set_settings (<[key := value]> (settings (db s))) (db s)) s).
  assert (E : (postSettings key value s).1 = (scheduleFridayQuran s0).1
              ∧ settings_status (postSettings key value s).2
                = match (scheduleFridayQuran s0).2 with
                  | Returned => 200 | Threw => 500 end).
  { unfold postSettings. fold s0.
    destruct Hkey as [-> | ->]; cbn [String.eqb Ascii.eqb Bool.eqb orb];
      by destruct (scheduleFridayQuran s0) as [s1 []]. }
  destruct E as [E1 E2]. rewrite E1, E2.
  destruct (scheduleFridayQuran_frame s0) as (Hdb & Hjobs & Htimers & _).
  pose proof (scheduleFridayQuran_job s0) as [Hjob Hend]. cbv zeta in Hjob, Hend.
  unfold fridayQuranStatus. cbn [jobScheduled fs_enabled fs_time]. rewrite Hdb.
  rewrite Hjob, Hend.
  set (enabled := match Sql.setting (db s0) "friday_quran_enabled" with
                  | Some v => String.eqb v "1" | None => false end).
  set (parts := JS.split ":" (default "07:00" (Sql.setting (db s0) "friday_quran_time"))).
  set (hour := match parts !! 0%nat with Some h => JS.parseInt10 h | None => None end).
  set (minute := match parts !! 1%nat with Some m => JS.parseInt10 m | None => None end).
  split; [|split; [|split; [|split; [|split; [|split; [|split; [done|split; done]]]]]]].
  - destruct (enabled && negb (cronAccepts minute hour)); auto.
  - cbv zeta. fold parts hour minute.
    destruct enabled, (cronAccepts minute hour); cbn [andb negb]; split;
      first [done | by intros [? ?] | by split ].
  - destruct enabled, (cronAccepts minute hour); cbn [andb negb]; done.
  - destruct enabled, (cronAccepts minute hour); cbn [andb negb]; done.
  - intros h m Hh Hm Hen Htime Hacc.
    assert (Hmin : minute = Some m ∧ hour = Some h).
    { unfold minute, hour, parts. rewrite Htime, split_hhmm by lia. simpl.
      by rewrite !parseInt10_padStart2 by lia. }
    destruct Hmin as [-> ->]. rewrite Hen, Hacc. done.
  - intros -> Hv.
    assert (Hen : enabled = false).
    { unfold enabled, Sql.setting, s0. cbn [db set_db settings set_settings].
      rewrite lookup_insert_eq. by apply String.eqb_neq in Hv. }
    rewrite Hen. done.
Qed.

Lemma checkFridayQuran_idle now s r :
  (∀ tr, friday_quran_trigger r = Some tr → should_play tr ≠ 1) →
  checkFridayQuran now s r
  = (r, mkFridayAnswer false None None
          (bool_decide (currentAudioType r = Some "quran"))).
Proof.
  intros H. unfold checkFridayQuran.
  destruct (negb _); [done|]. destruct (String.eqb _ "server"); [done|].
  destruct (negb _); [done|].
  destruct (friday_quran_trigger r) as [tr|]; [|done].
  specialize (H tr eq_refl). by destruct (Z.eqb_spec (should_play tr) 1).
Qed.

Lemma checkFridayQuran_other_day now s r :
  getDay now ≠ 5 →
  checkFridayQuran now s r
  = (r, mkFridayAnswer false None None
          (bool_decide (currentAudioType r = Some "quran"))).
Proof.
  intros H. unfold checkFridayQuran.
  destruct (negb (match Sql.setting _ _ with Some _ => _ | None => _ end)); [done|].
  destruct (String.eqb _ "server"); [done|].
  by destruct (Z.eqb_spec (getDay now) 5).
Qed.

Lemma friday_polls_other_days nows s r :
  (∀ w, In w nows → getDay w ≠ 5) →
  (friday_polls nows s r).1 = r
  ∧ Forall (fun a => fq_shouldPlay a = false) (friday_polls nows s r).2.
Proof.
  induction nows as [|w nows IH]; intros H; simpl; [done|].
  rewrite checkFridayQuran_other_day by (apply H; by left).
  destruct IH as [IH1 IH2]; [intros w' Hw'; apply H; by right|].
  destruct (friday_polls nows s r) as [r2 answers]. simpl in *.
  split; [done|]. by constructor.
Qed.

Lemma friday_polls_idle nows : ∀ s r,
  (∀ tr, friday_quran_trigger r = Some tr → should_play tr ≠ 1) →
  (friday_polls nows s r).1 = r
  ∧ Forall (fun a => fq_shouldPlay a = false) (friday_polls nows s r).2.
Proof.
  induction nows as [|w nows IH]; intros s r H; simpl; [done|].
  rewrite checkFridayQuran_idle by done.
  destruct (IH s r H) as [IH1 IH2].
  destruct (friday_polls nows s r) as [r2 answers]. simpl in *.
  split; [done|]. by constructor.
Qed.

(** X12. The hand-over of the Friday recitation to the browser.  With
    the recitation enabled and [audio_output] at [both] or [browser],
    [playQuran] (the weekly job, or [/api/trigger-friday-quran]) raises the
    trigger; polls of [/api/check-friday-quran] on other weekdays answer no
    and leave it raised; the first poll on a Friday answers yes with the
    configured file and lowers it; every poll after that answers no, until
    [playQuran] runs again.  With [audio_output] at [server], [playQuran]
    leaves the trigger as it was. *)
Theorem friday_trigger_handshake now waits friday later s r tr :
  friday_quran_trigger r = Some tr →
  Sql.setting (db s) "friday_quran_enabled" = Some "1" →
  (∀ w, In w waits → getDay w ≠ 5) → getDay friday = 5 →
  (default "both" (Sql.setting (db s) "audio_output") = "both"
   ∨ default "both" (Sql.setting (db s) "audio_output") = "browser" →
   friday_quran_trigger (playQuran now s r).1
   = Some (mkTrigger 1 (Some (isoDate now)) (Some (timeHHMM now)))
   ∧ (friday_polls waits s (playQuran now s r).1).1 = (playQuran now s r).1
   ∧ Forall (fun a => fq_shouldPlay a = false)
            (friday_polls waits s (playQuran now s r).1).2
   ∧ fq_shouldPlay (checkFridayQuran friday s (playQuran now s r).1).2 = true
   ∧ fq_quranFile (checkFridayQuran friday s (playQuran now s r).1).2
     = Some (default "Sourat Al Kahf - Hani Arrifai.mp3"
                     (Sql.setting (db s) "friday_quran_file"))
   ∧ friday_quran_trigger (checkFridayQuran friday s (playQuran now s r).1).1
     = Some (mkTrigger 0 (Some (isoDate now)) (Some (timeHHMM now)))
   ∧ Forall (fun a => fq_shouldPlay a = false)
            (friday_polls later s
               (checkFridayQuran friday s (playQuran now s r).1).1).2)
  ∧ (default "both" (Sql.setting (db s) "audio_output") = "server" →
     friday_quran_trigger (playQuran now s r).1 = Some tr
     ∧ fq_shouldPlay (checkFridayQuran friday s (playQuran now s r).1).2 = false).
Proof.
  intros Htr Hen Hwaits Hfri. split.
  - intros Hout.
    assert (Hset : friday_quran_trigger (playQuran now s r).1
                   = Some (mkTrigger 1 (Some (isoDate now)) (Some (timeHHMM now)))).
    { unfold playQuran. rewrite Htr.
      destruct Hout as [-> | ->]; simpl; [by destruct (existsSyncCoran _)|done]. }
    assert (Hns : String.eqb (default "both" (Sql.setting (db s) "audio_output"))
                             "server" = false) by (by destruct Hout as [-> | ->]).
    assert (Hcheck : checkFridayQuran friday s (playQuran now s r).1
              = (set_friday_quran_trigger
                   (Some (mkTrigger 0 (Some (isoDate now)) (Some (timeHHMM now))))
                   (playQuran now s r).1,
                 mkFridayAnswer true
                   (Some (default "Sourat Al Kahf - Hani Arrifai.mp3"
                            (Sql.setting (db s) "friday_quran_file")))
                   (Some "friday_quran")
                   (bool_decide (currentAudioType (playQuran now s r).1 = Some "quran")))).
    { unfold checkFridayQuran. rewrite Hen, Hns, Hfri, Hset. reflexivity. }
    split; [done|].
    destruct (friday_polls_other_days waits s (playQuran now s r).1 Hwaits) as [W1 W2].
    split; [done|]. split; [done|]. rewrite Hcheck. simpl.
    split; [done|]. split; [done|]. split; [done|].
    apply friday_polls_idle. simpl. intros tr' [= <-]. done.
  - intros Hout.
    assert (Hkeep : friday_quran_trigger (playQuran now s r).1 = Some tr).
    { unfold playQuran. rewrite Hout. simpl. by destruct (existsSyncCoran _). }
    split; [done|]. unfold checkFridayQuran. by rewrite Hen, Hout.
Qed.

(** ** Calendar refresh: what a successful refresh stores *)

Lemma store_event_eq now ps n ev :
  store_event (today now) (formatDateLocal (setMonth_plus3 (local now))) (ps, n) ev
  = if stored_event now ev
    then (Sql.insert_or_replace_prayer (event_row ev) ps, n + 1)
    else (ps, n).
Proof.
  unfold store_event, stored_event, event_row. cbn [date].
  destruct (String.eqb (ev_type ev) "VEVENT"); [|done]. cbn [andb].
  by destruct (_ && _).
Qed.

Lemma fold_store_event_eq now events : ∀ ps n,
  fold_left (store_event (today now) (formatDateLocal (setMonth_plus3 (local now))))
            events (ps, n)
  = (replay (List.filter (stored_event now) events) ps,
     n + Z.of_nat (length (List.filter (stored_event now) events))).
Proof.
  induction events as [|ev events IH]; intros ps n.
  - simpl. f_equal. lia.
  - cbn [fold_left List.filter]. rewrite store_event_eq.
    destruct (stored_event now ev); rewrite IH; [|done].
    unfold replay. cbn [fold_left length]. f_equal. lia.
Qed.

Lemma delete_insert_or_replace day r ps :
  JS.str_le day (date r) = true →
  Sql.delete_prayers_from day (Sql.insert_or_replace_prayer r ps)
  = Sql.delete_prayers_from day ps.
Proof.
  intros Hr. unfold Sql.delete_prayers_from, Sql.insert_or_replace_prayer.
  rewrite List.filter_app. simpl. rewrite Hr. simpl. rewrite app_nil_r.
  induction ps as [|q ps IH]; simpl; [done|].
  destruct (String.eqb_spec (date q) (date r)) as [E|E]; simpl.
  - destruct (String.eqb (prayer_name q) (prayer_name r)); simpl.
    + rewrite E, Hr. simpl. apply IH.
    + rewrite IH. done.
  - rewrite IH. done.
Qed.

Lemma replay_history day evs : ∀ ps,
  (∀ ev, In ev evs → JS.str_le day (date (event_row ev)) = true) →
  Sql.delete_prayers_from day (replay evs ps) = Sql.delete_prayers_from day ps.
Proof.
  induction evs as [|ev evs IH]; intros ps H; [done|].
  unfold replay. simpl. fold (replay evs (Sql.insert_or_replace_prayer (event_row ev) ps)).
  rewrite IH by (intros ev' Hev'; apply H; by right).
  apply delete_insert_or_replace, H. by left.
Qed.

Lemma insert_or_replace_In r ps q :
  In q (Sql.insert_or_replace_prayer r ps) ↔
  q = r ∨ (In q ps ∧ prayer_key q ≠ prayer_key r).
Proof.
  drop_env. unfold Sql.insert_or_replace_prayer, prayer_key.
  rewrite List.in_app_iff, List.filter_In. simpl.
  rewrite negb_true_iff, andb_false_iff, !String.eqb_neq.
  split.
  - intros [[Hq Hne] | [-> | []]]; [right|by left].
    split; [done|]. intros [= Hd Hn]. destruct Hne; done.
  - intros [-> | [Hq Hne]]; [right; by left|left].
    split; [done|].
    destruct (String.eqb_spec (date q) (date r)) as [Hd|Hd]; [|by left].
    destruct (String.eqb_spec (prayer_name q) (prayer_name r)) as [Hn|Hn]; [|by right].
    destruct Hne. by rewrite Hd, Hn.
Qed.

Lemma replay_origin evs : ∀ ps r,
  In r (replay evs ps) → In r ps ∨ ∃ ev, In ev evs ∧ r = event_row ev.
Proof.
  induction evs as [|ev evs IH]; intros ps r Hr; [by left|].
  unfold replay in Hr. simpl in Hr.
  apply IH in Hr as [Hr | (ev' & Hev' & ->)].
  - apply insert_or_replace_In in Hr as [-> | [Hr _]]; [|by left].
    right. exists ev. split; [by left|done].
  - right. exists ev'. split; [by right|done].
Qed.

Lemma replay_keeps evs : ∀ ps r,
  In r ps →
  (∀ ev, In ev evs → prayer_key (event_row ev) ≠ prayer_key r) →
  In r (replay evs ps).
Proof.
  induction evs as [|ev evs IH]; intros ps r Hr H; [done|].
  unfold replay. simpl. apply IH.
  - apply insert_or_replace_In. right. split; [done|].
    intros E. by apply (H ev); [left|].
  - intros ev' Hev'. apply H. by right.
Qed.

Lemma replay_app evs1 evs2 ps :
  replay (evs1 ++ evs2)%list ps = replay evs2 (replay evs1 ps).
Proof. apply fold_left_app. Qed.

(** The last event of a key is the one that stays. *)
Lemma replay_last pre ev post ps :
  (∀ ev', In ev' post → prayer_key (event_row ev') ≠ prayer_key (event_row ev)) →
  In (event_row ev) (replay (pre ++ ev :: post)%list ps).
Proof.
  intros H. rewrite replay_app. unfold replay at 1. simpl.
  apply replay_keeps; [|done].
  apply insert_or_replace_In. by left.
Qed.

Lemma fetchPrayerTimes_success now events s url :
  Sql.setting (db s) "ics_url" = Some url →
  (fetchPrayerTimes now (Fetched events) s).2 = true
  ∧ prayers (db (fetchPrayerTimes now (Fetched events) s).1)
    = replay (List.filter (stored_event now) events)
             (Sql.delete_prayers_from (today now) (prayers (db s)))
  ∧ set_update_info None (set_prayers [] (db (fetchPrayerTimes now (Fetched events) s).1))
    = set_update_info None (set_prayers [] (db s))
  ∧ prayers_count <$> update_info (db (fetchPrayerTimes now (Fetched events) s).1)
    = (fun _ => Z.of_nat (length (List.filter (stored_event now) events)))
      <$> update_info (db s).
Proof.
  intros Hurl. unfold fetchPrayerTimes. rewrite Hurl.
  fold (today now). rewrite fold_store_event_eq. cbv zeta. cbn [fst snd].
  match goal with
  | |- context [scheduleAthanCalls now ?s1] =>
      destruct (scheduleAthanCalls_eq now s1) as (Hdb & _)
  end.
  cbv zeta in Hdb. rewrite Hdb. cbn [db set_db].
  split; [done|]. split; [done|]. split; [done|].
  cbn [update_info set_update_info]. by destruct (update_info (db s)).
Qed.

(** X13. A calendar refresh that succeeds.  It answers true; the rows
    dated before today are the ones the store had, in their order; every
    row dated from today on is the row of a VEVENT of the feed whose local
    date lies from today to three months ahead; conversely each such event
    has its row in the store unless a later event of the feed has the same
    date and name, in which case the later one wins; the recorded count is
    the number of events stored; the other tables are as they were. *)
Theorem refresh_success_calendar now events s url :
  Sql.setting (db s) "ics_url" = Some url →
  (fetchPrayerTimes now (Fetched events) s).2 = true
  ∧ Sql.delete_prayers_from (today now)
      (prayers (db (fetchPrayerTimes now (Fetched events) s).1))
    = Sql.delete_prayers_from (today now) (prayers (db s))
  ∧ (∀ r, In r (prayers (db (fetchPrayerTimes now (Fetched events) s).1)) →
       JS.str_le (today now) (date r) = true →
       ∃ ev, In ev events ∧ stored_event now ev = true ∧ r = event_row ev)
  ∧ (∀ pre ev post, events = (pre ++ ev :: post)%list →
       stored_event now ev = true →
       (∀ ev', In ev' post → stored_event now ev' = true →
          prayer_key (event_row ev') ≠ prayer_key (event_row ev)) →
       In (event_row ev) (prayers (db (fetchPrayerTimes now (Fetched events) s).1)))
  ∧ prayers_count <$> update_info (db (fetchPrayerTimes now (Fetched events) s).1)
    = (fun _ => Z.of_nat (length (List.filter (stored_event now) events)))
      <$> update_info (db s)
  ∧ set_update_info None (set_prayers [] (db (fetchPrayerTimes now (Fetched events) s).1))
    = set_update_info None (set_prayers [] (db s)).
Proof.
  intros Hurl.
  destruct (fetchPrayerTimes_success now events s url Hurl) as (Hok & Hps & Hdb & Hn).
  rewrite Hps.
  assert (Hin : ∀ ev, In ev (List.filter (stored_event now) events) →
                  JS.str_le (today now) (date (event_row ev)) = true).
  { intros ev Hev. apply List.filter_In in Hev as [_ Hev].
    unfold stored_event in Hev. apply andb_prop in Hev as [_ Hev].
    by apply andb_prop in Hev as [Hev _]. }
  split; [done|]. split; [|split; [|split; [|done]]].
  - rewrite replay_history by done.
    unfold Sql.delete_prayers_from. clear.
    induction (prayers (db s)) as [|q ps IH]; simpl; [done|].
    destruct (negb (JS.str_le (today now) (date q))) eqn:E; simpl; [|done].
    by rewrite E, IH.
  - intros r Hr Hdate. apply replay_origin in Hr as [Hr | (ev & Hev & ->)].
    + unfold Sql.delete_prayers_from in Hr. apply List.filter_In in Hr as [_ Hr].
      by rewrite Hdate in Hr.
    + apply List.filter_In in Hev as [Hev Hsel]. by exists ev.
  - intros pre ev post -> Hsel Hpost.
    rewrite List.filter_app. simpl. rewrite Hsel.
    apply replay_last. intros ev' Hev'.
    apply List.filter_In in Hev' as [Hev' Hsel']. by apply Hpost.
Qed.

(** ** Times of day, in clock terms *)

(** The rows a refresh stores are written HH:MM. *)
Lemma event_row_well_timed ev :
  0 <= getHours (start ev) < 24 → 0 <= getMinutes (start ev) < 60 →
  well_timed (event_row ev).
Proof. intros Hh Hm. by exists (getHours (start ev)), (getMinutes (start ev)). Qed.

(** X14. The times a refresh stores are on the clock: when the start
    of every event of the feed has its hours in 0..23 and its minutes in
    0..59 and the rows in store were written HH:MM, then after a refresh
    (whatever its outcome) every row is written HH:MM, zero-padded, and
    [minutesOf], which the trigger window uses, reads it back as
    60 * HH + MM. *)
Theorem refresh_keeps_times_on_clock now response s :
  (∀ r, In r (prayers (db s)) → well_timed r) →
  (∀ events ev, response = Fetched events → In ev events →
     0 <= getHours (start ev) < 24 ∧ 0 <= getMinutes (start ev) < 60) →
  ∀ r, In r (prayers (db (fetchPrayerTimes now response s).1)) →
    ∃ h m, 0 <= h < 24 ∧ 0 <= m < 60
           ∧ prayer_time r = hhmm h m
           ∧ minutesOf (prayer_time r) = Some (h * 60 + m).
Proof.
  intros Hold Hev r Hr.
  assert (Hw : well_timed r).
  { destruct (Sql.setting (db s) "ics_url") as [url|] eqn:Hurl;
      [destruct response as [|events]|].
    - unfold fetchPrayerTimes in Hr. rewrite Hurl in Hr. by apply Hold.
    - destruct (fetchPrayerTimes_success now events s url Hurl) as (_ & Hps & _).
      rewrite Hps in Hr. apply replay_origin in Hr as [Hr | (ev & Hin & ->)].
      + apply Hold. unfold Sql.delete_prayers_from in Hr.
        by apply List.filter_In in Hr as [Hr _].
      + apply List.filter_In in Hin as [Hin _].
        destruct (Hev events ev eq_refl Hin). by apply event_row_well_timed.
    - unfold fetchPrayerTimes in Hr. rewrite Hurl in Hr. by apply Hold. }
  destruct Hw as (h & m & Hh & Hm & Ht). exists h, m.
  split; [done|]. split; [done|]. split; [done|].
  rewrite Ht. by apply minutesOf_hhmm.
Qed.

(** X15. The next prayer, by the clock.  On a calendar whose times of
    today are written HH:MM, at a valid time of day: when some main prayer
    of today is later than now, counted in minutes of the day,
    [GET /api/prayers/next/upcoming] answers a main prayer of today that is
    later than now and no later than any other such prayer. *)
Theorem nextUpcoming_clock_order now s q qm :
  0 <= getHours now < 24 → 0 <= getMinutes now < 60 →
  (∀ r, main_on (db s) (today now) r → well_timed r) →
  main_on (db s) (today now) q →
  minutesOf (prayer_time q) = Some qm →
  getHours now * 60 + getMinutes now < qm →
  ∃ r rm, nextUpcoming now s = Some r
          ∧ main_on (db s) (today now) r
          ∧ minutesOf (prayer_time r) = Some rm
          ∧ getHours now * 60 + getMinutes now < rm
          ∧ ∀ q' qm', main_on (db s) (today now) q' →
              minutesOf (prayer_time q') = Some qm' →
              getHours now * 60 + getMinutes now < qm' → rm <= qm'.
Proof.
  intros Hh Hm Hwt Hq Hqm Hlater.
  assert (Hlt : ∀ r h m, 0 <= h < 24 → 0 <= m < 60 → prayer_time r = hhmm h m →
            JS.str_lt (timeHHMM now) (prayer_time r)
            = (getHours now * 60 + getMinutes now <? h * 60 + m)).
  { intros r h m Hh' Hm' ->. unfold timeHHMM. by apply hhmm_lt. }
  assert (Hmin : ∀ r h m, 0 <= h < 24 → 0 <= m < 60 → prayer_time r = hhmm h m →
            minutesOf (prayer_time r) = Some (h * 60 + m)).
  { intros r h m Hh' Hm' ->. by apply minutesOf_hhmm. }
  pose proof (next_main_prayer_spec (db s) (today now) (timeHHMM now)) as Hspec.
  unfold nextUpcoming. fold (today now).
  destruct (Sql.next_main_prayer (db s) (today now) (timeHHMM now)) as [r|].
  - destruct Hspec as [[Hr Hrt] Hleast].
    destruct (Hwt r Hr) as (h & m & Hh' & Hm' & Ht).
    exists r, (h * 60 + m). split; [done|]. split; [done|].
    split; [by apply (Hmin r)|].
    rewrite (Hlt r h m) in Hrt by done. apply Z.ltb_lt in Hrt. split; [done|].
    intros q' qm' Hq' Hqm' Hl'.
    destruct (Hwt q' Hq') as (h' & m' & Hh'' & Hm'' & Ht').
    rewrite (Hmin q' h' m') in Hqm' by done. injection Hqm' as <-.
    specialize (Hleast q'). rewrite Ht, Ht', hhmm_le in Hleast by done.
    apply Z.leb_le, Hleast. split; [done|].
    rewrite <- Ht', (Hlt q' h' m') by done. by apply Z.ltb_lt.
  - destruct (Hspec q). split; [done|].
    destruct (Hwt q Hq) as (h & m & Hh' & Hm' & Ht).
    rewrite (Hlt q h m) by done. rewrite (Hmin q h m) in Hqm by done.
    injection Hqm as <-. by apply Z.ltb_lt.
Qed.

(** ** Dates as text: [formatDateLocal] *)

Lemma year_text y : 1000 <= y <= 9999 → pretty y = digits4 y.
Proof.
  drop_env. intros Hy.
  assert (T : forallb (fun n => String.eqb (pretty (1000 + n)) (digits4 (1000 + n)))
                      (upto (Z.to_nat 9000)) = true) by (vm_compute; reflexivity).
  rewrite forallb_forall in T.
  specialize (T (y - 1000) (upto_In (Z.to_nat 9000) (y - 1000) ltac:(lia))).
  replace (1000 + (y - 1000)) with y in T by lia. by apply String.eqb_eq.
Qed.

Lemma digit_char_compare a b :
  0 <= a <= 9 → 0 <= b <= 9 →
  Ascii.compare (pretty_N_char (Z.to_N a)) (pretty_N_char (Z.to_N b)) = (a ?= b).
Proof.
  drop_env. intros Ha Hb.
  assert (T : forallb (fun a => forallb (fun b =>
                comparison_eqb
                  (Ascii.compare (pretty_N_char (Z.to_N a)) (pretty_N_char (Z.to_N b)))
                  (a ?= b)) (upto 10)) (upto 10) = true) by (vm_compute; reflexivity).
  rewrite forallb_forall in T. specialize (T a (upto_In 10 a ltac:(lia))).
  rewrite forallb_forall in T. specialize (T b (upto_In 10 b ltac:(lia))).
  destruct (Ascii.compare _ _), (a ?= b); done.
Qed.

Lemma digits4_compare y1 y2 :
  1000 <= y1 <= 9999 → 1000 <= y2 <= 9999 →
  String.compare (digits4 y1) (digits4 y2) = (y1 ?= y2).
Proof.
  drop_env. intros H1 H2.
  assert (D : ∀ y, 1000 <= y <= 9999 →
    ∃ a b c d, 0 <= a <= 9 ∧ 0 <= b <= 9 ∧ 0 <= c <= 9 ∧ 0 <= d <= 9
      ∧ y / 1000 = a ∧ y / 100 mod 10 = b ∧ y / 10 mod 10 = c ∧ y mod 10 = d
      ∧ y = 1000 * a + 100 * b + 10 * c + d).
  { intros y Hy. exists (y / 1000), (y / 100 mod 10), (y / 10 mod 10), (y mod 10).
    repeat split; try reflexivity; Z.div_mod_to_equations; lia. }
  unfold digits4.
  destruct (D y1 H1) as (a1 & b1 & c1 & d1 & Ha1 & Hb1 & Hc1 & Hd1 & -> & -> & -> & -> & E1).
  destruct (D y2 H2) as (a2 & b2 & c2 & d2 & Ha2 & Hb2 & Hc2 & Hd2 & -> & -> & -> & -> & E2).
  cbn [String.compare]. rewrite !digit_char_compare by done.
  destruct (Z.compare_spec a1 a2); [|symmetry; apply Z.compare_lt_iff; lia
                                    |symmetry; apply Z.compare_gt_iff; lia].
  destruct (Z.compare_spec b1 b2); [|symmetry; apply Z.compare_lt_iff; lia
                                    |symmetry; apply Z.compare_gt_iff; lia].
  destruct (Z.compare_spec c1 c2); [|symmetry; apply Z.compare_lt_iff; lia
                                    |symmetry; apply Z.compare_gt_iff; lia].
  destruct (Z.compare_spec d1 d2); [symmetry; apply Z.compare_eq_iff; lia
                                   |symmetry; apply Z.compare_lt_iff; lia
                                   |symmetry; apply Z.compare_gt_iff; lia].
Qed.

Lemma formatDateLocal_compare d1 d2 :
  valid_date d1 → valid_date d2 →
  String.compare (formatDateLocal d1) (formatDateLocal d2) = date_compare d1 d2.
Proof.
  intros (Hy1 & Hm1 & Hd1) (Hy2 & Hm2 & Hd2).
  unfold formatDateLocal, date_compare.
  destruct (padStart2_facts (getMonth d1 + 1) (getMonth d2 + 1))
    as (Cm & Lm1 & _); [lia..|].
  destruct (padStart2_facts (getMonth d2 + 1) (getMonth d2 + 1))
    as (_ & Lm2 & _); [lia..|].
  destruct (padStart2_facts (getDate d1) (getDate d2)) as (Cd & _); [lia..|].
  rewrite compare_app by (rewrite !year_text by done; reflexivity).
  rewrite !year_text by done. rewrite digits4_compare by done.
  destruct (getFullYear d1 ?= getFullYear d2); [|done..].
  rewrite (compare_app "-" "-") by reflexivity. cbn [String.compare Ascii.compare].
  change (Ascii.compare "-" "-") with Eq. cbv iota.
  rewrite compare_app by (by rewrite Lm1, Lm2).
  rewrite Cm, (Z.add_comm (getMonth d1)), (Z.add_comm (getMonth d2)),
    Z.add_compare_mono_l.
  destruct (getMonth d1 ?= getMonth d2); [|done..].
  rewrite (compare_app "-" "-") by reflexivity.
  change (String.compare "-" "-") with Eq. cbv iota. exact Cd.
Qed.

Lemma days_in_month_bounds y m : 28 <= days_in_month y m <= 31.
Proof.
  drop_env. unfold days_in_month.
  destruct (m =? 1); [destruct (is_leap y); lia|].
  destruct ((m =? 3) || (m =? 5) || (m =? 8) || (m =? 10)); lia.
Qed.

Lemma carry_day_cases d :
  (getDate d <= days_in_month (getFullYear d) (getMonth d) ∧ carry_day d = d)
  ∨ (days_in_month (getFullYear d) (getMonth d) < getDate d ∧ getMonth d = 11
     ∧ carry_day d = mkLocalDate (getFullYear d + 1) 0
                       (getDate d - days_in_month (getFullYear d) (getMonth d)))
  ∨ (days_in_month (getFullYear d) (getMonth d) < getDate d ∧ getMonth d ≠ 11
     ∧ carry_day d = mkLocalDate (getFullYear d) (getMonth d + 1)
                       (getDate d - days_in_month (getFullYear d) (getMonth d))).
Proof.
  drop_env. unfold carry_day.
  destruct (Z.leb_spec (getDate d) (days_in_month (getFullYear d) (getMonth d)));
    [by left|right].
  destruct (Z.eqb_spec (getMonth d) 11); [by left|by right].
Qed.

Lemma date_compare_Lt a b :
  getFullYear a < getFullYear b
  ∨ (getFullYear a = getFullYear b
     ∧ (getMonth a < getMonth b
        ∨ (getMonth a = getMonth b ∧ getDate a < getDate b))) →
  date_compare a b = Lt.
Proof.
  drop_env. unfold date_compare. intros H.
  destruct (Z.compare_spec (getFullYear a) (getFullYear b)); [|done|lia].
  destruct (Z.compare_spec (getMonth a) (getMonth b)); [|done|lia].
  apply Z.compare_lt_iff. lia.
Qed.

Lemma date_compare_refl a : date_compare a a = Eq.
Proof. drop_env. unfold date_compare. by rewrite !Z.compare_refl. Qed.

(** X16. [formatDateLocal] keeps the order of dates: for civil dates
    with a four-digit year, the texts YYYY-MM-DD compare as the dates do and
    are equal only for equal dates, which is what [date >= ?] and
    [ORDER BY date] rely on; the text of tomorrow, as [setDate] gives it,
    is after the text of today; and the text of the day three months ahead,
    the upper end of the refresh window, is not before it. *)
Theorem formatDateLocal_order d1 d2 :
  valid_date d1 → valid_date d2 →
  String.compare (formatDateLocal d1) (formatDateLocal d2) = date_compare d1 d2
  ∧ (formatDateLocal d1 = formatDateLocal d2 → d1 = d2)
  ∧ (JS.str_le (formatDateLocal d1) (formatDateLocal d2) = true
     ↔ date_compare d1 d2 ≠ Gt)
  ∧ (real_date d1 → getFullYear d1 < 9999 →
       JS.str_lt (formatDateLocal d1) (formatDateLocal (setDate_next d1)) = true
       ∧ JS.str_le (formatDateLocal d1) (formatDateLocal (setMonth_plus3 d1)) = true).
Proof.
  intros Hv1 Hv2.
  pose proof (formatDateLocal_compare d1 d2 Hv1 Hv2) as Hc.
  split; [done|]. split; [|split].
  - intros E. rewrite E, string_compare_refl in Hc. symmetry in Hc.
    unfold date_compare in Hc.
    destruct d1 as [y1 m1 dd1], d2 as [y2 m2 dd2]. simpl in Hc.
    destruct (Z.compare_spec y1 y2); [|done..].
    destruct (Z.compare_spec m1 m2); [|done..].
    apply Z.compare_eq in Hc. by subst.
  - rewrite str_le_iff, Hc. split.
    + intros [H | H]; [by rewrite H|].
      rewrite H, string_compare_refl in Hc. by rewrite <- Hc.
    + intros H. destruct (date_compare d1 d2) eqn:E; [right|by left|done].
      rewrite <- Hc in E. by apply String.compare_eq_iff.
  - intros (Hy & Hm & Hd) Hy9. split.
    + apply str_lt_iff. unfold setDate_next.
      set (d' := mkLocalDate (getFullYear d1) (getMonth d1) (getDate d1 + 1)).
      pose proof (days_in_month_bounds (getFullYear d1) (getMonth d1)) as Hb.
      assert (Hv : valid_date (carry_day d') ∧ date_compare d1 (carry_day d') = Lt).
      { destruct (carry_day_cases d') as [[H E] | [(H & Hm' & E) | (H & Hm' & E)]];
          rewrite E; simpl in *.
        - split; [unfold valid_date; simpl; lia|].
          apply date_compare_Lt. simpl. lia.
        - split; [unfold valid_date; simpl; lia|].
          apply date_compare_Lt. simpl. lia.
        - split; [unfold valid_date; simpl; lia|].
          apply date_compare_Lt. simpl. lia. }
      destruct Hv as [Hv Hlt]. by rewrite (formatDateLocal_compare d1 _ Hv1 Hv).
    + apply str_le_iff. left. unfold setMonth_plus3.
      set (d' := if getMonth d1 + 3 <=? 11
                 then mkLocalDate (getFullYear d1) (getMonth d1 + 3) (getDate d1)
                 else mkLocalDate (getFullYear d1 + 1) (getMonth d1 + 3 - 12)
                                  (getDate d1)).
      assert (Hd' : (getFullYear d' = getFullYear d1 ∧ getMonth d' = getMonth d1 + 3
                     ∧ getMonth d1 + 3 <= 11 ∧ getDate d' = getDate d1)
                    ∨ (getFullYear d' = getFullYear d1 + 1
                       ∧ getMonth d' = getMonth d1 + 3 - 12
                       ∧ 11 < getMonth d1 + 3 ∧ getDate d' = getDate d1)).
      { unfold d'. destruct (Z.leb_spec (getMonth d1 + 3) 11); simpl; [left|right]; lia. }
      pose proof (days_in_month_bounds (getFullYear d') (getMonth d')) as Hb.
      pose proof (days_in_month_bounds (getFullYear d1) (getMonth d1)) as Hb1.
      assert (Hv : valid_date (carry_day d') ∧ date_compare d1 (carry_day d') = Lt).
      { destruct (carry_day_cases d') as [[H E] | [(H & Hm' & E) | (H & Hm' & E)]];
          rewrite E; clearbody d'; simpl in *.
        - split; [unfold valid_date; simpl; lia|].
          apply date_compare_Lt. simpl. lia.
        - split; [unfold valid_date; simpl; lia|].
          apply date_compare_Lt. simpl. lia.
        - split; [unfold valid_date; simpl; lia|].
          apply date_compare_Lt. simpl. lia. }
      destruct Hv as [Hv Hlt]. by rewrite (formatDateLocal_compare d1 _ Hv1 Hv).
Qed.

(** ** Prayer checks *)


Lemma find_snoc {A} (f : A → bool) (l : list A) (x : A) :
  List.find f (l ++ [x])%list
  = match List.find f l with
    | Some y => Some y
    | None => if f x then Some x else None
    end.
Proof.
  drop_env. induction l as [|y l IH]; simpl; [done|].
  by destruct (f y).
Qed.

(** The row of a pair after the upsert of [r]. *)
Lemma find_check_upsert r pc day name :
  find_check day name (upsert_check r pc)
  = if String.eqb day (check_date r) && String.eqb name (check_prayer r)
    then Some r
    else find_check day name pc.
Proof.
  drop_env. unfold upsert_check.
  destruct (find_check (check_date r) (check_prayer r) pc) as [c0|] eqn:E.
  - unfold find_check in *. rewrite find_map_same.
    + destruct (String.eqb_spec day (check_date r)) as [-> | Hd];
        [destruct (String.eqb_spec name (check_prayer r)) as [-> | Hn]|]; simpl.
      * rewrite E. simpl. apply List.find_some in E as [_ E].
        apply andb_prop in E as [E1 E2]. apply String.eqb_eq in E1, E2.
        rewrite E1, E2, !String.eqb_refl. by destruct r.
      * clear E. destruct (List.find _ pc) as [c|] eqn:F; [|done]. simpl.
        apply List.find_some in F as [_ F]. apply andb_prop in F as [_ F].
        apply String.eqb_eq in F.
        destruct (String.eqb_spec (check_prayer c) (check_prayer r)); [congruence|].
        by rewrite andb_false_r.
      * clear E. destruct (List.find _ pc) as [c|] eqn:F; [|done]. simpl.
        apply List.find_some in F as [_ F]. apply andb_prop in F as [F _].
        apply String.eqb_eq in F.
        by destruct (String.eqb_spec (check_date c) (check_date r)); [congruence|].
    + intros c. by destruct (String.eqb (check_date c) (check_date r)
                             && String.eqb (check_prayer c) (check_prayer r)).
  - unfold find_check in *. rewrite find_snoc.
    destruct (String.eqb_spec day (check_date r)) as [-> | Hd];
      [destruct (String.eqb_spec name (check_prayer r)) as [-> | Hn]|]; simpl.
    + by rewrite E, !String.eqb_refl.
    + clear E. apply String.eqb_neq in Hn. rewrite String.eqb_sym in Hn.
      rewrite Hn, andb_false_r. by destruct (List.find _ pc).
    + clear E. apply String.eqb_neq in Hd. rewrite String.eqb_sym in Hd.
      rewrite Hd. simpl. by destruct (List.find _ pc).
Qed.

Lemma upsert_check_keys r pc :
  NoDup (List.map check_key pc) → NoDup (List.map check_key (upsert_check r pc)).
Proof.
  drop_env. intros Hnd. unfold upsert_check.
  destruct (find_check (check_date r) (check_prayer r) pc) as [c0|] eqn:E.
  - rewrite List.map_map.
    erewrite List.map_ext; [exact Hnd|]. intros c. simpl.
    by destruct (String.eqb (check_date c) (check_date r)
                 && String.eqb (check_prayer c) (check_prayer r)).
  - rewrite List.map_app. simpl. apply NoDup_app. split; [done|]. split.
    + intros k Hk Hr. apply list_elem_of_In in Hk, Hr. simpl in Hr.
      destruct Hr as [<- | []].
      apply List.in_map_iff in Hk as (c & Hc & Hin).
      unfold find_check in E.
      pose proof (List.find_none _ _ E c Hin) as Hn. simpl in Hn.
      unfold check_key in Hc. injection Hc as Hd Hp.
      by rewrite Hd, Hp, !String.eqb_refl in Hn.
    + apply NoDup_singleton.
Qed.

(** X17. [POST /api/prayer-checks/toggle].  The answer is what the
    store then holds for the pair, stamped with the time of the request when
    it is 1 and with no time when it is 0; a pair never toggled before, or
    toggled after a reset of all checks, becomes checked; a second toggle
    of the same pair answers the opposite; the other pairs are untouched
    and no pair is ever stored twice. *)
Theorem toggle_prayer_check now1 now2 day name r :
  (find_check day name (prayer_checks (togglePrayerCheck now1 day name r).1)
   = Some (mkChecked day name (togglePrayerCheck now1 day name r).2
             (if (togglePrayerCheck now1 day name r).2 =? 1
              then Some (toISOString now1) else None)))
  ∧ ((togglePrayerCheck now1 day name r).2
     = match find_check day name (prayer_checks r) with
       | Some c => if checked c =? 1 then 0 else 1
       | None => 1
       end)
  ∧ (togglePrayerCheck now1 day name (resetPrayerChecks r)).2 = 1
  ∧ (togglePrayerCheck now2 day name (togglePrayerCheck now1 day name r).1).2
    = 1 - (togglePrayerCheck now1 day name r).2
  ∧ (∀ day' name', (day', name') ≠ (day, name) →
       find_check day' name' (prayer_checks (togglePrayerCheck now1 day name r).1)
       = find_check day' name' (prayer_checks r))
  ∧ (NoDup (List.map check_key (prayer_checks r)) →
     NoDup (List.map check_key (prayer_checks (togglePrayerCheck now1 day name r).1))).
Proof.
  drop_env.
  assert (H1 : ∀ now r0,
    find_check day name (prayer_checks (togglePrayerCheck now day name r0).1)
    = Some (mkChecked day name (togglePrayerCheck now day name r0).2
              (if (togglePrayerCheck now day name r0).2 =? 1
               then Some (toISOString now) else None))).
  { intros now r0. unfold togglePrayerCheck. cbn [fst snd prayer_checks set_prayer_checks].
    rewrite find_check_upsert. cbn [check_date check_prayer].
    by rewrite !String.eqb_refl. }
  split; [apply H1|]. split; [done|]. split; [done|]. split; [|split].
  - unfold togglePrayerCheck at 1. cbn [snd]. rewrite H1. cbn [checked].
    unfold togglePrayerCheck. cbn [snd].
    destruct (find_check day name (prayer_checks r)) as [c|]; [|done].
    by destruct (checked c =? 1).
  - intros day' name' Hne. unfold togglePrayerCheck.
    cbn [fst prayer_checks set_prayer_checks]. rewrite find_check_upsert.
    cbn [check_date check_prayer].
    destruct (String.eqb_spec day' day) as [-> | ?]; [|done].
    destruct (String.eqb_spec name' name) as [-> | ?]; [|done]. done.
  - intros Hnd. unfold togglePrayerCheck. cbn [fst prayer_checks set_prayer_checks].
    by apply upsert_check_keys.
Qed.

(** ** Clock-drift monitor: one jump, one rearm *)

(** X18. The ticks of the drift monitor after a jump of the clock.
    Whatever a tick that returned had found, it has recorded its time; the
    tick that comes between 5 and 15 seconds after it (the timer runs every
    10) returns, rearms nothing and changes nothing but the time kept; a
    tick that comes later or earlier than that rearms once.  So a single
    jump causes a single rearm.  (A tick that ends in an exception, see
    [driftCheck], is outside this statement.) *)
Theorem drift_rearms_once now1 now2 s :
  (driftCheck now1 s).2 = Returned →
  lastSystemTime (driftCheck now1 s).1 = getTime now1
  ∧ (5000 <= getTime now2 - getTime now1 <= 15000 →
     driftCheck now2 (driftCheck now1 s).1
     = (set_lastSystemTime (getTime now2) (driftCheck now1 s).1, Returned)
     ∧ rearm_count (driftCheck now2 (driftCheck now1 s).1).1
       = rearm_count (driftCheck now1 s).1)
  ∧ (getTime now2 - getTime now1 < 5000 ∨ 15000 < getTime now2 - getTime now1 →
     rearm_count (driftCheck now2 (driftCheck now1 s).1).1
     = S (rearm_count (driftCheck now1 s).1)).
Proof.
  intros Hret.
  destruct (driftCheck_effect now1 s) as (Ht & _). cbv zeta in Ht.
  specialize (Ht Hret).
  split; [done|].
  destruct (driftCheck_effect now2 (driftCheck now1 s).1) as (_ & Hbig & Hsmall & _).
  cbv zeta in Hbig, Hsmall. rewrite Ht in Hbig, Hsmall.
  change (10000 / 2) with 5000 in Hbig, Hsmall.
  split.
  - intros H. apply Hsmall. lia.
  - intros H. apply Hbig. lia.
Qed.

(** ** Start-up *)

Lemma insert_or_ignore_cell_spec cs c :
  (∀ x, In x cs → In x (insert_or_ignore_cell cs c))
  ∧ (∀ x, In x (insert_or_ignore_cell cs c) → In x cs ∨ x = c)
  ∧ (∃ x, In x (insert_or_ignore_cell cs c) ∧ cell_key x = cell_key c)
  ∧ (NoDup (List.map cell_key cs) →
     NoDup (List.map cell_key (insert_or_ignore_cell cs c))).
Proof.
  drop_env. unfold insert_or_ignore_cell.
  destruct (existsb (same_cell c) cs) eqn:E.
  - split; [done|]. split; [by left|]. split; [|done].
    apply List.existsb_exists in E as (x & Hx & Hs). exists x. split; [done|].
    unfold same_cell in Hs. apply andb_prop in Hs as [H1 H2].
    apply String.eqb_eq in H1. apply Z.eqb_eq in H2.
    unfold cell_key. by rewrite H1, H2.
  - split; [intros x Hx; apply List.in_app_iff; by left|].
    split; [intros x Hx; apply List.in_app_iff in Hx as [Hx | [<- | []]]; auto|].
    split; [exists c; split; [apply List.in_app_iff; right; by left|done]|].
    intros Hnd. rewrite List.map_app. simpl. apply NoDup_app.
    split; [done|]. split; [|apply NoDup_singleton].
    intros k Hk Hc. apply list_elem_of_In in Hk, Hc. simpl in Hc.
    destruct Hc as [<- | []].
    apply List.in_map_iff in Hk as (x & Hkx & Hx).
    assert (Hs : same_cell c x = true).
    { unfold same_cell. unfold cell_key in Hkx. injection Hkx as -> ->.
      by rewrite String.eqb_refl, Z.eqb_refl. }
    assert (existsb (same_cell c) cs = true)
      by (apply List.existsb_exists; by exists x).
    congruence.
Qed.

Lemma fold_insert_or_ignore_cell cells : ∀ cs,
  (∀ x, In x cs → In x (fold_left insert_or_ignore_cell cells cs))
  ∧ (∀ x, In x (fold_left insert_or_ignore_cell cells cs) → In x cs ∨ In x cells)
  ∧ (∀ c, In c cells →
       ∃ x, In x (fold_left insert_or_ignore_cell cells cs) ∧ cell_key x = cell_key c)
  ∧ (NoDup (List.map cell_key cs) →
     NoDup (List.map cell_key (fold_left insert_or_ignore_cell cells cs))).
Proof.
  drop_env. induction cells as [|c cells IH]; intros cs; simpl.
  - split; [done|]. split; [by left|]. split; [by intros c []|done].
  - destruct (insert_or_ignore_cell_spec cs c) as (H1 & H2 & H3 & H4).
    destruct (IH (insert_or_ignore_cell cs c)) as (I1 & I2 & I3 & I4).
    split; [auto|]. split; [|split; [|auto]].
    + intros x Hx. apply I2 in Hx as [Hx | Hx]; [|by right; right].
      apply H2 in Hx as [Hx | ->]; [by left|by right; left].
    + intros c' [<- | Hc]; [|by apply I3].
      destruct H3 as (x & Hx & Hk). exists x. split; [by apply I1|done].
Qed.

Lemma fold_insert_or_ignore_setting defaults : ∀ m,
  (∀ k v, m !! k = Some v →
     fold_left insert_or_ignore_setting defaults m !! k = Some v)
  ∧ (∀ k v, In (k, v) defaults →
       is_Some (fold_left insert_or_ignore_setting defaults m !! k)).
Proof.
  drop_env. induction defaults as [|[k0 v0] defaults IH]; intros m; simpl.
  - split; [done|]. by intros k v [].
  - destruct (IH (insert_or_ignore_setting m (k0, v0))) as [I1 I2].
    assert (Hkeep : ∀ k v, m !! k = Some v →
              insert_or_ignore_setting m (k0, v0) !! k = Some v).
    { intros k v Hk. unfold insert_or_ignore_setting. simpl.
      destruct (m !! k0) eqn:E; [done|].
      rewrite lookup_insert_ne; [done|]. intros ->. congruence. }
    split; [intros k v Hk; by apply I1, Hkeep|].
    intros k v [[= -> ->] | Hin]; [|by eapply I2].
    assert (is_Some (insert_or_ignore_setting m (k, v) !! k)) as [v' Hv'].
    { unfold insert_or_ignore_setting. simpl.
      destruct (m !! k) eqn:E; [by rewrite E|]. by rewrite lookup_insert_eq. }
    rewrite (I1 k v' Hv'). done.
Qed.

Lemma initTables_eq d :
  prayer_schedule (initTables d)
  = fold_left insert_or_ignore_cell initPrayerSchedule (prayer_schedule d)
  ∧ skip_next (initTables d)
    = match skip_next d with
      | Some row => Some row
      | None => Some (mkSkipNext 0 None None)
      end
  ∧ prayers (initTables d) = prayers d
  ∧ muted_weekdays (initTables d)
    = List.map (fun day => if muted day =? 1 then mkMuted (weekday day) 0 else day)
        (fold_left insert_or_ignore_weekday initMutedWeekdays (muted_weekdays d))
  ∧ settings (initTables d)
    = let st := fold_left insert_or_ignore_setting defaultSettings (settings d) in
      match st !! "ics_url" with
      | Some value =>
          if String.eqb value "" || String.eqb (JS.trim value) ""
          then <["ics_url" := defaultIcsUrl]> st
          else st
      | None => <["ics_url" := defaultIcsUrl]> st
      end.
Proof. drop_env. unfold initTables. cbn [prayer_schedule skip_next prayers muted_weekdays settings]. done. Qed.

Lemma startServer_eq d r t :
  startServer d r t
  = ((scheduleFridayQuran (mkServer (initTables d) [] [] 0 None t [])).1,
     mkRest (prayer_checks r)
            (match friday_quran_trigger r with
             | Some row => Some row
             | None => Some (mkTrigger 0 None None)
             end)
            None).
Proof. reflexivity. Qed.

(** X19. Start-up.  On any store that meets the constraints its tables
    were created with, the initialisation leaves a store with unique keys,
    the 35 cells of the matrix and the row of the one-shot mute, so that the
    process starts in a state of the server (nothing armed); every cell,
    every setting other than a blank [ics_url], the calendar and the row of
    the one-shot mute are kept as found, so a mute set before a restart is
    still set after it; a missing cell is created enabled, a missing
    setting gets its default; and no weekday mute is left at 1. *)
Theorem startup_establishes_invariants d r t :
  prayers_unique (prayers d) →
  NoDup (List.map cell_key (prayer_schedule d)) →
  (∀ c, In c (prayer_schedule d) → 0 <= day_of_week c <= 6) →
  store_ok (initTables d)
  ∧ reachable (startServer d r t).1
  ∧ timers (startServer d r t).1 = []
  ∧ (∀ c, In c (prayer_schedule d) → In c (prayer_schedule (initTables d)))
  ∧ (∀ p day, In p prayerNames → 0 <= day <= 6 →
       Sql.schedule_entry d p day = None →
       Sql.schedule_entry (initTables d) p day = Some (mkCell p day 1))
  ∧ (∀ k v, settings d !! k = Some v → k ≠ "ics_url" →
       settings (initTables d) !! k = Some v)
  ∧ (∀ k v, In (k, v) defaultSettings → is_Some (settings (initTables d) !! k))
  ∧ (∀ row, In row (muted_weekdays (initTables d)) → muted row ≠ 1)
  ∧ (∀ row, skip_next d = Some row → skip_next (initTables d) = Some row)
  ∧ prayers (initTables d) = prayers d.
Proof.
  intros Hu Hnd Hday.
  destruct (initTables_eq d) as (Ecells & Eskip & Eprayers & Emuted & Eset).
  rewrite startServer_eq.
  revert Ecells Eskip Eprayers Emuted Eset.
  generalize (initTables d). intros d' Ecells Eskip Eprayers Emuted Eset.
  cbn [fst].
  destruct (fold_insert_or_ignore_cell initPrayerSchedule (prayer_schedule d))
    as (C1 & C2 & C3 & C4).
  rewrite <- Ecells in C1, C2, C3, C4.
  destruct (fold_insert_or_ignore_setting defaultSettings (settings d)) as [S1 S2].
  cbv zeta in Eset.
  revert Eset S1 S2.
  generalize (fold_left insert_or_ignore_setting defaultSettings (settings d)).
  intros st Eset S1 S2.
  assert (Hinit : schedule_wf initPrayerSchedule)
    by (apply schedule_wf_b_sound; vm_compute; reflexivity).
  assert (Hone : ∀ c, In c initPrayerSchedule → enabled c = 1).
  { assert (T : forallb (fun c => enabled c =? 1) initPrayerSchedule = true)
      by (vm_compute; reflexivity).
    rewrite forallb_forall in T. intros c Hc. by apply Z.eqb_eq, T. }
  destruct Hinit as (_ & Iday & Iall).
  clear Ecells. revert C1 C2 C3 C4 Hone Iday Iall.
  generalize initPrayerSchedule. intros cells C1 C2 C3 C4 Hone Iday Iall.
  assert (Hwf : schedule_wf (prayer_schedule d')).
  { split; [by apply C4|]. split.
    - intros c Hc. apply C2 in Hc as [Hc | Hc]; auto.
    - intros p day Hp Hd. destruct (Iall p day Hp Hd) as (c & Hc & Hcp & Hcd).
      destruct (C3 c Hc) as (x & Hx & Hk). exists x. split; [done|].
      unfold cell_key in Hk. injection Hk as -> ->. done. }
  assert (Hok : store_ok d').
  { split; [by rewrite Eprayers|]. split; [done|]. rewrite Eskip.
    by destruct (skip_next d). }
  split; [done|]. split.
  { apply reach_friday, reach_start, Hok. }
  split.
  { by destruct (scheduleFridayQuran_frame
                   (mkServer d' [] [] 0 None t [])) as (_ & _ & -> & _). }
  split; [exact C1|]. split.
  { intros p day Hp Hd Hnone.
    destruct (Iall p day Hp Hd) as (c & Hc & Hcp & Hcd).
    destruct (C3 c Hc) as (x & Hx & Hk).
    apply C2 in Hx as Hx'. destruct Hx' as [Hx' | Hx'].
    - unfold Sql.schedule_entry in Hnone.
      pose proof (List.find_none _ _ Hnone x Hx') as Hn. simpl in Hn.
      unfold cell_key in Hk. injection Hk as Hk1 Hk2.
      by rewrite Hk1, Hk2, Hcp, Hcd, String.eqb_refl, Z.eqb_refl in Hn.
    - unfold cell_key in Hk. injection Hk as Hk1 Hk2.
      assert (Ex : x = mkCell p day 1).
      { pose proof (Hone _ Hx') as He. destruct x as [xp xd xe]. simpl in *.
        congruence. }
      rewrite <- Ex.
      replace p with (cell_prayer x) by (by rewrite Ex).
      replace day with (day_of_week x) by (by rewrite Ex).
      apply schedule_entry_of_cell; [by apply C4|done]. }
  assert (Hset : ∀ k, k ≠ "ics_url" → settings d' !! k = st !! k).
  { intros k Hk. rewrite Eset.
    destruct (st !! "ics_url") as [value|];
      [destruct (String.eqb value "" || String.eqb (JS.trim value) "")|];
      rewrite ?lookup_insert_ne by done; done. }
  split.
  { intros k v Hk Hne. rewrite Hset by done. by apply S1. }
  split.
  { intros k v Hin. destruct (decide (k = "ics_url")) as [-> | Hne].
    - rewrite Eset.
      destruct (st !! "ics_url") as [value|] eqn:E;
        [destruct (String.eqb value "" || String.eqb (JS.trim value) "")|];
        rewrite ?lookup_insert_eq, ?E; done.
    - rewrite Hset by done. by eapply S2. }
  split.
  { intros row Hrow. rewrite Emuted in Hrow.
    apply List.in_map_iff in Hrow as (x & <- & _).
    destruct (Z.eqb_spec (muted x) 1); [done|done]. }
  split; [|done].
  intros row Hrow. rewrite Eskip. by rewrite Hrow.
Qed.


(** ** Restoring the defaults *)

Lemma fold_insert_or_replace_setting l : ∀ m k,
  NoDup (List.map fst l) →
  fold_left insert_or_replace_setting l m !! k
  = match List.find (fun kv => String.eqb kv.1 k) l with
    | Some kv => Some kv.2
    | None => m !! k
    end.
Proof.
  drop_env. induction l as [|[k0 v0] l IH]; intros m k Hnd; [done|].
  simpl in Hnd. apply NoDup_cons in Hnd as [Hk0 Hnd].
  cbn [fold_left List.find fst]. rewrite IH by done.
  unfold insert_or_replace_setting. cbn [fst snd].
  destruct (String.eqb_spec k0 k) as [-> | Hne].
  - destruct (List.find _ l) as [kv|] eqn:F; [|by rewrite lookup_insert_eq].
    apply List.find_some in F as [Hin F]. apply String.eqb_eq in F.
    destruct Hk0. apply list_elem_of_In, List.in_map_iff. by exists kv.
  - destruct (List.find _ l); [done|]. by rewrite lookup_insert_ne.
Qed.

Lemma find_key_In {V} (l : list (string * V)) k v :
  NoDup (List.map fst l) → In (k, v) l →
  List.find (fun kv => String.eqb kv.1 k) l = Some (k, v).
Proof.
  drop_env. induction l as [|[k0 v0] l IH]; intros Hnd Hin; [done|].
  simpl in Hnd. apply NoDup_cons in Hnd as [Hk0 Hnd]. simpl.
  destruct Hin as [[= -> ->] | Hin]; [by rewrite String.eqb_refl|].
  destruct (String.eqb_spec k0 k) as [-> | Hne]; [|by apply IH].
  destruct Hk0. apply list_elem_of_In, List.in_map_iff. by exists (k, v).
Qed.

Lemma defaultSettings_keys : NoDup (List.map fst defaultSettings).
Proof. drop_env. apply (bool_decide_unpack _). vm_compute. reflexivity. Qed.

Lemma insert_weekday_In r rows x :
  In x (insert_weekday r rows) ↔ x = r ∨ In x rows.
Proof.
  drop_env. induction rows as [|y rows IH]; simpl.
  - split; [intros [<- | []]; by left | intros [-> | []]; by left].
  - destruct (weekday r <? weekday y); simpl.
    + split; [intros [<- | H]; [by left | by right] | intros [-> | H]; [by left | by right]].
    + rewrite IH. split.
      * intros [<- | [-> | H]]; [right; by left | by left | right; by right].
      * intros [-> | [<- | H]]; [right; by left | by left | right; by right].
Qed.

Lemma fold_insert_or_replace_weekday ws : ∀ rows x,
  In x (fold_left insert_or_replace_weekday (List.map (fun day => mkMuted day 0) ws) rows) →
  (muted x = 0 ∧ In (weekday x) ws) ∨ (In x rows ∧ ¬ In (weekday x) ws).
Proof.
  drop_env. induction ws as [|w ws IH]; intros rows x Hx;
    [right; split; [exact Hx | by intros []]|].
  simpl in Hx. apply IH in Hx as [[H0 Hw] | [Hx Hw]]; [left; split; [done|by right]|].
  unfold insert_or_replace_weekday in Hx. apply insert_weekday_In in Hx as [-> | Hx].
  - left. split; [done|]. simpl. by left.
  - apply List.filter_In in Hx as [Hx Hne]. simpl in Hne.
    right. split; [done|]. intros [E | Hin]; [|done].
    by rewrite E, Z.eqb_refl in Hne.
Qed.

Lemma restoreDefaults_db s r :
  settings (db (restoreDefaults s r).1)
  = fold_left insert_or_replace_setting defaultSettings (settings (db s))
  ∧ prayer_schedule (db (restoreDefaults s r).1)
    = List.map (fun c => mkCell (cell_prayer c) (day_of_week c) 1)
               (prayer_schedule (db s))
  ∧ skip_next (db (restoreDefaults s r).1)
    = match skip_next (db s) with
      | Some _ => Some (mkSkipNext 0 None None)
      | None => None
      end
  ∧ muted_weekdays (db (restoreDefaults s r).1)
    = fold_left insert_or_replace_weekday initMutedWeekdays (muted_weekdays (db s))
  ∧ prayers (db (restoreDefaults s r).1) = prayers (db s)
  ∧ timers (restoreDefaults s r).1 = timers s
  ∧ scheduledJobs (restoreDefaults s r).1 = scheduledJobs s
  ∧ next_job_id (restoreDefaults s r).1 = next_job_id s.
Proof.
  unfold restoreDefaults. cbn [fst].
  match goal with
  | |- context [scheduleFridayQuran ?s0] =>
      destruct (scheduleFridayQuran_frame s0) as (-> & -> & -> & -> & _)
  end.
  cbn [db set_db settings prayer_schedule skip_next muted_weekdays prayers
       timers scheduledJobs next_job_id]. done.
Qed.

(** [scheduleFridayQuran], as [restore-defaults] calls it, returns: the
    recitation has just been disabled. *)
Lemma restoreDefaults_returns s d :
  settings d = fold_left insert_or_replace_setting defaultSettings (settings (db s)) →
  (scheduleFridayQuran (set_db d s)).2 = Returned.
Proof.
  intros Hd. destruct (scheduleFridayQuran_job (set_db d s)) as [_ He].
  cbv zeta in He. rewrite He.
  assert (E : Sql.setting (db (set_db d s)) "friday_quran_enabled" = Some "0").
  { unfold Sql.setting. cbn [db set_db]. rewrite Hd.
    rewrite fold_insert_or_replace_setting by apply defaultSettings_keys.
    reflexivity. }
  by rewrite E.
Qed.

(** X20. [POST /api/settings/restore-defaults].  Each of the thirteen
    default settings holds its default and the other settings are as they
    were; every cell of the matrix is enabled, so every simple view
    reports 1; the one-shot mute is idle with no last-consumed record; no
    weekday is muted; no prayer is checked; no Friday job is scheduled; the
    calendar and the armed timers are as they were.  From then on a firing
    of a main prayer plays Masjid Al-Haram.mp3 at 50 percent on the server
    when the file is there, and changes nothing. *)
Theorem restore_defaults_state now s r :
  (∀ k v, In (k, v) defaultSettings →
     Sql.setting (db (restoreDefaults s r).1) k = Some v)
  ∧ (∀ k, (∀ v, ¬ In (k, v) defaultSettings) →
       Sql.setting (db (restoreDefaults s r).1) k = Sql.setting (db s) k)
  ∧ (∀ c, In c (prayer_schedule (db (restoreDefaults s r).1)) → enabled c = 1)
  ∧ List.map cell_key (prayer_schedule (db (restoreDefaults s r).1))
    = List.map cell_key (prayer_schedule (db s))
  ∧ (∀ p, prayerSettingEnabled p (restoreDefaults s r).1 = 1)
  ∧ getSkipNext (restoreDefaults s r).1 = false
  ∧ (∀ name day, ¬ last_consumed (restoreDefaults s r).1 name day)
  ∧ (∀ row, In row (muted_weekdays (db (restoreDefaults s r).1)) →
       0 <= weekday row <= 6 → muted row = 0)
  ∧ prayer_checks (restoreDefaults s r).2 = []
  ∧ fridayQuranJob (restoreDefaults s r).1 = None
  ∧ prayers (db (restoreDefaults s r).1) = prayers (db s)
  ∧ timers (restoreDefaults s r).1 = timers s
  ∧ (∀ p, In p prayerNames →
       playAthan now p (restoreDefaults s r).1
       = ((restoreDefaults s r).1,
          if existsSync "Masjid Al-Haram.mp3"
          then Played "Masjid Al-Haram.mp3" (Some 50) false
          else AudioFileNotFound "Masjid Al-Haram.mp3")).
Proof.
  destruct (restoreDefaults_db s r) as (Eset & Ecells & Eskip & Emuted & Eprayers
                                        & Etimers & _).
  assert (Hdef : ∀ k v, In (k, v) defaultSettings →
            Sql.setting (db (restoreDefaults s r).1) k = Some v).
  { intros k v Hin. unfold Sql.setting.
    rewrite Eset, fold_insert_or_replace_setting by apply defaultSettings_keys.
    by rewrite (find_key_In _ k v defaultSettings_keys Hin). }
  assert (Hone : ∀ c, In c (prayer_schedule (db (restoreDefaults s r).1)) →
            enabled c = 1).
  { intros c Hc. rewrite Ecells in Hc. by apply List.in_map_iff in Hc as (c0 & <- & _). }
  assert (Hflag : getSkipNext (restoreDefaults s r).1 = false).
  { unfold getSkipNext. rewrite Eskip. by destruct (skip_next (db s)). }
  assert (Hoff : ∀ p day, cell_off (db (restoreDefaults s r).1) p day = false).
  { intros p day. unfold cell_off.
    destruct (Sql.schedule_entry _ p day) as [c|] eqn:E; [|done].
    apply schedule_entry_Some in E as (Hc & _). by rewrite (Hone c Hc). }
  assert (Hjob : fridayQuranJob (restoreDefaults s r).1 = None).
  { unfold restoreDefaults. cbn [fst].
    match goal with
    | |- context [scheduleFridayQuran ?s0] =>
        destruct (scheduleFridayQuran_job s0) as [Hj _]; cbv zeta in Hj;
        rewrite Hj;
        assert (E : Sql.setting (db s0) "friday_quran_enabled" = Some "0")
    end.
    { unfold Sql.setting. cbn [db set_db settings].
      rewrite fold_insert_or_replace_setting by apply defaultSettings_keys.
      reflexivity. }
    by rewrite E. }
  assert (Hpc : prayer_checks (restoreDefaults s r).2 = [])
    by (unfold restoreDefaults; reflexivity).
  generalize dependent (restoreDefaults s r). intros [s' r'].
  cbn [fst snd]. intros.
  split; [done|]. split.
  { intros k Hk. unfold Sql.setting.
    rewrite Eset, fold_insert_or_replace_setting by apply defaultSettings_keys.
    destruct (List.find _ defaultSettings) as [[k' v']|] eqn:F; [|done].
    apply List.find_some in F as [Hin F]. apply String.eqb_eq in F. simpl in F.
    subst k'. by destruct (Hk v'). }
  split; [done|]. split.
  { rewrite Ecells, List.map_map. by apply List.map_ext. }
  split.
  { intros p. unfold prayerSettingEnabled.
    replace (Sql.disabled_count (db s') p) with 0; [done|].
    symmetry. apply disabled_count_0. intros c Hc _. by rewrite (Hone c Hc). }
  split; [done|]. split.
  { intros name day (row & Hrow & Hp & _). rewrite Eskip in Hrow.
    destruct (skip_next (db s)); [|done]. injection Hrow as <-. done. }
  split.
  { intros row Hrow Hw. rewrite Emuted in Hrow.
    apply (fold_insert_or_replace_weekday [0; 1; 2; 3; 4; 5; 6]) in Hrow
      as [[H0 _] | [_ Hn]]; [done|].
    destruct Hn. simpl.
    assert (weekday row = 0 ∨ weekday row = 1 ∨ weekday row = 2 ∨ weekday row = 3
            ∨ weekday row = 4 ∨ weekday row = 5 ∨ weekday row = 6) as Hc by lia.
    clear -Hc.
    destruct Hc as [-> | [-> | [-> | [-> | [-> | [-> | ->]]]]]]; auto 10. }
  split; [done|]. split; [done|]. split; [done|]. split; [done|].
  intros p Hp.
  pose proof (Hdef "audio_output" "both" ltac:(cbn; auto 20)) as A1.
  pose proof (Hdef "audio_file" "Masjid Al-Haram.mp3" ltac:(cbn; auto 20)) as A2.
  pose proof (Hdef "volume" "50" ltac:(cbn; auto 20)) as A3.
  pose proof (Hdef "sync_fajr_volume" "0" ltac:(cbn; auto 20)) as A4.
  specialize (Hoff p (dayIndexOf now)). unfold cell_off, dayIndexOf in Hoff.
  unfold getSkipNext in Hflag.
  unfold playAthan. rewrite (main_not_special p Hp). cbn [negb]. cbv zeta.
  rewrite Hoff, A1, A2, A3, A4. cbn [default].
  change (String.eqb "both" "browser") with false.
  change (String.eqb "0" "1") with false.
  change (JS.parseInt "50") with (Some 50). cbv iota.
  assert (Htest : String.eqb p "Test" = false).
  { apply String.eqb_neq. intros E.
    pose proof (main_not_special _ Hp) as H. rewrite E in H. done. }
  rewrite Htest.
  destruct (skip_next (db s')) as [row|]; [rewrite Hflag|];
    destruct (String.eqb p "Fajr"); by destruct (existsSync _).
Qed.

(** ** Export and import of the configuration *)

(** *** Texts *)















(** *** The text of an export and its lines *)










(** *** What an import makes of each kind of line *)








(** *** The lines of each table, one after the other *)





(** *** Looking a row up after the import *)












(** *** An export read back *)






(** *** The configuration endpoints and the constraints of the store *)









End Core.

(** * The sample deployment *)

Lemma init_schedule_wf : schedule_wf initPrayerSchedule.
Proof. apply schedule_wf_b_sound. vm_compute. reflexivity. Qed.


Lemma sample_calendar_unique : prayers_unique sample_calendar.
Proof. apply (bool_decide_unpack _). vm_compute. reflexivity. Qed.

(** The scenario of the specification: at 06:00 the next prayer is Fajr
    06:30, at 07:00 Dhuhr 12:45, at 23:00 tomorrow's Fajr. *)
Example nextUpcoming_scenario :
  nextUpcoming (clock 6 0) (sample_server idle) = Some fajr
  ∧ nextUpcoming (clock 7 0) (sample_server idle) = Some dhuhr
  ∧ nextUpcoming (clock 23 0) (sample_server idle) = Some fajr_tomorrow.
Proof. vm_compute. auto. Qed.

(** The poll around Fajr 06:30: closed at 06:29, open at 06:30 and 06:31,
    closed at 06:32. *)
Example check_window_scenario :
  shouldPlay (checkAthanTime (clock 6 29) (sample_server idle)) = false
  ∧ checkAthanTime (clock 6 30) (sample_server idle)
    = mkCheck true (Some "Fajr") (Some "Masjid Al-Haram.mp3")
  ∧ checkAthanTime (clock 6 31) (sample_server idle)
    = mkCheck true (Some "Fajr") (Some "Masjid Al-Haram.mp3")
  ∧ shouldPlay (checkAthanTime (clock 6 32) (sample_server idle)) = false.
Proof. vm_compute. auto. Qed.

(** A refresh that succeeds replaces the rows from today on. *)
Example refresh_success :
  let r := fetchPrayerTimes utc_parseDateTime sample_city sample_next_update
             (clock 6 0) (Fetched [mkEvent "VEVENT" "Fajr" (clock 5 0)])
             (sample_server idle) in
  r.2 = true ∧ prayers (db r.1) = [mkPrayer "2025-01-06" "Fajr" "05:00"].
Proof. vm_compute. auto. Qed.

(** ** The theorems at the sample deployment *)

(** C1, the claim as written fails: Fajr 06:30 is in its window at 06:30,
    the audio output is [both], the flag is clear and the last-consumed
    record is (Fajr, today): [playAthan] passes its checks, the poll
    denies. *)
Lemma gate_paths_disagree :
  windowPrayer (clock 6 30) (sample_server consumed_fajr) = Some fajr
  ∧ Sql.setting (db (sample_server consumed_fajr)) "audio_output" = Some "both"
  ∧ allowed (playAthan all_files_exist (clock 6 30) "Fajr"
               (sample_server consumed_fajr)).2 = true
  ∧ shouldPlay (checkAthanTime (clock 6 30) (sample_server consumed_fajr)) = false.
Proof. vm_compute. auto. Qed.

(** The audio output alone also separates the two answers: with
    [audio_output = server] the poll says no whatever the gate would say. *)
Example server_only_poll_denies :
  let s := set_db (mkDb sample_calendar (<["audio_output" := "server"]> initSettings)
                        (Some idle) initPrayerSchedule initMutedWeekdays None)
                  (sample_server idle) in
  allowed (playAthan all_files_exist (clock 6 30) "Fajr" s).2 = true
  ∧ shouldPlay (checkAthanTime (clock 6 30) s) = false.
Proof. vm_compute. auto. Qed.

Lemma gate_paths_agree_witness :
  allowed (playAthan all_files_exist (clock 6 30) "Fajr" (sample_server idle)).2
  = shouldPlay (checkAthanTime (clock 6 30) (sample_server idle)).
Proof.
  refine (proj1 (gate_paths_agree all_files_exist (clock 6 30)
                   (sample_server idle) fajr _ _) _).
  - vm_compute. discriminate.
  - vm_compute. reflexivity.
  - intros (row & Hrow & Hp & _). vm_compute in Hrow.
    injection Hrow as <-. discriminate.
Defined.


(** The date [playAthan] records is the UTC date, the date the poll
    compares it with is the local one: five hours west of UTC, Isha 19:15
    is consumed under tomorrow's date and the next poll in the window is
    told to play. *)
Example consumed_date_is_utc :
  let s := sample_server muted_next in
  isoDate (clock_west 19 15) = "2025-01-07"
  ∧ today (clock_west 19 15) = "2025-01-06"
  ∧ (run all_files_exist "Isha"
       [Fire (clock_west 19 15); Poll (clock_west 19 15)] s).2
    = [mkResult false true; mkResult true false].
Proof. vm_compute. auto. Qed.


(** C3, the claim as written fails: at 06:31:30, ninety seconds after
    the instant of Fajr 06:30, the poll still answers [shouldPlay: true] for
    Fajr.  The handler compares the current HH:MM with the prayer's HH:MM,
    so the seconds of the current time are dropped and the window stays
    open until the minute after the next begins. *)
Lemma window_open_after_one_minute :
  fire_instant utc_parseDateTime fajr = Some 1736145000000
  ∧ getTime (clock_sec 6 31 30) - 1736145000000 = 90000
  ∧ checkAthanTime (clock_sec 6 31 30) (sample_server idle)
    = mkCheck true (Some "Fajr") (Some "Masjid Al-Haram.mp3")
  ∧ shouldPlay (checkAthanTime (clock_sec 6 32 0) (sample_server idle)) = false.
Proof. vm_compute. auto. Qed.

Lemma fire_window_witness :
  (∃ r c p, main_on (db (sample_server idle)) (today (clock 6 31)) r
            ∧ prayer_name r = "Fajr"
            ∧ minutesOf (timeHHMM (clock 6 31)) = Some c
            ∧ minutesOf (prayer_time r) = Some p
            ∧ 0 <= c - p <= 1)
  ∧ ¬ (shouldPlay (checkAthanTime (clock 6 32) (sample_server idle)) = true
       ∧ answer_prayerName (checkAthanTime (clock 6 32) (sample_server idle))
         = Some (prayer_name fajr)).
Proof.
  split.
  - refine (proj1 (fire_window (clock 6 31) (sample_server idle)) "Fajr" _ _);
      vm_compute; reflexivity.
  - refine (proj1 (proj2 (proj2 (fire_window (clock 6 32) (sample_server idle))))
              sample_calendar_unique fajr 392 390 _ _ _ _).
    + split; [simpl; auto|]. split; [vm_compute; reflexivity|simpl; auto].
    + vm_compute. reflexivity.
    + vm_compute. reflexivity.
    + right. lia.
Defined.

Lemma nextUpcoming_spec_witness :
  ∃ r, nextUpcoming (clock 6 0) (sample_server idle) = Some r
       ∧ earliest (upcoming_today (clock 6 0) (db (sample_server idle))) r.
Proof.
  refine (proj1 (nextUpcoming_spec (clock 6 0) (sample_server idle)) _).
  exists fajr. split.
  - split; [simpl; auto|]. split; [vm_compute; reflexivity|simpl; auto].
  - vm_compute. reflexivity.
Defined.

Lemma simple_view_all_seven_witness :
  prayerSettingEnabled "Dhuhr"
    (postPrayerSchedule "Dhuhr" 2 false (sample_server idle)).1 = 0
  ∧ prayerSettingEnabled "Dhuhr"
      (postPrayerSchedule "Dhuhr" 2 true
         (postPrayerSchedule "Dhuhr" 2 false (sample_server idle)).1).1 = 1.
Proof.
  destruct (simple_view_all_seven "Dhuhr" (sample_server idle))
    as (Hall & _ & _ & Hcell).
  - simpl. auto.
  - apply init_schedule_wf.
  - destruct (Hcell 2) as [Hoff Hon]; [lia|].
    split; [exact Hoff|].
    apply Hon. intros day' Hd _. apply Hall; [|exact Hd].
    vm_compute. reflexivity.
Defined.


Lemma rearm_exactly_future_witness :
  In isha (List.map job_prayer (timers
       (scheduleAthanCalls utc_parseDateTime (clock 13 0) (sample_server idle))))
  ∧ ¬ In fajr (List.map job_prayer (timers
       (scheduleAthanCalls utc_parseDateTime (clock 13 0) (sample_server idle))))
  ∧ firing_schedule
      (scheduleAthanCalls utc_parseDateTime (clock 13 0)
         (scheduleAthanCalls utc_parseDateTime (clock 13 0) (sample_server idle)))
    = firing_schedule
        (scheduleAthanCalls utc_parseDateTime (clock 13 0) (sample_server idle)).
Proof.
  pose proof (rearm_exactly_future utc_parseDateTime (clock 13 0) (sample_server idle)) as H.
  cbv zeta in H.
  destruct H as (Hiff & _ & _ & _ & _ & _ & _ & Hidem).
  - intros j Hj. exact Hj.
  - exact sample_calendar_unique.
  - split; [|split; [|exact Hidem]].
    + apply (proj2 (Hiff isha)). split; [simpl; auto 10|].
      split; [left; vm_compute; reflexivity|].
      split; [simpl; auto 10|].
      exists 1736190900000. split; [vm_compute; reflexivity|vm_compute; reflexivity].
    + intros Hin. apply (proj1 (Hiff fajr)) in Hin as (_ & _ & _ & t & Ht & Hlt).
      assert (E : fire_instant utc_parseDateTime fajr = Some 1736145000000)
        by (vm_compute; reflexivity).
      assert (G : getTime (clock 13 0) = 1736168400000) by (vm_compute; reflexivity).
      rewrite E in Ht. injection Ht as <-. rewrite G in Hlt. lia.
Defined.

(** The scenario of the specification: the clock jumps two hours between
    two samples; the monitor rearms, and the armed timers are those of the
    new time. *)
Lemma drift_triggers_rearm_witness :
  rearm_count
    (driftCheck utc_parseDateTime node_cron (clock 2 0) (sample_server idle)).1
  = 1%nat
  ∧ timers (driftCheck utc_parseDateTime node_cron (clock 2 0) (sample_server idle)).1
    = timers (scheduleAthanCalls utc_parseDateTime (clock 2 0) (sample_server idle))
  ∧ lastSystemTime
      (driftCheck utc_parseDateTime node_cron (clock 2 0) (sample_server idle)).1
    = getTime (clock 2 0).
Proof.
  pose proof (drift_triggers_rearm utc_parseDateTime node_cron (clock 2 0)
                (sample_server idle)) as H.
  cbv zeta in H. destruct H as (Hlast & Hdrift & _).
  destruct Hdrift as (Ht & _ & _ & _ & Hc).
  - vm_compute. reflexivity.
  - split; [exact Hc|]. split; [exact Ht|]. apply Hlast. vm_compute. reflexivity.
Defined.

(** A tick that finds a drift while the Friday recitation is enabled at a
    time that is no time of day: the sweep has run, the exception of
    [cron.schedule] ends the tick, and the time kept is the old one. *)
Example drift_tick_throws :
  (driftCheck utc_parseDateTime node_cron (clock 2 0) bad_time_server).2 = Threw
  ∧ rearm_count
      (driftCheck utc_parseDateTime node_cron (clock 2 0) bad_time_server).1 = 1%nat
  ∧ lastSystemTime
      (driftCheck utc_parseDateTime node_cron (clock 2 0) bad_time_server).1
    = lastSystemTime bad_time_server.
Proof. vm_compute. auto. Qed.

(** ** The further properties at the sample deployment *)

Lemma no_jumuah_cell c :
  In c (prayer_schedule (db (sample_server idle))) → cell_prayer c ≠ "Jumuah".
Proof.
  intros Hc. simpl in Hc.
  repeat (destruct Hc as [<-|Hc]; [discriminate|]). destruct Hc.
Qed.

Lemma sample_calendar_well_timed r : In r sample_calendar → well_timed r.
Proof.
  intros Hr. simpl in Hr.
  repeat (destruct Hr as [<-|Hr];
    [match goal with
     | |- well_timed ?r =>
         let h := eval vm_compute in
                    (default 0 (JS.parseInt (substring 0 2 (prayer_time r)))) in
         let m := eval vm_compute in
                    (default 0 (JS.parseInt (substring 3 2 (prayer_time r)))) in
         exists h, m; split; [lia|split; [lia|reflexivity]]
     end|]).
  destruct Hr.
Qed.

Lemma prayer_settings_write_read_witness :
  prayerSettingEnabled "Dhuhr" (postPrayerSettings "Dhuhr" false (sample_server idle)) = 0.
Proof.
  refine (proj1 (prayer_settings_write_read "Dhuhr" false (sample_server idle) _ _)).
  - simpl. auto.
  - apply init_schedule_wf.
Defined.

Lemma prayer_settings_unknown_name_witness :
  postPrayerSettings "Jumuah" false (sample_server idle) = sample_server idle.
Proof.
  refine (proj1 (prayer_settings_unknown_name "Jumuah" false (sample_server idle) _)).
  apply no_jumuah_cell.
Defined.

Lemma bulk_day_column_witness :
  (postPrayerScheduleBulk (Some "day") (Some (JNumber 4)) (Some false)
     (sample_server idle)).2 = 200
  ∧ ∀ p, In p prayerNames →
      prayerSettingEnabled p
        (postPrayerScheduleBulk (Some "day") (Some (JNumber 4)) (Some false)
           (sample_server idle)).1 = 0.
Proof.
  destruct (bulk_day_column all_files_exist 4 false (sample_server idle))
    as (H200 & _ & _ & _ & Hoff).
  - lia.
  - apply init_schedule_wf.
  - split; [exact H200|]. exact (proj2 (Hoff eq_refl)).
Defined.

Lemma disabled_cell_denies_witness :
  playAthan all_files_exist (clock 12 45) "Dhuhr"
    (postPrayerSchedule "Dhuhr" 0 false (sample_server idle)).1
  = ((postPrayerSchedule "Dhuhr" 0 false (sample_server idle)).1, DeniedSchedule).
Proof.
  refine (proj1 (proj1 (disabled_cell_denies all_files_exist "Dhuhr" 0 (clock 12 45)
                          (sample_server idle) _ _ _ _) _)).
  - simpl. auto.
  - lia.
  - apply init_schedule_wf.
  - simpl. lia.
  - reflexivity.
Defined.

Lemma general_mute_blocks_skip_next_witness :
  postSkipNext (clock 6 0) (postPrayerSettings "Fajr" false (sample_server idle))
  = (postPrayerSettings "Fajr" false (sample_server idle),
     mkMuteAnswer 400 false "Fajr is already muted in general settings")
  ∧ getSkipNext
      (postSkipNext (clock 6 0) (postPrayerSettings "Fajr" true (sample_server idle))).1
    = true.
Proof.
  destruct (general_mute_blocks_skip_next (clock 6 0) (sample_server idle) idle fajr)
    as ((_ & Hoff & _) & (_ & _ & Hon & _)).
  - apply init_schedule_wf.
  - reflexivity.
  - vm_compute. reflexivity.
  - split; [exact Hoff|exact Hon].
Defined.

Lemma one_shot_skips_first_gated_witness :
  List.filter is_skip
    (fire_all all_files_exist
       [(clock 6 29, "Test"); (clock 6 30, "Fajr"); (clock 12 45, "Dhuhr")]
       (sample_server muted_next)).2
  = [DeniedSkipNext]
  ∧ getSkipNext
      (fire_all all_files_exist
         [(clock 6 29, "Test"); (clock 6 30, "Fajr"); (clock 12 45, "Dhuhr")]
         (sample_server muted_next)).1
    = false.
Proof.
  destruct (proj2 (proj2 (proj2 (one_shot_skips_first_gated all_files_exist
              [(clock 6 29, "Test"); (clock 6 30, "Fajr"); (clock 12 45, "Dhuhr")]
              (sample_server muted_next))))
            eq_refl [(clock 6 29, "Test")] (clock 6 30) "Fajr"
            [(clock 12 45, "Dhuhr")] eq_refl)
    as (_ & _ & Hone & Hflag & _).
  - intros f [<-|[]]. vm_compute. reflexivity.
  - vm_compute. reflexivity.
  - split; [exact Hone|exact Hflag].
Defined.

Lemma skip_status_predicts_firing_witness :
  (playAthan all_files_exist (clock 6 30) "Fajr" (sample_server muted_next)).2
  = DeniedSkipNext
  ∧ getSkipNext (playAthan all_files_exist (clock 6 30) "Fajr"
                   (sample_server muted_next)).1 = false.
Proof.
  destruct (proj1 (skip_status_predicts_firing all_files_exist (clock 6 30) "Fajr"
                     (sample_server muted_next) ltac:(simpl; auto) eq_refl) eq_refl)
    as (H1 & H2 & _).
  split; [exact H1|exact H2].
Defined.

Lemma audio_output_routing_witness :
  shouldPlay (checkAthanTime (clock 6 30) (sample_server idle)) = true
  ∧ answer_audioFile (checkAthanTime (clock 6 30) (sample_server idle))
    = Some "Masjid Al-Haram.mp3".
Proof.
  destruct (audio_output_routing all_files_exist (clock 6 30) (sample_server idle) fajr)
    as (Hpoll & _ & Hfile & _).
  - vm_compute. reflexivity.
  - reflexivity.
  - intros (row & Hrow & Hp & _). vm_compute in Hrow.
    injection Hrow as <-. discriminate.
  - vm_compute. reflexivity.
  - assert (Hplay : shouldPlay (checkAthanTime (clock 6 30) (sample_server idle)) = true).
    { apply Hpoll. vm_compute. discriminate. }
    split; [exact Hplay|]. exact (proj2 (Hfile Hplay)).
Defined.

Lemma friday_job_follows_settings_witness :
  (settings_status
     (postSettings node_cron "friday_quran_enabled" "1" (sample_server idle)).2 = 200
   ∧ fridayQuranJob
       (postSettings node_cron "friday_quran_enabled" "1" (sample_server idle)).1
     = Some (mkCron (Some 0) (Some 7)))
  ∧ (settings_status
       (postSettings node_cron "friday_quran_time" "ab:cd" friday_server).2 = 500
     ∧ fridayQuranJob (postSettings node_cron "friday_quran_time" "ab:cd" friday_server).1
       = None
     ∧ jobScheduled
         (fridayQuranStatus
            (postSettings node_cron "friday_quran_time" "ab:cd" friday_server).1)
       = false).
Proof.
  split.
  - destruct (friday_job_follows_settings node_cron "friday_quran_enabled" "1"
                (sample_server idle)) as (_ & _ & _ & _ & Hjob & _).
    + by left.
    + apply (Hjob 7 0).
      * lia.
      * lia.
      * vm_compute. reflexivity.
      * vm_compute. reflexivity.
      * reflexivity.
  - destruct (friday_job_follows_settings node_cron "friday_quran_time" "ab:cd"
                friday_server) as (_ & Hiff & Hfail & _).
    + by right.
    + cbv zeta in Hiff.
      assert (H500 : settings_status
                (postSettings node_cron "friday_quran_time" "ab:cd" friday_server).2
              = 500).
      { apply (proj2 Hiff). split; vm_compute; reflexivity. }
      destruct (Hfail H500) as (Hnone & _ & Hsched).
      split; [exact H500|]. split; [exact Hnone|exact Hsched].
Defined.

Lemma friday_trigger_handshake_witness :
  fq_shouldPlay
    (checkFridayQuran (clock_friday 7 1) friday_server
       (playQuran all_files_exist (clock_friday 7 0) friday_server sample_rest).1).2
  = true
  ∧ Forall (fun a => fq_shouldPlay a = false)
      (friday_polls [clock_friday 7 2; clock_friday 7 3] friday_server
         (checkFridayQuran (clock_friday 7 1) friday_server
            (playQuran all_files_exist (clock_friday 7 0) friday_server
               sample_rest).1).1).2.
Proof.
  destruct (proj1 (friday_trigger_handshake all_files_exist (clock_friday 7 0)
              [clock 8 0] (clock_friday 7 1) [clock_friday 7 2; clock_friday 7 3]
              friday_server sample_rest (mkTrigger 0 None None)
              eq_refl eq_refl
              ltac:(intros w [<-|[]]; discriminate) eq_refl)
            ltac:(left; reflexivity))
    as (_ & _ & _ & Hplay & _ & _ & Hlater).
  split; [exact Hplay|exact Hlater].
Defined.

Lemma refresh_success_calendar_witness :
  (fetchPrayerTimes utc_parseDateTime sample_city sample_next_update (clock 6 0)
     (Fetched [mkEvent "VEVENT" "Fajr" (clock 5 0)]) (sample_server idle)).2 = true
  ∧ In (mkPrayer "2025-01-06" "Fajr" "05:00")
       (prayers (db (fetchPrayerTimes utc_parseDateTime sample_city sample_next_update
                       (clock 6 0) (Fetched [mkEvent "VEVENT" "Fajr" (clock 5 0)])
                       (sample_server idle)).1)).
Proof.
  destruct (refresh_success_calendar utc_parseDateTime sample_city sample_next_update
              (clock 6 0) [mkEvent "VEVENT" "Fajr" (clock 5 0)] (sample_server idle)
              "https://prayerwebcal.dsultan.com/ics/La_Mecque/x=21.421:y=39.827")
    as (Hok & _ & _ & Hin & _).
  - vm_compute. reflexivity.
  - split; [exact Hok|].
    refine (Hin [] (mkEvent "VEVENT" "Fajr" (clock 5 0)) [] eq_refl _ _).
    + vm_compute. reflexivity.
    + intros ev' [].
Defined.

Lemma refresh_keeps_times_on_clock_witness :
  ∃ h m, 0 <= h < 24 ∧ 0 <= m < 60
         ∧ prayer_time (mkPrayer "2025-01-06" "Fajr" "05:00") = hhmm h m
         ∧ minutesOf (prayer_time (mkPrayer "2025-01-06" "Fajr" "05:00"))
           = Some (h * 60 + m).
Proof.
  refine (refresh_keeps_times_on_clock utc_parseDateTime sample_city sample_next_update
            (clock 6 0) (Fetched [mkEvent "VEVENT" "Fajr" (clock 5 0)])
            (sample_server idle) _ _ (mkPrayer "2025-01-06" "Fajr" "05:00") _).
  - apply sample_calendar_well_timed.
  - intros events ev Hev Hin. injection Hev as <-.
    destruct Hin as [<-|[]]. simpl. lia.
  - vm_compute. left. reflexivity.
Defined.

Lemma nextUpcoming_clock_order_witness :
  ∃ r rm, nextUpcoming (clock 6 0) (sample_server idle) = Some r
          ∧ main_on (db (sample_server idle)) (today (clock 6 0)) r
          ∧ minutesOf (prayer_time r) = Some rm
          ∧ getHours (clock 6 0) * 60 + getMinutes (clock 6 0) < rm
          ∧ ∀ q' qm', main_on (db (sample_server idle)) (today (clock 6 0)) q' →
              minutesOf (prayer_time q') = Some qm' →
              getHours (clock 6 0) * 60 + getMinutes (clock 6 0) < qm' → rm <= qm'.
Proof.
  refine (nextUpcoming_clock_order (clock 6 0) (sample_server idle) dhuhr 765
            _ _ _ _ _ _).
  - simpl. lia.
  - simpl. lia.
  - intros r (Hr & _). by apply sample_calendar_well_timed.
  - split; [simpl; auto|]. split; [vm_compute; reflexivity|simpl; auto].
  - vm_compute. reflexivity.
  - simpl. lia.
Defined.

Lemma formatDateLocal_order_witness :
  String.compare (formatDateLocal (mkLocalDate 2025 0 31))
                 (formatDateLocal (mkLocalDate 2025 1 1))
  = date_compare (mkLocalDate 2025 0 31) (mkLocalDate 2025 1 1)
  ∧ JS.str_lt (formatDateLocal (mkLocalDate 2025 0 31))
              (formatDateLocal (setDate_next (mkLocalDate 2025 0 31))) = true.
Proof.
  destruct (formatDateLocal_order (mkLocalDate 2025 0 31) (mkLocalDate 2025 1 1))
    as (Hcmp & _ & _ & Hnext).
  - unfold valid_date. simpl. lia.
  - unfold valid_date. simpl. lia.
  - split; [exact Hcmp|]. refine (proj1 (Hnext _ _)).
    + repeat split; vm_compute; discriminate.
    + simpl. lia.
Defined.

(** A first start, and a start on a store whose Friday recitation is
    enabled at a time that is no time of day: the top level ends in the
    exception of [cron.schedule]. *)
Example start_completion :
  startCompletion node_cron empty_store 0 = Returned
  ∧ startCompletion node_cron (db bad_time_server) 0 = Threw.
Proof. vm_compute. auto. Qed.

Lemma startup_establishes_invariants_witness :
  store_ok (initTables empty_store)
  ∧ reachable utc_parseDateTime all_files_exist sample_city sample_next_update
      node_cron (startServer node_cron empty_store sample_rest 0).1.
Proof.
  destruct (startup_establishes_invariants utc_parseDateTime all_files_exist
              sample_city sample_next_update node_cron empty_store sample_rest 0)
    as (Hok & Hreach & _).
  - apply NoDup_nil_2.
  - apply NoDup_nil_2.
  - intros c [].
  - split; [exact Hok|exact Hreach].
Defined.



(** The import of the sample export, run: 52 lines, 35 of them cells; Dhuhr
    is enabled again and one prayer is checked. *)
Example import_of_export_counts :
  match importSettings node_cron (clock 7 0)
          (Some (exportSettings (sample_server idle) sample_rest))
          dhuhr_off_server (mkRest [] None None) with
  | Imported s' r' n k =>
      (n, k, prayerSettingEnabled "Dhuhr" s', length (prayer_checks r'))
  | _ => (0, 0, 0, 0%nat)
  end = (52, 35, 1, 1%nat).
Proof. vm_compute. reflexivity. Qed.

(** The import of an export that carries an enabled recitation at a time
    that is no time of day: the lines are written, [scheduleFridayQuran]
    throws, the answer is the failure and no Friday job is left. *)
Example import_of_bad_time_fails :
  match importSettings node_cron (clock 7 0)
          (Some (exportSettings bad_time_server sample_rest))
          dhuhr_off_server (mkRest [] None None) with
  | ImportFailed s' r' =>
      (Sql.setting (db s') "friday_quran_time", fridayQuranJob s',
       prayerSettingEnabled "Dhuhr" s', length (prayer_checks r'))
  | _ => (None, None, 0, 0%nat)
  end = (Some "ab:cd", None, 1, 1%nat).
Proof. vm_compute. reflexivity. Qed.



(** A volume written as the front end sends it, and the next firing. *)
Example volume_setting_scenario :
  (playAthan all_files_exist (clock 12 45) "Dhuhr"
     (postSettings node_cron "volume" (pretty 70) (sample_server idle)).1).2
  = Played "Masjid Al-Haram.mp3" (Some 70) false.
Proof. vm_compute. reflexivity. Qed.

(** The checks of the day: an unchecked prayer becomes checked, a checked
    one unchecked. *)
Example toggle_scenario :
  (togglePrayerCheck (clock 13 0) "2025-01-06" "Dhuhr" sample_rest).2 = 1
  ∧ (togglePrayerCheck (clock 13 0) "2025-01-06" "Fajr" sample_rest).2 = 0
  ∧ (togglePrayerCheck (clock 13 0) "2025-01-05" "Isha" sample_rest).2 = 1.
Proof. vm_compute. auto. Qed.

(** The reset of the one-shot mute, set or consumed. *)
Example reset_scenario :
  skip_next (db (resetSkipNext (sample_server muted_next))) = Some idle
  ∧ skip_next (db (resetSkipNext (sample_server consumed_fajr))) = Some idle.
Proof. vm_compute. auto. Qed.

Lemma reset_skip_next_clears_witness :
  getSkipNext (resetSkipNext (sample_server muted_next)) = false
  ∧ allowed (playAthan all_files_exist (clock 6 30) "Fajr"
               (resetSkipNext (sample_server muted_next))).2
    = negb (cell_off (db (sample_server muted_next)) "Fajr" (dayIndexOf (clock 6 30))).
Proof.
  destruct (reset_skip_next_clears all_files_exist (clock 6 30)
              (sample_server muted_next)) as (Hflag & _ & _ & Hfire & _).
  split; [exact Hflag|]. apply Hfire. simpl. auto.
Defined.

Lemma volume_write_read_witness :
  (playAthan all_files_exist (clock 12 45) "Dhuhr"
     (postSettings node_cron "fajr_volume" (pretty 70) (sample_server idle)).1).2
  = (playAthan all_files_exist (clock 12 45) "Dhuhr" (sample_server idle)).2.
Proof.
  refine (proj1 (proj2 (proj2 (volume_write_read all_files_exist all_files_exist
                                 node_cron 70 (clock 12 45) "Dhuhr"
                                 (sample_server idle) sample_rest _))) _).
  - split; vm_compute; discriminate.
  - discriminate.
Defined.

Lemma toggle_prayer_check_witness :
  (togglePrayerCheck (clock 13 1) "2025-01-06" "Dhuhr"
     (togglePrayerCheck (clock 13 0) "2025-01-06" "Dhuhr" sample_rest).1).2
  = 1 - (togglePrayerCheck (clock 13 0) "2025-01-06" "Dhuhr" sample_rest).2
  ∧ NoDup (List.map check_key
             (prayer_checks
                (togglePrayerCheck (clock 13 0) "2025-01-06" "Dhuhr" sample_rest).1)).
Proof.
  destruct (toggle_prayer_check (clock 13 0) (clock 13 1) "2025-01-06" "Dhuhr"
              sample_rest) as (_ & _ & _ & Htwice & _ & Hkeys).
  split; [exact Htwice|]. apply Hkeys.
  apply (bool_decide_unpack _). vm_compute. reflexivity.
Defined.

Lemma drift_rearms_once_witness :
  rearm_count
    (driftCheck utc_parseDateTime node_cron (clock 6 2)
       (driftCheck utc_parseDateTime node_cron (clock 6 0) (sample_server idle)).1).1
  = S (rearm_count
         (driftCheck utc_parseDateTime node_cron (clock 6 0) (sample_server idle)).1)
  ∧ driftCheck utc_parseDateTime node_cron (clock_sec 6 0 10)
      (driftCheck utc_parseDateTime node_cron (clock 6 0) (sample_server idle)).1
    = (set_lastSystemTime (getTime (clock_sec 6 0 10))
         (driftCheck utc_parseDateTime node_cron (clock 6 0) (sample_server idle)).1,
       Returned).
Proof.
  split.
  - refine (proj2 (proj2 (drift_rearms_once utc_parseDateTime node_cron (clock 6 0)
                            (clock 6 2) (sample_server idle) _)) _).
    + vm_compute. reflexivity.
    + right. simpl. lia.
  - refine (proj1 (proj1 (proj2 (drift_rearms_once utc_parseDateTime node_cron
                                   (clock 6 0) (clock_sec 6 0 10)
                                   (sample_server idle) _)) _)).
    + vm_compute. reflexivity.
    + simpl. lia.
Defined.

Lemma restore_defaults_state_witness :
  playAthan all_files_exist (clock 15 20) "Asr"
    (restoreDefaults node_cron dhuhr_off_server sample_rest).1
  = ((restoreDefaults node_cron dhuhr_off_server sample_rest).1,
     if all_files_exist "Masjid Al-Haram.mp3"
     then Played "Masjid Al-Haram.mp3" (Some 50) false
     else AudioFileNotFound "Masjid Al-Haram.mp3")
  ∧ prayerSettingEnabled "Dhuhr"
      (restoreDefaults node_cron dhuhr_off_server sample_rest).1 = 1.
Proof.
  destruct (restore_defaults_state all_files_exist node_cron (clock 15 20)
              dhuhr_off_server
              sample_rest)
    as (_ & _ & _ & _ & Hview & _ & _ & _ & _ & _ & _ & _ & Hplay).
  split; [apply Hplay; simpl; auto|apply Hview].
Defined.
